(** * EDSP scraper: a shallow embedding of the crawl orchestrator

    The development follows the layout of the Python sources:

    - [Py], [Codec], [Csv]  the fragments of the Python runtime the
      program relies on (text as code points, exceptions, [range], integer
      formatting, true division, UTF-8 decoding, the [csv] reader);
    - [SchoolClassification], [SchoolData], [ProcessingStats],
      [BatchConfig]                 [src/domain/entities.py];
    - [SchoolDataProcessor], [BatchProcessor]
                                    [src/application/services.py];
    - [TextFile], [CSVStorage]      [src/infrastructure/storage.py];
    - [BrowserManager]              [src/infrastructure/browser.py];
    - [EDSPScraper]                 [src/application/scraper.py];
    - [Main]                        [main.py].

    Everything the program obtains from outside (the rendered pages, the
    clock, the file system) is an explicit argument of the function that
    consumes it.  Logging calls are omitted: they do not influence any
    value or state discussed here. *)

From Stdlib Require Import ZArith NArith Floats Uint63 Ascii String Decimal Permutation.
From Stdlib Require Import DecimalN DecimalFacts.
From Stdlib.Strings Require Import Byte.
From stdpp Require Import gmap strings list.

Open Scope Z_scope.

(* ===================================================================== *)
(** * Python runtime fragments *)
(* ===================================================================== *)

Module Py.

(** A Python [str] is a sequence of Unicode code points. *)
Definition str : Type := list N.

(** Source literals are ASCII; [lit] reads one as a [str]. *)
Definition lit (s : string) : str := N_of_ascii <$> list_ascii_of_string s.

(** Exceptions that occur in the modelled code. *)
Inductive exn : Type :=
| RuntimeError (msg : str)
| ValueError (msg : str)
| KeyError (key : str)
| ZeroDivisionError (msg : str)
| UnicodeDecodeError
| CsvError (msg : str)
| RetryError (last : exn)
| OtherError (msg : str).

(** [str(e)]: the message; a [KeyError] shows the [repr] of its key.
    The texts of a decoding error and of a [RetryError], which embed
    positions and object addresses, are abbreviated. *)
Fixpoint str_of_exn (e : exn) : str :=
  match e with
  | RuntimeError m | ValueError m | ZeroDivisionError m
  | CsvError m | OtherError m => m
  | KeyError k => lit "'" ++ k ++ lit "'"
  | UnicodeDecodeError => lit "'utf-8' codec can't decode bytes"
  | RetryError last => lit "RetryError[" ++ str_of_exn last ++ lit "]"
  end.

(** The outcome of evaluating an expression that may raise. *)
Inductive result (A : Type) : Type :=
| Ok (a : A)
| Raise (e : exn).
Arguments Ok {A} a.
Arguments Raise {A} e.

Definition is_ok {A} (r : result A) : bool :=
  match r with Ok _ => true | Raise _ => false end.

Definition rbind {A B} (r : result A) (k : A -> result B) : result B :=
  match r with Ok a => k a | Raise e => Raise e end.

(** ** Text predicates and transformations *)

(** [str.isspace] on one code point: the ASCII table of CPython and the
    Unicode characters with the White_Space or bidirectional WS/B/S
    property. *)
Definition isspace (c : N) : bool :=
  ((9 <=? c) && (c <=? 13) || (28 <=? c) && (c <=? 32)
   || (c =? 133) || (c =? 160) || (c =? 5760)
   || (8192 <=? c) && (c <=? 8202)
   || (c =? 8232) || (c =? 8233) || (c =? 8239) || (c =? 8287)
   || (c =? 12288))%N.

Fixpoint lstrip (s : str) : str :=
  match s with
  | c :: s' => if isspace c then lstrip s' else s
  | [] => []
  end.

Definition rstrip (s : str) : str := reverse (lstrip (reverse s)).

(** [s.strip()] *)
Definition strip (s : str) : str := rstrip (lstrip s).

(** The Unicode character database is not part of the program: the full
    upper-case mapping of the non-ASCII code points is an interface. *)
Class UnicodeDatabase := { toupper_full : N -> list N }.

Definition ascii_upper (c : N) : N :=
  if ((97 <=? c) && (c <=? 122))%N then (c - 32)%N else c.

Definition upper_cp `{UnicodeDatabase} (c : N) : list N :=
  if (c <? 128)%N then [ascii_upper c] else toupper_full c.

(** [s.upper()] maps every code point through the full case mapping. *)
Definition upper `{UnicodeDatabase} (s : str) : str := s ≫= upper_cp.

Fixpoint startswith (s p : str) : bool :=
  match p, s with
  | [], _ => true
  | c :: p', d :: s' => if (c =? d)%N then startswith s' p' else false
  | _ :: _, [] => false
  end.

(** [needle in hay] *)
Fixpoint contains (needle hay : str) : bool :=
  startswith hay needle ||
  match hay with
  | [] => false
  | _ :: hay' => contains needle hay'
  end.

(** ** Integers *)

Fixpoint digits (d : Decimal.uint) : str :=
  match d with
  | Nil => []
  | D0 d => 48%N :: digits d
  | D1 d => 49%N :: digits d
  | D2 d => 50%N :: digits d
  | D3 d => 51%N :: digits d
  | D4 d => 52%N :: digits d
  | D5 d => 53%N :: digits d
  | D6 d => 54%N :: digits d
  | D7 d => 55%N :: digits d
  | D8 d => 56%N :: digits d
  | D9 d => 57%N :: digits d
  end.

(** [format(n, "0<width>d")]: sign-aware zero padding. *)
Definition format_0d (width : nat) (n : Z) : str :=
  let sign := if n <? 0 then lit "-" else [] in
  let ds := digits (N.to_uint (Z.abs_N n)) in
  sign ++ replicate (width - length sign - length ds) 48%N ++ ds.

(** [range(start, stop, step)] as the list it enumerates; a zero step
    raises. *)
Definition range (start stop step : Z) : result (list Z) :=
  if step =? 0 then Raise (ValueError (lit "range() arg 3 must not be zero"))
  else
    let len :=
      if 0 <? step
      then (if start <? stop then (stop - start - 1) / step + 1 else 0)
      else (if stop <? start then (start - stop - 1) / (- step) + 1 else 0) in
    Ok ((fun i : nat => start + Z.of_nat i * step) <$> seq 0 (Z.to_nat len)).

(** [float(n)], exact for |n| < 2^53. *)
Definition float_of_int (n : Z) : float :=
  if n <? 0 then PrimFloat.opp (PrimFloat.of_uint63 (Uint63.of_Z (- n)))
  else PrimFloat.of_uint63 (Uint63.of_Z n).

(** [a / b] on integers: true division.  For operands below 2^53 CPython
    divides the two exact doubles. *)
Definition truediv (a b : Z) : result float :=
  if b =? 0 then Raise (ZeroDivisionError (lit "division by zero"))
  else Ok (PrimFloat.div (float_of_int a) (float_of_int b)).

End Py.

Export Py(UnicodeDatabase, toupper_full).

(* ===================================================================== *)
(** * Domain entities ([src/domain/entities.py]) *)
(* ===================================================================== *)

Module SchoolClassification.

Definition PEI : Py.str := Py.lit "PEI".
Definition EE : Py.str := Py.lit "EE".
Definition UNKNOWN : Py.str := Py.lit "UNKNOWN".

(** Instances carry one attribute; [__eq__] and [__hash__] compare it. *)
Record t : Type := make { value : Py.str }.

(** [from_text]: a missing or empty text is falsy; otherwise the local
    variable [text] is rebound to its stripped, upper-cased form and that
    rebound value is what the last branch wraps. *)
Definition from_text `{UnicodeDatabase} (text : option Py.str) : t :=
  match text with
  | None | Some [] => make UNKNOWN
  | Some text =>
      let text := Py.upper (Py.strip text) in
      if decide (text = PEI) then make PEI
      else if decide (text = EE) then make EE
      else make text
  end.

End SchoolClassification.

Inductive ProcessingStatus : Type := SUCCESS | ERROR | SKIPPED.

Module ProcessingStatusValue.
Definition value (s : ProcessingStatus) : Py.str :=
  match s with
  | SUCCESS => Py.lit "SUCCESS"
  | ERROR => Py.lit "ERROR"
  | SKIPPED => Py.lit "SKIPPED"
  end.
End ProcessingStatusValue.

(** A naive [datetime.datetime]. *)
Module datetime.

Record t : Type := make {
  year : Z; month : Z; day : Z;
  hour : Z; minute : Z; second : Z; microsecond : Z }.

Definition isoformat (d : t) : Py.str :=
  Py.format_0d 4 (year d) ++ Py.lit "-" ++ Py.format_0d 2 (month d)
  ++ Py.lit "-" ++ Py.format_0d 2 (day d) ++ Py.lit "T"
  ++ Py.format_0d 2 (hour d) ++ Py.lit ":" ++ Py.format_0d 2 (minute d)
  ++ Py.lit ":" ++ Py.format_0d 2 (second d)
  ++ (if microsecond d =? 0 then []
      else Py.lit "." ++ Py.format_0d 6 (microsecond d)).

(** [strftime("%Y%m%d_%H%M%S")] *)
Definition strftime_compact (d : t) : Py.str :=
  Py.format_0d 4 (year d) ++ Py.format_0d 2 (month d)
  ++ Py.format_0d 2 (day d) ++ Py.lit "_"
  ++ Py.format_0d 2 (hour d) ++ Py.format_0d 2 (minute d)
  ++ Py.format_0d 2 (second d).

End datetime.

Module SchoolData.

Record t : Type := make {
  name : Py.str;
  classification : SchoolClassification.t;
  detail_url : Py.str;
  extraction_timestamp : datetime.t;
  status : ProcessingStatus;
  teaching_directorate : Py.str;
  neighborhood : Py.str;
  municipality : Py.str;
  phone : Py.str;
  email : Py.str;
  ideb_score_final_years : Py.str;
  idesp_score_final_years : Py.str;
  ideb_score_high_school : Py.str;
  idesp_score_high_school : Py.str;
  total_students : Py.str;
  age_06_10_final_years : Py.str;
  age_11_14_final_years : Py.str;
  age_15_17_final_years : Py.str;
  age_18_plus_final_years : Py.str;
  age_06_10_high_school : Py.str;
  age_11_14_high_school : Py.str;
  age_15_17_high_school : Py.str;
  age_18_plus_high_school : Py.str;
  total_classes : Py.str;
  classes_final_years : Py.str;
  classes_high_school : Py.str;
  total_classrooms : Py.str;
  error_message : option Py.str }.

(** [to_dict]: the row handed to the CSV writer. *)
Definition to_dict (s : t) : gmap string Py.str :=
  list_to_map
  [ ("school_name", name s);
    ("classification", SchoolClassification.value (classification s));
    ("detail_url", detail_url s);
    ("extraction_timestamp", datetime.isoformat (extraction_timestamp s));
    ("status", ProcessingStatusValue.value (status s));
    ("teaching_directorate", teaching_directorate s);
    ("neighborhood", neighborhood s);
    ("municipality", municipality s);
    ("phone", phone s);
    ("email", email s);
    ("ideb_score_final_years", ideb_score_final_years s);
    ("idesp_score_final_years", idesp_score_final_years s);
    ("ideb_score_high_school", ideb_score_high_school s);
    ("idesp_score_high_school", idesp_score_high_school s);
    ("total_students", total_students s);
    ("age_06_10_final_years", age_06_10_final_years s);
    ("age_11_14_final_years", age_11_14_final_years s);
    ("age_15_17_final_years", age_15_17_final_years s);
    ("age_18_plus_final_years", age_18_plus_final_years s);
    ("age_06_10_high_school", age_06_10_high_school s);
    ("age_11_14_high_school", age_11_14_high_school s);
    ("age_15_17_high_school", age_15_17_high_school s);
    ("age_18_plus_high_school", age_18_plus_high_school s);
    ("total_classes", total_classes s);
    ("classes_final_years", classes_final_years s);
    ("classes_high_school", classes_high_school s);
    ("total_classrooms", total_classrooms s);
    ("error_message",
       match error_message s with
       | None | Some [] => []
       | Some m => m
       end) ]%string.

End SchoolData.

Module ProcessingStats.

Record t : Type := make {
  total_processed : Z;
  successful : Z;
  errors : Z;
  skipped : Z;
  pages_processed : Z;
  total_pages : Z;
  total_institutions : Z }.

(** The dataclass defaults. *)
Definition init : t := make 0 0 0 0 0 0 0.


Definition update_success (s : t) : t :=
  make (total_processed s + 1) (successful s + 1) (errors s) (skipped s)
       (pages_processed s) (total_pages s) (total_institutions s).

Definition update_error (s : t) : t :=
  make (total_processed s + 1) (successful s) (errors s + 1) (skipped s)
       (pages_processed s) (total_pages s) (total_institutions s).

Definition update_skipped (s : t) : t :=
  make (total_processed s + 1) (successful s) (errors s) (skipped s + 1)
       (pages_processed s) (total_pages s) (total_institutions s).

End ProcessingStats.

Module BatchConfig.

Record t : Type := make {
  start_page : Z;
  end_page : Z;
  batch_name : Py.str;
  max_concurrent : Z;
  retry_attempts : Z;
  delay_between_requests : float;
  delay_between_pages : float }.

End BatchConfig.

(* ===================================================================== *)
(** * Application services ([src/application/services.py]) *)
(* ===================================================================== *)

Module SchoolDataProcessor.

Record t : Type := make {
  processed_urls : gset Py.str;
  stats : ProcessingStats.t }.

Definition init : t := make ∅ ProcessingStats.init.

Definition reset_processing_state (p : t) : t := make ∅ ProcessingStats.init.

Definition parse_school_classification `{UnicodeDatabase}
    (classification_text : option Py.str) : SchoolClassification.t :=
  SchoolClassification.from_text classification_text.

(** The optional text arguments of [create_school_data], all defaulting to
    the empty string. *)
Record details : Type := make_details {
  teaching_directorate : Py.str;
  neighborhood : Py.str;
  municipality : Py.str;
  phone : Py.str;
  email : Py.str;
  ideb_score_final_years : Py.str;
  idesp_score_final_years : Py.str;
  ideb_score_high_school : Py.str;
  idesp_score_high_school : Py.str;
  total_students : Py.str;
  age_06_10_final_years : Py.str;
  age_11_14_final_years : Py.str;
  age_15_17_final_years : Py.str;
  age_18_plus_final_years : Py.str;
  age_06_10_high_school : Py.str;
  age_11_14_high_school : Py.str;
  age_15_17_high_school : Py.str;
  age_18_plus_high_school : Py.str;
  total_classes : Py.str;
  classes_final_years : Py.str;
  classes_high_school : Py.str;
  total_classrooms : Py.str }.

Definition no_details : details :=
  make_details [] [] [] [] [] [] [] [] [] [] [] [] [] [] [] [] [] [] [] [] [] [].

(** [create_school_data]; [now] is the value of [datetime.now()] at the
    call. *)
Definition create_school_data (now : datetime.t)
    (name : Py.str) (classification : SchoolClassification.t)
    (detail_url : Py.str) (d : details)
    (status : ProcessingStatus) (error_message : option Py.str)
  : SchoolData.t :=
  SchoolData.make name classification detail_url now status
    (teaching_directorate d) (neighborhood d) (municipality d)
    (phone d) (email d)
    (ideb_score_final_years d) (idesp_score_final_years d)
    (ideb_score_high_school d) (idesp_score_high_school d)
    (total_students d)
    (age_06_10_final_years d) (age_11_14_final_years d)
    (age_15_17_final_years d) (age_18_plus_final_years d)
    (age_06_10_high_school d) (age_11_14_high_school d)
    (age_15_17_high_school d) (age_18_plus_high_school d)
    (total_classes d) (classes_final_years d) (classes_high_school d)
    (total_classrooms d) error_message.

Definition update_stats_success (p : t) : t :=
  make (processed_urls p) (ProcessingStats.update_success (stats p)).

Definition update_stats_error (p : t) : t :=
  make (processed_urls p) (ProcessingStats.update_error (stats p)).

Definition update_stats_skipped (p : t) : t :=
  make (processed_urls p) (ProcessingStats.update_skipped (stats p)).

(** The normalisation that [is_url_processed] and [mark_url_processed]
    both apply before they touch the set. *)
Definition normalize_url (url : Py.str) : Py.str :=
  let normalized_url := Py.strip url in
  if Py.startswith normalized_url (Py.lit "/")
  then Py.lit "https://transparencia.educacao.sp.gov.br" ++ normalized_url
  else normalized_url.

Definition is_url_processed (p : t) (url : Py.str) : bool :=
  bool_decide (normalize_url url ∈ processed_urls p).

Definition mark_url_processed (p : t) (url : Py.str) : t :=
  make ({[normalize_url url]} ∪ processed_urls p) (stats p).

End SchoolDataProcessor.

Module BatchProcessor.

(** The processor owns the run totals [stats]. *)
Record t : Type := make { stats : ProcessingStats.t }.

Definition init : t := make ProcessingStats.init.

(** One iteration of the loop of [create_batches]: the loop state is the
    list built so far and the running [batch_number]. *)
Definition create_batches_step (total_pages batch_size : Z)
    (acc : list BatchConfig.t * Z) (start_page : Z)
  : list BatchConfig.t * Z :=
  let '(batches, batch_number) := acc in
  let end_page := Z.min (start_page + batch_size - 1) total_pages in
  let batch_name := Py.lit "BATCH_" ++ Py.format_0d 3 batch_number in
  let batch_config :=
    BatchConfig.make start_page end_page batch_name 12 3 0x1.999999999999ap-2%float 1.5%float in
  (batches ++ [batch_config], batch_number + 1).

Definition create_batches (total_pages batch_size : Z)
  : Py.result (list BatchConfig.t) :=
  Py.rbind (Py.range 1 (total_pages + 1) batch_size) (fun pages =>
    Py.Ok (fst (fold_left (create_batches_step total_pages batch_size)
                  pages ([], 1)))).

(** [merge_stats] updates five attributes of the processor's own stats in
    place; the two remaining ones keep their value. *)
Definition merge_stats (self : t) (batch_stats : ProcessingStats.t) : t :=
  let s := stats self in
  make (ProcessingStats.make
          (ProcessingStats.total_processed s
             + ProcessingStats.total_processed batch_stats)
          (ProcessingStats.successful s + ProcessingStats.successful batch_stats)
          (ProcessingStats.errors s + ProcessingStats.errors batch_stats)
          (ProcessingStats.skipped s + ProcessingStats.skipped batch_stats)
          (ProcessingStats.pages_processed s
             + ProcessingStats.pages_processed batch_stats)
          (ProcessingStats.total_pages s)
          (ProcessingStats.total_institutions s)).

(** [get_progress_percentage]: the division is not guarded. *)
Definition get_progress_percentage (current_batch total_batches : Z)
  : Py.result float :=
  Py.rbind (Py.truediv current_batch total_batches)
    (fun q => Py.Ok (PrimFloat.mul q (Py.float_of_int 100))).

End BatchProcessor.

(* ===================================================================== *)
(** * Reading text files and CSV ([open], [csv.reader]) *)
(* ===================================================================== *)

Module Codec.

Definition continuation (b : N) : bool := ((128 <=? b) && (b <=? 191))%N.

(** The strict UTF-8 decoder of [open(..., encoding="utf-8")]: [None] is a
    [UnicodeDecodeError] (invalid start byte, invalid continuation byte,
    over-long form, surrogate, or truncated sequence). *)
Fixpoint utf8_decode (bs : list N) : option Py.str :=
  match bs with
  | [] => Some []
  | b0 :: r0 =>
      if (b0 <? 128)%N then cons b0 <$> utf8_decode r0
      else if ((194 <=? b0) && (b0 <=? 223))%N then
        match r0 with
        | b1 :: r1 =>
            if continuation b1
            then cons ((b0 - 192) * 64 + (b1 - 128))%N <$> utf8_decode r1
            else None
        | [] => None
        end
      else if ((224 <=? b0) && (b0 <=? 239))%N then
        match r0 with
        | b1 :: b2 :: r2 =>
            if continuation b1 && continuation b2
               && negb ((b0 =? 224) && (b1 <? 160))%N
               && negb ((b0 =? 237) && (160 <=? b1))%N
            then cons ((b0 - 224) * 4096 + (b1 - 128) * 64 + (b2 - 128))%N
                   <$> utf8_decode r2
            else None
        | _ => None
        end
      else if ((240 <=? b0) && (b0 <=? 244))%N then
        match r0 with
        | b1 :: b2 :: b3 :: r3 =>
            if continuation b1 && continuation b2 && continuation b3
               && negb ((b0 =? 240) && (b1 <? 144))%N
               && negb ((b0 =? 244) && (144 <=? b1))%N
            then cons ((b0 - 240) * 262144 + (b1 - 128) * 4096
                       + (b2 - 128) * 64 + (b3 - 128))%N
                   <$> utf8_decode r3
            else None
        | _ => None
        end
      else None
  end.

(** Universal newlines on input: every ["\r\n"] and every lone ["\r"]
    reads as ["\n"]. *)
Fixpoint translate_newlines (s : Py.str) : Py.str :=
  match s with
  | [] => []
  | c :: s' =>
      if (c =? 13)%N then
        match s' with
        | d :: s'' =>
            if (d =? 10)%N then 10%N :: translate_newlines s''
            else 10%N :: translate_newlines s'
        | [] => [10%N]
        end
      else c :: translate_newlines s'
  end.

(** [f.read()] of a file opened in text mode. *)
Definition read_text (raw : list byte) : Py.result Py.str :=
  match utf8_decode (Byte.to_N <$> raw) with
  | Some s => Py.Ok (translate_newlines s)
  | None => Py.Raise Py.UnicodeDecodeError
  end.

(** Iterating a text file yields its lines, each with its ["\n"]. *)
Fixpoint lines_from (cur : Py.str) (s : Py.str) : list Py.str :=
  match s with
  | [] => match cur with [] => [] | _ => [reverse cur] end
  | c :: s' =>
      if (c =? 10)%N then reverse (c :: cur) :: lines_from [] s'
      else lines_from (c :: cur) s'
  end.

Definition readlines (s : Py.str) : list Py.str := lines_from [] s.

(** The UTF-8 encoder of a file opened for writing: a surrogate code
    point cannot be encoded ([None] is a [UnicodeEncodeError]). *)
Definition utf8_encode_cp (c : N) : option (list N) :=
  (if c <? 128 then Some [c]
   else if c <? 2048 then Some [192 + c / 64; 128 + c mod 64]
   else if c <? 65536 then
     if (55296 <=? c) && (c <=? 57343) then None
     else Some [224 + c / 4096; 128 + (c / 64) mod 64; 128 + c mod 64]
   else if c <? 1114112 then
     Some [240 + c / 262144; 128 + (c / 4096) mod 64;
           128 + (c / 64) mod 64; 128 + c mod 64]
   else None)%N.

Fixpoint utf8_encode (s : Py.str) : option (list N) :=
  match s with
  | [] => Some []
  | c :: s' =>
      match utf8_encode_cp c, utf8_encode s' with
      | Some bs, Some rest => Some (bs ++ rest)
      | _, _ => None
      end
  end.

Definition byte_of (n : N) : byte := default x00 (Byte.of_N n).

(** The bytes that reach a file opened with [newline=""] and
    [encoding="utf-8"] when [s] is written: no newline translation. *)
Definition write_text (s : Py.str) : Py.result (list byte) :=
  match utf8_encode s with
  | Some bs => Py.Ok (byte_of <$> bs)
  | None => Py.Raise (Py.OtherError (Py.lit "'utf-8' codec can't encode character"))
  end.

End Codec.

(** The reader of the [csv] module with the default ([excel]) dialect:
    comma delimiter, double-quote quoting with doubled quotes inside quoted
    fields, not strict, no escape character. *)
Module Csv.

Inductive state : Type :=
| START_RECORD | START_FIELD | IN_FIELD
| IN_QUOTED_FIELD | QUOTE_IN_QUOTED_FIELD | EAT_CRNL.

Definition at_record_start (s : state) : bool :=
  match s with START_RECORD => true | _ => false end.

Definition in_quotes (s : state) : bool :=
  match s with IN_QUOTED_FIELD => true | _ => false end.

(** [csv.field_size_limit()] *)
Definition field_limit : N := 131072.

Definition delimiter : N := 44.
Definition quotechar : N := 34.

(** The parser object: automaton state, fields of the record so far (last
    first), the field being built (last character first) and its length. *)
Record parser : Type := make_parser {
  st : state;
  fields : list Py.str;
  field : Py.str;
  field_len : N }.

Definition parse_reset : parser := make_parser START_RECORD [] [] 0.

Definition set_state (s : state) (p : parser) : parser :=
  make_parser s (fields p) (field p) (field_len p).

Definition parse_add_char (p : parser) (c : N) : Py.result parser :=
  if (field_limit <=? field_len p)%N
  then Py.Raise (Py.CsvError (Py.lit "field larger than field limit (131072)"))
  else Py.Ok (make_parser (st p) (fields p) (c :: field p) (field_len p + 1)).

Definition parse_save_field (p : parser) : parser :=
  make_parser (st p) (reverse (field p) :: fields p) [] 0.

Definition is_newline (c : N) : bool := ((c =? 10) || (c =? 13))%N.

(** One step of the automaton; [None] is the end-of-line marker fed after
    every line. *)
Definition parse_process_char (p : parser) (c : option N) : Py.result parser :=
  let end_of_field c :=
    Py.Ok (set_state (match c with None => START_RECORD | Some _ => EAT_CRNL end)
             (parse_save_field p)) in
  let start_field c :=
    match c with
    | None => end_of_field c
    | Some ch =>
        if is_newline ch then end_of_field c
        else if (ch =? quotechar)%N then Py.Ok (set_state IN_QUOTED_FIELD p)
        else if (ch =? delimiter)%N then Py.Ok (set_state START_FIELD (parse_save_field p))
        else Py.rbind (parse_add_char p ch) (fun p' => Py.Ok (set_state IN_FIELD p'))
    end in
  match st p with
  | START_RECORD =>
      match c with
      | None => Py.Ok p
      | Some ch =>
          if is_newline ch then Py.Ok (set_state EAT_CRNL p)
          else start_field c
      end
  | START_FIELD => start_field c
  | IN_FIELD =>
      match c with
      | None => end_of_field c
      | Some ch =>
          if is_newline ch then end_of_field c
          else if (ch =? delimiter)%N
          then Py.Ok (set_state START_FIELD (parse_save_field p))
          else parse_add_char p ch
      end
  | IN_QUOTED_FIELD =>
      match c with
      | None => Py.Ok p
      | Some ch =>
          if (ch =? quotechar)%N then Py.Ok (set_state QUOTE_IN_QUOTED_FIELD p)
          else parse_add_char p ch
      end
  | QUOTE_IN_QUOTED_FIELD =>
      match c with
      | None => end_of_field c
      | Some ch =>
          if (ch =? quotechar)%N
          then Py.rbind (parse_add_char p ch)
                 (fun p' => Py.Ok (set_state IN_QUOTED_FIELD p'))
          else if (ch =? delimiter)%N
          then Py.Ok (set_state START_FIELD (parse_save_field p))
          else if is_newline ch then end_of_field c
          else Py.rbind (parse_add_char p ch)
                 (fun p' => Py.Ok (set_state IN_FIELD p'))
      end
  | EAT_CRNL =>
      match c with
      | None => Py.Ok (set_state START_RECORD p)
      | Some ch =>
          if is_newline ch then Py.Ok p
          else Py.Raise (Py.CsvError
                 (Py.lit "new-line character seen in unquoted field"))
      end
  end.

Fixpoint feed (p : parser) (line : Py.str) : Py.result parser :=
  match line with
  | [] => parse_process_char p None
  | ch :: line' =>
      Py.rbind (parse_process_char p (Some ch)) (fun p' => feed p' line')
  end.

(** The reader as the sequence it produces: the records yielded, in order,
    and the exception that ends the iteration, if one does.  A record is
    complete when a line leaves the automaton in [START_RECORD]; input
    that ends inside a quoted field yields what was collected. *)
Fixpoint records_from (p : parser) (lines : list Py.str)
  : list (list Py.str) * option Py.exn :=
  match lines with
  | [] =>
      if negb (field_len p =? 0)%N || in_quotes (st p)
      then ([reverse (fields (parse_save_field p))], None)
      else ([], None)
  | line :: rest =>
      match feed p line with
      | Py.Raise e => ([], Some e)
      | Py.Ok p' =>
          if at_record_start (st p')
          then let '(rows, e) := records_from parse_reset rest in
               (reverse (fields p') :: rows, e)
          else records_from p' rest
      end
  end.

Definition reader (lines : list Py.str) : list (list Py.str) * option Py.exn :=
  records_from parse_reset lines.

(** ** The writer, same dialect: minimal quoting, line terminator CR LF *)

Definition special (c : N) : bool :=
  ((c =? delimiter) || (c =? quotechar) || (c =? 13) || (c =? 10))%N.

(** A field is quoted when it holds the delimiter, the quote character or
    a character of the line terminator. *)
Definition needs_quotes (cell : Py.str) : bool := existsb special cell.

(** Inside quotes every quote character is doubled. *)
Definition escape (cell : Py.str) : Py.str :=
  cell ≫= fun c => if (c =? quotechar)%N then [quotechar; quotechar] else [c].

Definition format_field (cell : Py.str) : Py.str :=
  if needs_quotes cell then [quotechar] ++ escape cell ++ [quotechar] else cell.

Fixpoint join_fields (cells : list Py.str) : Py.str :=
  match cells with
  | [] => []
  | [cell] => format_field cell
  | cell :: rest => format_field cell ++ [delimiter] ++ join_fields rest
  end.

Definition lineterminator : Py.str := [13%N; 10%N].

(** [writer.writerow]: the line written for a row of text cells.  A row
    made of one empty cell is written as a pair of quotes. *)
Definition format_row (row : list Py.str) : Py.str :=
  match row with
  | [[]] => [quotechar; quotechar] ++ lineterminator
  | _ => join_fields row ++ lineterminator
  end.

(** The text of a file that received the rows, in order. *)
Definition format_rows (rows : list (list Py.str)) : Py.str :=
  rows ≫= format_row.

End Csv.

(* ===================================================================== *)
(** * CSV storage ([src/infrastructure/storage.py]) *)
(* ===================================================================== *)

(** The text file object behind the storage.  Rows travel from the
    object's buffer to the operating system on [flush] and from there to
    stable storage on [os.fsync]; [events] records the calls that reached
    the object, oldest first. *)
Module TextFile.

Inductive event : Type :=
| EvWrite (row : list Py.str)
| EvFlush
| EvFsync
| EvClose.

Record t : Type := make {
  closed : bool;
  buffer : list (list Py.str);
  kernel : list (list Py.str);
  disk : list (list Py.str);
  events : list event }.

(** A file freshly opened with mode ["w"]. *)
Definition opened : t := make false [] [] [] [].

Definition closed_error : Py.exn :=
  Py.ValueError (Py.lit "I/O operation on closed file.").

Definition write (f : t) (row : list Py.str) : Py.result t :=
  if closed f then Py.Raise closed_error
  else Py.Ok (make false (buffer f ++ [row]) (kernel f) (disk f)
                (events f ++ [EvWrite row])).

Definition flush (f : t) : Py.result t :=
  if closed f then Py.Raise closed_error
  else Py.Ok (make false [] (kernel f ++ buffer f) (disk f)
                (events f ++ [EvFlush])).

(** [os.fsync(f.fileno())]: [fileno] raises on a closed file. *)
Definition fsync (f : t) : Py.result t :=
  if closed f then Py.Raise closed_error
  else Py.Ok (make false (buffer f) (kernel f) (kernel f)
                (events f ++ [EvFsync])).

(** [f.close()] flushes and closes; on a closed file it does nothing. *)
Definition close (f : t) : t :=
  if closed f then f
  else make true [] (kernel f ++ buffer f) (disk f) (events f ++ [EvClose]).

End TextFile.

Module CSVStorage.

Definition fieldnames : list string :=
  [ "school_name"; "classification"; "detail_url"; "extraction_timestamp";
    "status"; "teaching_directorate"; "neighborhood"; "municipality";
    "phone"; "email"; "ideb_score_final_years"; "idesp_score_final_years";
    "ideb_score_high_school"; "idesp_score_high_school"; "total_students";
    "age_06_10_final_years"; "age_11_14_final_years";
    "age_15_17_final_years"; "age_18_plus_final_years";
    "age_06_10_high_school"; "age_11_14_high_school";
    "age_15_17_high_school"; "age_18_plus_high_school"; "total_classes";
    "classes_final_years"; "classes_high_school"; "total_classrooms";
    "error_message" ]%string.

(** A [csv.DictWriter]; it writes to the file object the storage holds in
    [csv_file], which is the one it was built around. *)
Record DictWriter : Type := make_writer { writer_fieldnames : list string }.

Record t : Type := make {
  output_dir : Py.str;
  filename : option Py.str;
  csv_writer : option DictWriter;
  csv_file : option TextFile.t }.

(** Methods run in the state of the object and may raise. *)
Definition M (A : Type) : Type := t -> Py.result A * t.

Definition ret {A} (a : A) : M A := fun self => (Py.Ok a, self).

Definition raise {A} (e : Py.exn) : M A := fun self => (Py.Raise e, self).

Definition bind {A B} (m : M A) (k : A -> M B) : M B :=
  fun self =>
    match m self with
    | (Py.Ok a, self') => k a self'
    | (Py.Raise e, self') => (Py.Raise e, self')
    end.

Notation "'let*' x := m 'in' k" := (bind m (fun x => k))
  (at level 10, x pattern, m at level 100, k at level 200, only parsing).
Notation "m ;; k" := (bind m (fun _ => k))
  (at level 100, k at level 200, right associativity, only parsing).

Definition get : M t := fun self => (Py.Ok self, self).

Definition set_filename (path : Py.str) : M unit :=
  fun self =>
    (Py.Ok tt, make (output_dir self) (Some path) (csv_writer self) (csv_file self)).

Definition set_csv_writer (w : DictWriter) : M unit :=
  fun self =>
    (Py.Ok tt, make (output_dir self) (filename self) (Some w) (csv_file self)).

Definition set_csv_file (f : TextFile.t) : M unit :=
  fun self =>
    (Py.Ok tt, make (output_dir self) (filename self) (csv_writer self) (Some f)).

Definition lift {A} (r : Py.result A) : M A :=
  match r with Py.Ok a => ret a | Py.Raise e => raise e end.

(** A method call on the object referenced by [self._csv_file]. *)
Definition file_call (op : TextFile.t -> Py.result TextFile.t) : M unit :=
  let* self := get in
  match csv_file self with
  | Some f => let* f' := lift (op f) in set_csv_file f'
  | None => raise (Py.OtherError (Py.lit "'NoneType' object has no attribute"))
  end.

(** [__init__], after [mkdir(exist_ok=True)] succeeded. *)
Definition init (output_dir : Py.str) : t := make output_dir None None None.

(** [Path(output_dir) / filename] *)
Definition path_join (dir name : Py.str) : Py.str :=
  if Py.startswith name (Py.lit "/") then name
  else dir ++ Py.lit "/" ++ name.

(** [DictWriter.writerow]: keys outside the field names raise, missing
    keys are written as empty cells. *)
Definition writerow (w : DictWriter) (rowdict : gmap string Py.str) : M unit :=
  if bool_decide (dom rowdict ⊆ list_to_set (C := gset string) (writer_fieldnames w))
  then
    let row := (fun key => default [] (rowdict !! key)) <$> writer_fieldnames w in
    file_call (fun f => TextFile.write f row)
  else raise (Py.ValueError (Py.lit "dict contains fields not in fieldnames")).

(** [DictWriter.writeheader] writes the row of the field names. *)
Definition writeheader (w : DictWriter) : M unit :=
  writerow w (list_to_map ((fun key => (key, Py.lit key)) <$> writer_fieldnames w)).

(** [initialize_csv]; [now] is the clock reading and [open_] the outcome
    of opening the path for writing. *)
Definition initialize_csv (now : datetime.t)
    (open_ : Py.str -> Py.result unit) (fname : option Py.str) : M Py.str :=
  let fname :=
    match fname with
    | None | Some [] =>
        Py.lit "edsp_schools_" ++ datetime.strftime_compact now ++ Py.lit ".csv"
    | Some n => n
    end in
  let* self := get in
  let path := path_join (output_dir self) fname in
  set_filename path ;;
  lift (open_ path) ;;
  set_csv_file TextFile.opened ;;
  let w := make_writer fieldnames in
  set_csv_writer w ;;
  writeheader w ;;
  ret path.

Definition write_school_data (school_data : SchoolData.t) : M unit :=
  let* self := get in
  match csv_writer self with
  | None =>
      raise (Py.RuntimeError
               (Py.lit "CSV file not initialized. Call initialize_csv() first."))
  | Some w => writerow w (SchoolData.to_dict school_data)
  end.

Definition write_single_school (school : SchoolData.t) : M unit :=
  write_school_data school ;;
  let* self := get in
  match csv_file self with
  | Some _ => file_call TextFile.flush
  | None => ret tt
  end.

Fixpoint write_multiple_schools (schools : list SchoolData.t) : M unit :=
  match schools with
  | [] => ret tt
  | school :: rest => write_school_data school ;; write_multiple_schools rest
  end.

(** [close]: the guard tests the attribute [_csv_file], which holds the
    file object from [initialize_csv] on and is never reset; a file
    object is truthy whether open or closed. *)
Definition close : M unit :=
  let* self := get in
  match csv_file self with
  | Some _ =>
      file_call TextFile.flush ;;
      file_call TextFile.fsync ;;
      file_call (fun f => Py.Ok (TextFile.close f))
  | None => ret tt
  end.

Definition force_save : M unit :=
  let* self := get in
  match csv_file self with
  | Some _ => file_call TextFile.flush ;; file_call TextFile.fsync
  | None => ret tt
  end.

(** What the file system answers when the artifact is looked up again. *)
Inductive fs_entry : Type :=
| Absent
| Unreadable (e : Py.exn)
| Regular (content : list byte).

Definition exists_ (entry : fs_entry) : bool :=
  match entry with Absent => false | _ => true end.

(** The body of the [try] block of [verify_file_integrity]. *)
Definition verify_body (entry : fs_entry) : Py.result bool :=
  match entry with
  | Absent => Py.Raise (Py.OtherError (Py.lit "No such file or directory"))
  | Unreadable e => Py.Raise e
  | Regular raw =>
      Py.rbind (Codec.read_text raw) (fun content =>
        if bool_decide (Py.strip content = []) then Py.Ok false
        else
          match Csv.reader (Codec.readlines content) with
          | ([], Some e) => Py.Raise e
          | ([], None) => Py.Ok false
          | ([] :: _, _) => Py.Ok false
          | ((_ :: _) :: _, Some e) => Py.Raise e
          | ((_ :: _) :: _, None) => Py.Ok true
          end)
  end.

Definition verify_file_integrity (fs : Py.str -> fs_entry) (self : t) : bool :=
  match filename self with
  | None => false
  | Some path =>
      if exists_ (fs path) then
        match verify_body (fs path) with
        | Py.Ok b => b
        | Py.Raise _ => false
        end
      else false
  end.

(** The body of the [try] block of [get_partial_data_count]: the header
    is skipped and the remaining records are counted. *)
Definition count_body (entry : fs_entry) : Py.result nat :=
  match entry with
  | Absent => Py.Raise (Py.OtherError (Py.lit "No such file or directory"))
  | Unreadable e => Py.Raise e
  | Regular raw =>
      Py.rbind (Codec.read_text raw) (fun content =>
        match Csv.reader (Codec.readlines content) with
        | (_, Some e) => Py.Raise e
        | (rows, None) => Py.Ok (length (tail rows))
        end)
  end.

Definition get_partial_data_count (fs : Py.str -> fs_entry) (self : t) : nat :=
  match filename self with
  | None => 0%nat
  | Some path =>
      if exists_ (fs path) then
        match count_body (fs path) with
        | Py.Ok n => n
        | Py.Raise _ => 0%nat
        end
      else 0%nat
  end.

End CSVStorage.

(* ===================================================================== *)
(** * Browser management ([src/infrastructure/browser.py]) *)
(* ===================================================================== *)

Module BrowserManager.

(** ** What the rendering session answers

    Every awaited renderer call either returns or raises; the records
    below collect the answers a function consumes, in the order of its
    calls. *)

(** One iteration of the navigation loop. *)
Record advance_world : Type := make_advance {
  (** [page.query_selector(selector)]: was an element returned? *)
  query_selector : string -> Py.result bool;
  (** [next_button.click()] *)
  click : Py.result unit;
  (** [page.wait_for_timeout(3000)] *)
  wait_after_click : Py.result unit;
  (** [page.wait_for_selector("#tabelabusca", timeout=10000)] *)
  wait_for_table : Py.result unit }.

Record navigation_world : Type := make_navigation {
  (** the body of [set_results_per_page] *)
  select_page_size : Py.result unit;
  (** [page.wait_for_timeout(2000)] *)
  wait_before : Py.result unit;
  (** the answers during the attempt of each index, from 0 *)
  advance : nat -> advance_world }.

(** What [navigate_to_page_robust] did: calls of [set_results_per_page],
    calls of [click] on the advance control, verified re-renders. *)
Inductive nav_event : Type :=
| SetResultsPerPage (n : Z)
| Click
| Rendered (page_index : Z).

(** [set_results_per_page]: every failure is caught and reported as
    [False]. *)
Definition set_results_per_page (body : Py.result unit) (n : Z)
  : bool * list nav_event :=
  (Py.is_ok body, [SetResultsPerPage n]).

Definition next_selectors : list string :=
  [ "a.paginate_button.next:not(.disabled)";
    "a.next:not(.disabled)";
    "a[class*='next']:not(.disabled)";
    "a:contains('Próximo')";
    "a:contains('Next')" ]%string.

(** The selector loop: stop at the first selector that returns an
    element; a selector that raises is skipped and leaves [next_button]
    as it was. *)
Fixpoint find_next_button (q : string -> Py.result bool)
    (selectors : list string) (next_button : bool) : bool :=
  match selectors with
  | [] => next_button
  | selector :: rest =>
      match q selector with
      | Py.Ok true => true
      | Py.Ok false => find_next_button q rest false
      | Py.Raise _ => find_next_button q rest next_button
      end
  end.

(** The [for attempt in range(max_attempts)] loop.  [remaining] counts
    the iterations left, [attempt] is the loop variable.  The function
    returns where the Python loop returns or leaves the loop: the result
    after the loop is [False]. *)
Fixpoint navigation_loop (w : nat -> advance_world) (target_page : Z)
    (remaining attempt : nat) (current_page : Z) (trace : list nav_event)
  : bool * Z * list nav_event :=
  match remaining with
  | O => (false, current_page, trace)
  | S remaining' =>
      if target_page <=? current_page then (true, current_page, trace)
      else if find_next_button (query_selector (w attempt)) next_selectors false
      then
        match click (w attempt) with
        | Py.Raise _ => (false, current_page, trace ++ [Click])
        | Py.Ok _ =>
            match wait_after_click (w attempt) with
            | Py.Raise _ => (false, current_page, trace ++ [Click])
            | Py.Ok _ =>
                match wait_for_table (w attempt) with
                | Py.Ok _ =>
                    navigation_loop w target_page remaining' (S attempt)
                      (current_page + 1)
                      (trace ++ [Click; Rendered (current_page + 1)])
                | Py.Raise _ =>
                    navigation_loop w target_page remaining' (S attempt)
                      current_page (trace ++ [Click])
                end
            end
        end
      else (false, current_page, trace)
  end.

(** [navigate_to_page_robust]: the result, the page counter at the end
    and the trace of what was done. *)
Definition navigate_to_page_robust (w : navigation_world) (target_page : Z)
  : bool * Z * list nav_event :=
  if target_page =? 1 then
    (true, 1, snd (set_results_per_page (select_page_size w) 100))
  else
    match wait_before w with
    | Py.Raise _ => (false, 1, [])
    | Py.Ok _ =>
        if 1 <? target_page then
          let max_attempts := target_page + 5 in
          navigation_loop (advance w) target_page (Z.to_nat max_attempts) 0 1 []
        else (true, 1, [])
    end.

(** ** Detail extraction with retry *)

(** The values [extract_school_details] reads off the rendered document. *)
Record raw_fields : Type := make_raw {
  school_name : Py.str;
  classification : Py.str;
  teaching_directorate : Py.str;
  neighborhood : Py.str;
  municipality : Py.str;
  phone : Py.str;
  email : Py.str;
  ideb_score_final_years : Py.str;
  idesp_score_final_years : Py.str;
  ideb_score_high_school : Py.str;
  idesp_score_high_school : Py.str;
  total_students : Py.str;
  total_classes : Py.str;
  classes_final_years : Py.str;
  classes_high_school : Py.str;
  total_classrooms : Py.str;
  age_06_10_final_years : Py.str;
  age_11_14_final_years : Py.str;
  age_15_17_final_years : Py.str;
  age_18_plus_final_years : Py.str;
  age_06_10_high_school : Py.str;
  age_11_14_high_school : Py.str;
  age_15_17_high_school : Py.str;
  age_18_plus_high_school : Py.str }.

(** The dictionary returned by the function body. *)
Definition details_dict (detail_url : Py.str) (r : raw_fields)
  : gmap string Py.str :=
  list_to_map
  [ ("name", school_name r);
    ("classification", classification r);
    ("detail_url", detail_url);
    ("teaching_directorate", teaching_directorate r);
    ("neighborhood", neighborhood r);
    ("municipality", municipality r);
    ("phone", phone r);
    ("email", email r);
    ("ideb_score_final_years", ideb_score_final_years r);
    ("idesp_score_final_years", idesp_score_final_years r);
    ("ideb_score_high_school", ideb_score_high_school r);
    ("idesp_score_high_school", idesp_score_high_school r);
    ("total_students", total_students r);
    ("total_classes", total_classes r);
    ("classes_final_years", classes_final_years r);
    ("classes_high_school", classes_high_school r);
    ("total_classrooms", total_classrooms r);
    ("age_06_10_final_years", age_06_10_final_years r);
    ("age_11_14_final_years", age_11_14_final_years r);
    ("age_15_17_final_years", age_15_17_final_years r);
    ("age_18_plus_final_years", age_18_plus_final_years r);
    ("age_06_10_high_school", age_06_10_high_school r);
    ("age_11_14_high_school", age_11_14_high_school r);
    ("age_15_17_high_school", age_15_17_high_school r);
    ("age_18_plus_high_school", age_18_plus_high_school r) ]%string.

(** The [@retry] decorator: [stop_after_attempt]; every exception is
    retried; when the last attempt raises, a [RetryError] wrapping it is
    raised.  [body n] is the outcome of the attempt numbered [n], from 1;
    [more] counts the attempts still allowed after this one. *)
Fixpoint retry_from {A} (more attempt_number : nat)
    (body : nat -> Py.result A) : Py.result A :=
  match body attempt_number with
  | Py.Ok a => Py.Ok a
  | Py.Raise e =>
      match more with
      | O => Py.Raise (Py.RetryError e)
      | S more' => retry_from more' (S attempt_number) body
      end
  end.

Definition stop_after_attempt : nat := 3.

(** What one detail page answers. *)
Record school_world : Type := make_school {
  (** [context.new_page()] *)
  open_page : Py.result unit;
  (** loading and reading the document on the attempt of each number *)
  load : nat -> Py.result raw_fields;
  (** [page.close()] *)
  close_page : Py.result unit }.

Definition extract_school_details (w : school_world) (detail_url : Py.str)
  : Py.result (gmap string Py.str) :=
  retry_from (stop_after_attempt - 1) 1
    (fun n => Py.rbind (load w n) (fun r => Py.Ok (details_dict detail_url r))).

(** [process_school_parallel]: the page is closed in a [finally] clause,
    whose own failure replaces the outcome. *)
Definition process_school_parallel (w : school_world) (url : Py.str)
  : Py.result (gmap string Py.str) :=
  Py.rbind (open_page w) (fun _ =>
    let outcome := extract_school_details w url in
    match close_page w with
    | Py.Ok _ => outcome
    | Py.Raise e => Py.Raise e
    end).

(** ** Links of a result page *)

Record links_world : Type := make_links {
  (** [page.wait_for_selector("#tabelabusca", timeout=30000)] *)
  wait_table : Py.result unit;
  (** the waits for the alternative selectors *)
  wait_alternative : string -> Py.result unit;
  (** [page.wait_for_timeout(3000)] *)
  settle : Py.result unit;
  (** [page.query_selector_all(selector)]: for every element returned,
      the outcome of reading its [href] attribute *)
  query_selector_all : string -> Py.result (list (Py.result (option Py.str))) }.

Definition site_root : Py.str := Py.lit "https://transparencia.educacao.sp.gov.br".

(** Order-preserving removal of duplicates with the [seen] set. *)
Fixpoint unique_links (links : list Py.str) (seen : gset Py.str) : list Py.str :=
  match links with
  | [] => []
  | link :: rest =>
      if bool_decide (link ∈ seen) then unique_links rest seen
      else link :: unique_links rest ({[link]} ∪ seen)
  end.

Definition first_nonempty {A} (q : string -> Py.result (list A))
    (selectors : list string) : list A :=
  fold_left
    (fun found selector =>
       match found with
       | _ :: _ => found
       | [] => match q selector with Py.Ok l => l | Py.Raise _ => found end
       end)
    selectors [].

Definition extract_school_links (w : links_world) : list Py.str :=
  let proceed :=
    match wait_table w with
    | Py.Ok _ => true
    | Py.Raise _ =>
        existsb (fun selector => Py.is_ok (wait_alternative w selector))
          [ "table tbody tr td a"; ".dataTable tbody tr td a";
            "tbody tr td a" ]%string
    end in
  if proceed then
    match settle w with
    | Py.Raise _ => []
    | Py.Ok _ =>
        let school_links :=
          first_nonempty (query_selector_all w)
            [ "#tabelabusca tbody tr td a"; "table tbody tr td a";
              ".dataTable tbody tr td a" ]%string in
        let links :=
          school_links ≫= (fun link =>
            match link with
            | Py.Ok (Some href) =>
                match href with
                | [] => []
                | _ =>
                    if Py.contains (Py.lit "DetalhesEscola") href then
                      [if Py.startswith href (Py.lit "/")
                       then site_root ++ href else href]
                    else []
                end
            | Py.Ok None | Py.Raise _ => []
            end) in
        unique_links links ∅
    end
  else [].

(** ** One result page *)

Record page_world : Type := make_page {
  (** [context.new_page()] *)
  new_page : Py.result unit;
  (** [page.goto(base_url)] and the wait after it *)
  goto_base : Py.result unit;
  navigation : navigation_world;
  links : links_world;
  (** the detail page behind every link *)
  school : Py.str -> school_world }.

(** [asyncio.gather] with [return_exceptions=True] followed by the loop
    over its results: dictionaries are appended to [page_results], an
    exception is logged as a warning. *)
Fixpoint collect_results (results : list (Py.result (gmap string Py.str)))
  : list (gmap string Py.str) :=
  match results with
  | [] => []
  | Py.Ok d :: rest => d :: collect_results rest
  | Py.Raise _ :: rest => collect_results rest
  end.

Definition process_page_parallel (w : page_world) (page_num : Z)
  : Py.result (list (gmap string Py.str)) :=
  Py.rbind (new_page w) (fun _ =>
    match goto_base w with
    | Py.Raise _ => Py.Ok []
    | Py.Ok _ =>
        let _ := set_results_per_page (select_page_size (navigation w)) 100 in
        if (1 <? page_num)
           && negb (fst (fst (navigate_to_page_robust (navigation w) page_num)))
        then Py.Ok []
        else
          let school_links := extract_school_links (links w) in
          let results :=
            (fun link => process_school_parallel (school w link) link)
              <$> school_links in
          Py.Ok (collect_results results)
    end).

End BrowserManager.

(* ===================================================================== *)
(** * The scraper ([src/application/scraper.py]) *)
(* ===================================================================== *)

Module EDSPScraper.

(** The attributes of the scraper object.  [clock_reads] is bookkeeping
    of the model: the number of [datetime.now()] calls made so far. *)
Record t : Type := make {
  school_processor : SchoolDataProcessor.t;
  batch_processor : BatchProcessor.t;
  storage : CSVStorage.t;
  all_schools : list SchoolData.t;
  clock_reads : nat }.

(** The surroundings of a run: the clock, the start of the browser and
    of its contexts, their release when the batch is over, and the result
    page behind every page number. *)
Record world : Type := make_world {
  clock : nat -> datetime.t;
  launch : Py.result unit;
  shutdown : Py.result unit;
  page : Z -> BrowserManager.page_world }.

Definition init (output_dir : Py.str) : t :=
  make SchoolDataProcessor.init BatchProcessor.init
    (CSVStorage.init output_dir) [] 0.

Definition M (A : Type) : Type := t -> Py.result A * t.

Definition ret {A} (a : A) : M A := fun self => (Py.Ok a, self).

Definition raise {A} (e : Py.exn) : M A := fun self => (Py.Raise e, self).

Definition bind {A B} (m : M A) (k : A -> M B) : M B :=
  fun self =>
    match m self with
    | (Py.Ok a, self') => k a self'
    | (Py.Raise e, self') => (Py.Raise e, self')
    end.

Notation "'let*' x := m 'in' k" := (bind m (fun x => k))
  (at level 10, x pattern, m at level 100, k at level 200, only parsing).
Notation "m ;; k" := (bind m (fun _ => k))
  (at level 100, k at level 200, right associativity, only parsing).

Definition get : M t := fun self => (Py.Ok self, self).

Definition lift {A} (r : Py.result A) : M A :=
  match r with Py.Ok a => ret a | Py.Raise e => raise e end.

Definition modify_school_processor
    (f : SchoolDataProcessor.t -> SchoolDataProcessor.t) : M unit :=
  fun self =>
    (Py.Ok tt,
     make (f (school_processor self)) (batch_processor self) (storage self)
       (all_schools self) (clock_reads self)).

(** A method call on [self.storage]. *)
Definition storage_call {A} (m : CSVStorage.M A) : M A :=
  fun self =>
    let '(r, st) := m (storage self) in
    (r, make (school_processor self) (batch_processor self) st
          (all_schools self) (clock_reads self)).

Definition append_all_schools (s : SchoolData.t) : M unit :=
  fun self =>
    (Py.Ok tt,
     make (school_processor self) (batch_processor self) (storage self)
       (all_schools self ++ [s]) (clock_reads self)).

(** [datetime.now()] *)
Definition now (w : world) : M datetime.t :=
  fun self =>
    (Py.Ok (clock w (clock_reads self)),
     make (school_processor self) (batch_processor self) (storage self)
       (all_schools self) (S (clock_reads self))).

(** [raw_data[key]] *)
Definition getitem (raw_data : gmap string Py.str) (key : string)
  : Py.result Py.str :=
  match raw_data !! key with
  | Some v => Py.Ok v
  | None => Py.Raise (Py.KeyError (Py.lit key))
  end.

(** [raw_data.get(key, "")] *)
Definition get_default (raw_data : gmap string Py.str) (key : string) : Py.str :=
  default [] (raw_data !! key).

(** The arguments of the call in the [try] block, evaluated in order. *)
Definition success_arguments `{UnicodeDatabase} (raw_data : gmap string Py.str)
  : Py.result (Py.str * SchoolClassification.t * Py.str
               * SchoolDataProcessor.details) :=
  Py.rbind (getitem raw_data "classification") (fun text =>
    let classification :=
      SchoolDataProcessor.parse_school_classification (Some text) in
    Py.rbind (getitem raw_data "name") (fun name =>
      Py.rbind (getitem raw_data "detail_url") (fun detail_url =>
        Py.Ok (name, classification, detail_url,
               SchoolDataProcessor.make_details
                 (get_default raw_data "teaching_directorate")
                 (get_default raw_data "neighborhood")
                 (get_default raw_data "municipality")
                 (get_default raw_data "phone")
                 (get_default raw_data "email")
                 (get_default raw_data "ideb_score_final_years")
                 (get_default raw_data "idesp_score_final_years")
                 (get_default raw_data "ideb_score_high_school")
                 (get_default raw_data "idesp_score_high_school")
                 (get_default raw_data "total_students")
                 (get_default raw_data "age_06_10_final_years")
                 (get_default raw_data "age_11_14_final_years")
                 (get_default raw_data "age_15_17_final_years")
                 (get_default raw_data "age_18_plus_final_years")
                 (get_default raw_data "age_06_10_high_school")
                 (get_default raw_data "age_11_14_high_school")
                 (get_default raw_data "age_15_17_high_school")
                 (get_default raw_data "age_18_plus_high_school")
                 (get_default raw_data "total_classes")
                 (get_default raw_data "classes_final_years")
                 (get_default raw_data "classes_high_school")
                 (get_default raw_data "total_classrooms"))))).

(** [process_school_data]: the [except] clause turns a failure of the
    [try] block into an ERROR entity. *)
Definition process_school_data `{UnicodeDatabase} (w : world)
    (raw_data : gmap string Py.str) : M SchoolData.t :=
  match success_arguments raw_data with
  | Py.Ok (name, classification, detail_url, d) =>
      let* t := now w in
      let school_data :=
        SchoolDataProcessor.create_school_data t name classification
          detail_url d SUCCESS None in
      modify_school_processor SchoolDataProcessor.update_stats_success ;;
      ret school_data
  | Py.Raise e =>
      modify_school_processor SchoolDataProcessor.update_stats_error ;;
      let* t := now w in
      ret (SchoolDataProcessor.create_school_data t []
             (SchoolClassification.make (Py.lit "UNKNOWN"))
             (get_default raw_data "detail_url")
             SchoolDataProcessor.no_details ERROR (Some (Py.str_of_exn e)))
  end.

(** The body of the loop over the dictionaries of one page. *)
Definition handle_raw_data `{UnicodeDatabase} (w : world)
    (raw_data : gmap string Py.str) : M SchoolData.t :=
  let* school_data := process_school_data w raw_data in
  append_all_schools school_data ;;
  storage_call (CSVStorage.write_single_school school_data) ;;
  ret school_data.

Fixpoint handle_page_results `{UnicodeDatabase} (w : world)
    (page_results : list (gmap string Py.str)) : M (list SchoolData.t) :=
  match page_results with
  | [] => ret []
  | raw_data :: rest =>
      let* school_data := handle_raw_data w raw_data in
      let* more := handle_page_results w rest in
      ret (school_data :: more)
  end.

(** The loop over the gathered page results: a page task that ended in an
    exception is not a list and is passed over. *)
Fixpoint handle_all_results `{UnicodeDatabase} (w : world)
    (all_results : list (Py.result (list (gmap string Py.str))))
  : M (list SchoolData.t) :=
  match all_results with
  | [] => ret []
  | Py.Ok page_results :: rest =>
      let* schools := handle_page_results w page_results in
      let* more := handle_all_results w rest in
      ret (schools ++ more)
  | Py.Raise _ :: rest => handle_all_results w rest
  end.

Definition add_pages_processed (n : Z) (p : SchoolDataProcessor.t)
  : SchoolDataProcessor.t :=
  let s := SchoolDataProcessor.stats p in
  SchoolDataProcessor.make (SchoolDataProcessor.processed_urls p)
    (ProcessingStats.make
       (ProcessingStats.total_processed s) (ProcessingStats.successful s)
       (ProcessingStats.errors s) (ProcessingStats.skipped s)
       (ProcessingStats.pages_processed s + n)
       (ProcessingStats.total_pages s) (ProcessingStats.total_institutions s)).

(** [process_batch]: the body of the loop over the context generator
    runs once, between the start of the browser and its release.  The
    function returns the statistics object of the school processor; the
    model returns the list [batch_schools] with it. *)
Definition process_batch `{UnicodeDatabase} (w : world)
    (batch_config : BatchConfig.t)
  : M (list SchoolData.t * ProcessingStats.t) :=
  lift (launch w) ;;
  let* self := get in
  let end_page :=
    Z.min (BatchConfig.end_page batch_config)
      (ProcessingStats.total_pages
         (SchoolDataProcessor.stats (school_processor self))) in
  let* pages_to_process :=
    lift (Py.range (BatchConfig.start_page batch_config) (end_page + 1) 1) in
  let all_results :=
    (fun page_num => BrowserManager.process_page_parallel (page w page_num) page_num)
      <$> pages_to_process in
  let* batch_schools :=
    match pages_to_process with
    | [] => ret []
    | _ =>
        let* schools := handle_all_results w all_results in
        modify_school_processor
          (add_pages_processed (Z.of_nat (length pages_to_process))) ;;
        ret schools
    end in
  lift (shutdown w) ;;
  let* self := get in
  ret (batch_schools, SchoolDataProcessor.stats (school_processor self)).

(** The loop of [get_summary]: the number of SUCCESS entities per
    classification value. *)
Definition count_classification (classifications : gmap Py.str Z)
    (school : SchoolData.t) : gmap Py.str Z :=
  match SchoolData.status school with
  | SUCCESS =>
      let classification :=
        SchoolClassification.value (SchoolData.classification school) in
      <[classification := default 0 (classifications !! classification) + 1]>
        classifications
  | _ => classifications
  end.

Definition summary_classifications (self : t) : gmap Py.str Z :=
  fold_left count_classification (all_schools self) ∅.

(** The entry [total_schools] of the summary. *)
Definition summary_total_schools (self : t) : Z :=
  Z.of_nat (length (all_schools self)).

(** ** The whole run *)

(** The surroundings of a whole run: the clock, the outcome of opening
    the output file, what [get_total_pages] and [get_total_institutions]
    of the scraper return (each starts a browser of its own and reads a
    number off the base page), the start and the release of the browser
    of the batch of each index, from 1, and the result pages. *)
Record run_world : Type := make_run {
  run_clock : nat -> datetime.t;
  open_file : Py.str -> Py.result unit;
  total_pages : Py.result Z;
  total_institutions : Py.result Z;
  batch_launch : Z -> Py.result unit;
  batch_shutdown : Z -> Py.result unit;
  run_page : Z -> BrowserManager.page_world }.

Definition batch_world (w : run_world) (i : Z) : world :=
  make_world (run_clock w) (batch_launch w i) (batch_shutdown w i) (run_page w).

Definition modify_batch_processor (f : BatchProcessor.t -> BatchProcessor.t)
  : M unit :=
  fun self =>
    (Py.Ok tt,
     make (school_processor self) (f (batch_processor self)) (storage self)
       (all_schools self) (clock_reads self)).

(** The two assignments to attributes of [self.school_processor.stats]. *)
Definition set_totals (pages institutions : Z) (p : SchoolDataProcessor.t)
  : SchoolDataProcessor.t :=
  let s := SchoolDataProcessor.stats p in
  SchoolDataProcessor.make (SchoolDataProcessor.processed_urls p)
    (ProcessingStats.make
       (ProcessingStats.total_processed s) (ProcessingStats.successful s)
       (ProcessingStats.errors s) (ProcessingStats.skipped s)
       (ProcessingStats.pages_processed s) pages institutions).

(** The loop over [enumerate(batches, 1)]: [process_batch] returns the
    statistics object of the school processor, which [merge_stats] adds
    to the run totals; [log_progress] computes the percentage. *)
Fixpoint process_batches `{UnicodeDatabase} (w : run_world) (total_batches : Z)
    (i : Z) (batches : list BatchConfig.t) : M unit :=
  match batches with
  | [] => ret tt
  | batch_config :: rest =>
      let* result := process_batch (batch_world w i) batch_config in
      let batch_stats := snd result in
      modify_batch_processor
        (fun bp => BatchProcessor.merge_stats bp batch_stats) ;;
      lift (BatchProcessor.get_progress_percentage i total_batches) ;;
      process_batches w total_batches (i + 1) rest
  end.

(** The [try] block of [process_all_pages]. *)
Definition process_all_pages_body `{UnicodeDatabase} (w : run_world)
  : M ProcessingStats.t :=
  let* pages := lift (total_pages w) in
  let* institutions := lift (total_institutions w) in
  modify_school_processor (set_totals pages institutions) ;;
  let* batches := lift (BatchProcessor.create_batches pages 12) in
  process_batches w (Z.of_nat (length batches)) 1 batches ;;
  let* self := get in
  ret (BatchProcessor.stats (batch_processor self)).

(** [process_all_pages]: the reset and [initialize_csv] come before the
    [try]; the [except] clause calls [force_save], swallows what that
    raises and re-raises; the [finally] clause calls [close] and swallows
    what that raises. *)
Definition process_all_pages `{UnicodeDatabase} (w : run_world)
  : M ProcessingStats.t :=
  modify_school_processor SchoolDataProcessor.reset_processing_state ;;
  let* t := now (batch_world w 0) in
  storage_call (CSVStorage.initialize_csv t (open_file w) None) ;;
  fun self =>
    let '(r, self) := process_all_pages_body w self in
    let self :=
      match r with
      | Py.Ok _ => self
      | Py.Raise _ => snd (storage_call CSVStorage.force_save self)
      end in
    let self := snd (storage_call CSVStorage.close self) in
    (r, self).

(** ** The sample run *)





End EDSPScraper.

(* ===================================================================== *)
(** * Entry point ([main.py]) *)
(* ===================================================================== *)

Module Main.

(** What [signal_handler] does to the scraper before [sys.exit(0)]: with
    a scraper instance it calls [force_save] and then [close] on the
    storage inside one [try] block, and logs what either raises. *)
Definition signal_handler (scraper_instance : option EDSPScraper.t)
  : option EDSPScraper.t :=
  match scraper_instance with
  | None => None
  | Some self =>
      Some (snd (EDSPScraper.bind
                   (EDSPScraper.storage_call CSVStorage.force_save)
                   (fun _ => EDSPScraper.storage_call CSVStorage.close)
                   self))
  end.

End Main.

(* ===================================================================== *)
(** * Vocabulary of the statements *)
(* ===================================================================== *)

(** ** Statistics *)

(** The three update methods, as one operation indexed by the outcome of
    a record. *)
Inductive outcome : Type := Succeeded | Failed | Skipped.

Definition record_outcome (s : ProcessingStats.t) (o : outcome)
  : ProcessingStats.t :=
  match o with
  | Succeeded => ProcessingStats.update_success s
  | Failed => ProcessingStats.update_error s
  | Skipped => ProcessingStats.update_skipped s
  end.

Definition record_outcomes (os : list outcome) : ProcessingStats.t :=
  fold_left record_outcome os ProcessingStats.init.

(** The invariant of the counters. *)
Definition consistent (s : ProcessingStats.t) : Prop :=
  ProcessingStats.total_processed s
  = ProcessingStats.successful s + ProcessingStats.errors s
    + ProcessingStats.skipped s.

(** Field-wise order on the counters that the updates touch. *)
Definition counters_le (s s' : ProcessingStats.t) : Prop :=
  ProcessingStats.total_processed s <= ProcessingStats.total_processed s'
  /\ ProcessingStats.successful s <= ProcessingStats.successful s'
  /\ ProcessingStats.errors s <= ProcessingStats.errors s'
  /\ ProcessingStats.skipped s <= ProcessingStats.skipped s'.




(** ** Batches *)

(** Page [p] lies in the window of batch [b]. *)
Definition in_batch (b : BatchConfig.t) (p : Z) : Prop :=
  BatchConfig.start_page b <= p <= BatchConfig.end_page b.

(** Number of pages of the window of [b]. *)
Definition window_size (b : BatchConfig.t) : Z :=
  BatchConfig.end_page b - BatchConfig.start_page b + 1.

(** The configuration that the loop of [create_batches] builds in its
    iteration of index [i], from 0. *)
Definition nth_batch (total_pages batch_size : Z) (i : nat) : BatchConfig.t :=
  let start_page := 1 + Z.of_nat i * batch_size in
  BatchConfig.make start_page
    (Z.min (start_page + batch_size - 1) total_pages)
    (Py.lit "BATCH_" ++ Py.format_0d 3 (Z.of_nat i + 1))
    12 3 0x1.999999999999ap-2%float 1.5%float.

(** ** Records of a batch *)

(** The storage has been initialised and its file is open. *)
Definition storage_open (st : CSVStorage.t) : Prop :=
  CSVStorage.csv_writer st = Some (CSVStorage.make_writer CSVStorage.fieldnames)
  /\ exists f, CSVStorage.csv_file st = Some f /\ TextFile.closed f = false.

(** The rows written to the file so far, flushed or not, oldest first. *)
Definition written (st : CSVStorage.t) : list (list Py.str) :=
  match CSVStorage.csv_file st with
  | Some f => TextFile.kernel f ++ TextFile.buffer f
  | None => []
  end.

(** The row of an entity: its cells in the order of the field names. *)
Definition csv_row (s : SchoolData.t) : list Py.str :=
  (fun key => default [] (SchoolData.to_dict s !! key)) <$> CSVStorage.fieldnames.

(** The detail references for which [process_page_parallel] starts a
    task: the links of the page when the fan-out is reached, none when
    the function returns or raises before it. *)
Definition attempted_references (w : BrowserManager.page_world) (page_num : Z)
  : list Py.str :=
  match BrowserManager.new_page w, BrowserManager.goto_base w with
  | Py.Ok _, Py.Ok _ =>
      if (1 <? page_num)
         && negb (fst (fst (BrowserManager.navigate_to_page_robust
                              (BrowserManager.navigation w) page_num)))
      then []
      else BrowserManager.extract_school_links (BrowserManager.links w)
  | _, _ => []
  end.

(** The task of a reference returns a dictionary. *)
Definition fetch_succeeds (w : BrowserManager.page_world) (url : Py.str) : bool :=
  Py.is_ok (BrowserManager.process_school_parallel (BrowserManager.school w url) url).

Definition fetched_references (w : BrowserManager.page_world) (page_num : Z)
  : list Py.str :=
  List.filter (fetch_succeeds w) (attempted_references w page_num).

(** The counters after [n] successful records. *)
Definition add_successes (n : Z) (s : ProcessingStats.t) : ProcessingStats.t :=
  ProcessingStats.make
    (ProcessingStats.total_processed s + n) (ProcessingStats.successful s + n)
    (ProcessingStats.errors s) (ProcessingStats.skipped s)
    (ProcessingStats.pages_processed s)
    (ProcessingStats.total_pages s) (ProcessingStats.total_institutions s).

(** ** Integrity of the artifact *)

(** What the file system holds under the file name of the storage. *)
Definition artifact (fs : Py.str -> CSVStorage.fs_entry) (self : CSVStorage.t)
  : CSVStorage.fs_entry :=
  match CSVStorage.filename self with
  | Some path => fs path
  | None => CSVStorage.Absent
  end.


(** The text of the artifact, when it can be opened and decoded. *)
Definition artifact_text (fs : Py.str -> CSVStorage.fs_entry)
    (self : CSVStorage.t) : option Py.str :=
  match artifact fs self with
  | CSVStorage.Regular raw =>
      match Codec.read_text raw with
      | Py.Ok content => Some content
      | Py.Raise _ => None
      end
  | _ => None
  end.


(** The first record the CSV reader yields on the text of the artifact. *)
Definition header_row (fs : Py.str -> CSVStorage.fs_entry)
    (self : CSVStorage.t) : option (list Py.str) :=
  artifact_text fs self ≫= fun content =>
    head (fst (Csv.reader (Codec.readlines content))).

(** The header row parses: there is a first record and it has cells. *)
Definition header_row_parses (fs : Py.str -> CSVStorage.fs_entry)
    (self : CSVStorage.t) : bool :=
  match header_row fs self with
  | Some (_ :: _) => true
  | _ => false
  end.






(** ** Batches, continued *)

(** The number of windows of [batch_size] pages needed for
    [total_pages] pages. *)
Definition batch_count (total_pages batch_size : Z) : nat :=
  Z.to_nat ((total_pages - 1) / batch_size + 1).

(** ** Storage states *)

Definition not_initialized_error : Py.exn :=
  Py.RuntimeError (Py.lit "CSV file not initialized. Call initialize_csv() first.").

(** Opening the output file succeeds. *)
Definition opening_succeeds : Py.str -> Py.result unit := fun _ => Py.Ok tt.

(** The storage created in [dir] and initialised once. *)
Definition initialized_storage (now : datetime.t) (dir : Py.str)
    (fname : option Py.str) : CSVStorage.t :=
  snd (CSVStorage.initialize_csv now opening_succeeds fname (CSVStorage.init dir)).

(** The number of [os.fsync] calls that reached the file of the storage. *)
Definition fsync_count (self : CSVStorage.t) : nat :=
  match CSVStorage.csv_file self with
  | Some f =>
      length (List.filter
                (fun e => match e with TextFile.EvFsync => true | _ => false end)
                (TextFile.events f))
  | None => 0
  end.

(** ** Navigation traces *)

Definition clicks (trace : list BrowserManager.nav_event) : nat :=
  length (List.filter
            (fun e => match e with BrowserManager.Click => true | _ => false end)
            trace).

Definition renders (trace : list BrowserManager.nav_event) : nat :=
  length (List.filter
            (fun e => match e with BrowserManager.Rendered _ => true | _ => false end)
            trace).

(** ** Records of a batch, continued *)

(** The optional arguments that [process_school_data] reads off a
    dictionary built from [r]. *)
Definition details_of (r : BrowserManager.raw_fields) : SchoolDataProcessor.details :=
  SchoolDataProcessor.make_details
    (BrowserManager.teaching_directorate r)
    (BrowserManager.neighborhood r)
    (BrowserManager.municipality r)
    (BrowserManager.phone r)
    (BrowserManager.email r)
    (BrowserManager.ideb_score_final_years r)
    (BrowserManager.idesp_score_final_years r)
    (BrowserManager.ideb_score_high_school r)
    (BrowserManager.idesp_score_high_school r)
    (BrowserManager.total_students r)
    (BrowserManager.age_06_10_final_years r)
    (BrowserManager.age_11_14_final_years r)
    (BrowserManager.age_15_17_final_years r)
    (BrowserManager.age_18_plus_final_years r)
    (BrowserManager.age_06_10_high_school r)
    (BrowserManager.age_11_14_high_school r)
    (BrowserManager.age_15_17_high_school r)
    (BrowserManager.age_18_plus_high_school r)
    (BrowserManager.total_classes r)
    (BrowserManager.classes_final_years r)
    (BrowserManager.classes_high_school r)
    (BrowserManager.total_classrooms r).

(** The state after the entities [schools] were produced and stored. *)
Definition progressed (self self' : EDSPScraper.t) (schools : list SchoolData.t)
  : Prop :=
  EDSPScraper.school_processor self'
    = SchoolDataProcessor.make
        (SchoolDataProcessor.processed_urls (EDSPScraper.school_processor self))
        (add_successes (Z.of_nat (length schools))
           (SchoolDataProcessor.stats (EDSPScraper.school_processor self)))
  /\ EDSPScraper.batch_processor self' = EDSPScraper.batch_processor self
  /\ EDSPScraper.all_schools self' = EDSPScraper.all_schools self ++ schools
  /\ storage_open (EDSPScraper.storage self')
  /\ written (EDSPScraper.storage self')
     = written (EDSPScraper.storage self) ++ (csv_row <$> schools)
  /\ EDSPScraper.clock_reads self'
     = (EDSPScraper.clock_reads self + length schools)%nat.

(** A dictionary returned for the reference [url]. *)
Definition dict_for (d : gmap string Py.str) (url : Py.str) : Prop :=
  exists r, d = BrowserManager.details_dict url r.

(** A SUCCESS entity for the reference [url]. *)
Definition success_for (s : SchoolData.t) (url : Py.str) : Prop :=
  SchoolData.detail_url s = url
  /\ SchoolData.status s = SUCCESS
  /\ SchoolData.error_message s = None.


(* ===================================================================== *)
(** * Sample surroundings *)
(* ===================================================================== *)

(** A database that leaves the non-ASCII code points alone; the samples
    below contain ASCII text only. *)
Definition ascii_only_database : UnicodeDatabase :=
  {| toupper_full := fun c => [c] |}.

Definition sample_time : datetime.t := datetime.make 2024 5 17 9 30 0 0.

Definition timeout_error : Py.exn :=
  Py.OtherError (Py.lit "Timeout 30000ms exceeded.").

Definition href (n : Z) : Py.str :=
  Py.lit "/Home/DetalhesEscola?codesc=" ++ Py.format_0d 1 n.

Definition reference (n : Z) : Py.str := BrowserManager.site_root ++ href n.

Definition sample_school : SchoolData.t :=
  SchoolDataProcessor.create_school_data sample_time (Py.lit "EE Exemplo")
    (SchoolClassification.make SchoolClassification.EE) (reference 1)
    SchoolDataProcessor.no_details SUCCESS None.

Definition sample_fields : BrowserManager.raw_fields :=
  BrowserManager.make_raw (Py.lit "EE Exemplo") (Py.lit "PEI")
    [] [] [] [] [] [] [] [] [] [] [] [] [] [] [] [] [] [] [] [] [] [].

(** The detail page of reference 2 never loads; the others load at once. *)
Definition sample_school_world (url : Py.str) : BrowserManager.school_world :=
  BrowserManager.make_school (Py.Ok tt)
    (fun _ => if bool_decide (url = reference 2)
              then Py.Raise timeout_error else Py.Ok sample_fields)
    (Py.Ok tt).

Definition quiet_advance : BrowserManager.advance_world :=
  BrowserManager.make_advance (fun _ => Py.Ok false) (Py.Ok tt) (Py.Ok tt) (Py.Ok tt).

(** A result page that lists three schools. *)
Definition sample_page_world : BrowserManager.page_world :=
  BrowserManager.make_page (Py.Ok tt) (Py.Ok tt)
    (BrowserManager.make_navigation (Py.Ok tt) (Py.Ok tt) (fun _ => quiet_advance))
    (BrowserManager.make_links (Py.Ok tt) (fun _ => Py.Ok tt) (Py.Ok tt)
       (fun _ => Py.Ok [Py.Ok (Some (href 1)); Py.Ok (Some (href 2));
                        Py.Ok (Some (href 3))]))
    sample_school_world.

Definition sample_world : EDSPScraper.world :=
  EDSPScraper.make_world (fun _ => sample_time) (Py.Ok tt) (Py.Ok tt)
    (fun _ => sample_page_world).

Definition sample_batch : BatchConfig.t :=
  BatchConfig.make 1 1 (Py.lit "BATCH_001") 12 3
    0x1.999999999999ap-2%float 1.5%float.

(** A scraper whose storage was initialised and whose totals were set to
    one page and three institutions. *)
Definition sample_scraper : EDSPScraper.t :=
  EDSPScraper.make
    (SchoolDataProcessor.make ∅ (ProcessingStats.make 0 0 0 0 0 1 3))
    BatchProcessor.init
    (initialized_storage sample_time (Py.lit "results") None)
    [] 0.

(** A session in which the advance control is always there and every
    click goes through, but the table re-renders in time only from the
    attempt of index 6 on: the first six clicks are not verified. *)
Definition late_render (k : nat) : BrowserManager.advance_world :=
  BrowserManager.make_advance (fun _ => Py.Ok true) (Py.Ok tt) (Py.Ok tt)
    (if (6 <=? k)%nat then Py.Ok tt else Py.Raise timeout_error).

Definition late_render_world : BrowserManager.navigation_world :=
  BrowserManager.make_navigation (Py.Ok tt) (Py.Ok tt) late_render.

(** ** Further vocabulary *)

(** Reading decimal digits back. *)
Fixpoint undigits (s : Py.str) : Decimal.uint :=
  match s with
  | [] => Nil
  | c :: s' =>
      let d := undigits s' in
      if (c =? 48)%N then D0 d else if (c =? 49)%N then D1 d
      else if (c =? 50)%N then D2 d else if (c =? 51)%N then D3 d
      else if (c =? 52)%N then D4 d else if (c =? 53)%N then D5 d
      else if (c =? 54)%N then D6 d else if (c =? 55)%N then D7 d
      else if (c =? 56)%N then D8 d else D9 d
  end.

(** The rows still in the buffer of the file object, the rows handed to
    the operating system, and the rows on stable storage. *)
Definition pending (st : CSVStorage.t) : list (list Py.str) :=
  match CSVStorage.csv_file st with Some f => TextFile.buffer f | None => [] end.

Definition handed_over (st : CSVStorage.t) : list (list Py.str) :=
  match CSVStorage.csv_file st with Some f => TextFile.kernel f | None => [] end.

Definition durable (st : CSVStorage.t) : list (list Py.str) :=
  match CSVStorage.csv_file st with Some f => TextFile.disk f | None => [] end.

(** The storage has been initialised and its file has been closed. *)
Definition storage_closed (st : CSVStorage.t) : Prop :=
  CSVStorage.csv_writer st = Some (CSVStorage.make_writer CSVStorage.fieldnames)
  /\ exists f, CSVStorage.csv_file st = Some f /\ TextFile.closed f = true.

(** The name [initialize_csv] gives the file. *)
Definition chosen_filename (now : datetime.t) (fname : option Py.str) : Py.str :=
  match fname with
  | None | Some [] =>
      Py.lit "edsp_schools_" ++ datetime.strftime_compact now ++ Py.lit ".csv"
  | Some n => n
  end.

(** The first of the keys indexed in the [try] block of
    [process_school_data], in the order of evaluation, that a dictionary
    lacks. *)
Definition missing_key (raw_data : gmap string Py.str) : option string :=
  match raw_data !! "classification"%string with
  | None => Some "classification"%string
  | Some _ =>
      match raw_data !! "name"%string with
      | None => Some "name"%string
      | Some _ =>
          match raw_data !! "detail_url"%string with
          | None => Some "detail_url"%string
          | Some _ => None
          end
      end
  end.

(** An attempt in which the advance control is found and the click and
    the wait after it go through. *)
Definition responsive (a : BrowserManager.advance_world) : Prop :=
  BrowserManager.find_next_button (BrowserManager.query_selector a)
    BrowserManager.next_selectors false = true
  /\ Py.is_ok (BrowserManager.click a) = true
  /\ Py.is_ok (BrowserManager.wait_after_click a) = true.

(** The re-render is verified in the attempt of index [k]. *)
Definition verified (w : nat -> BrowserManager.advance_world) (k : nat) : bool :=
  Py.is_ok (BrowserManager.wait_for_table (w k)).

(** The number of attempts with a verified re-render among the [n]
    attempts from index [from] on. *)
Definition verified_renders (w : nat -> BrowserManager.advance_world)
    (from n : nat) : nat :=
  length (List.filter (verified w) (seq from n)).

(** Every attempt finds the control and is verified: page 3 after two
    clicks. *)
Definition prompt_world : BrowserManager.navigation_world :=
  BrowserManager.make_navigation (Py.Ok tt) (Py.Ok tt)
    (fun _ => BrowserManager.make_advance (fun _ => Py.Ok true)
                (Py.Ok tt) (Py.Ok tt) (Py.Ok tt)).

(** The entity counts for the classification value [c] in the summary. *)
Definition counts_for (c : Py.str) (school : SchoolData.t) : bool :=
  match SchoolData.status school with
  | SUCCESS =>
      bool_decide (SchoolClassification.value (SchoolData.classification school) = c)
  | _ => false
  end.

Definition succeeded (school : SchoolData.t) : bool :=
  match SchoolData.status school with SUCCESS => true | _ => false end.

(** Every code point of the text is ASCII. *)
Definition is_ascii (s : Py.str) : bool := forallb (fun c => (c <? 128)%N) s.

(** A cell that the reader gives back as it was written: it holds no
    carriage return and no line feed, and it is within the field size
    limit of the reader. *)
Definition clean_cell (cell : Py.str) : bool :=
  forallb (fun c => negb (Csv.is_newline c)) cell
  && (N.of_nat (length cell) <=? Csv.field_limit)%N.

Definition clean_row (row : list Py.str) : bool := forallb clean_cell row.

(** The line of a row as the reader receives it: the text of the writer
    with the line terminator read as one line feed. *)
Definition row_line (row : list Py.str) : Py.str :=
  match row with
  | [[]] => [Csv.quotechar; Csv.quotechar]
  | _ => Csv.join_fields row
  end ++ [10%N].

(** The text holds no carriage return and no line feed. *)
Definition no_newline (s : Py.str) : bool :=
  forallb (fun c => negb (Csv.is_newline c)) s.

(** A storage that was initialised, received one entity and was closed,
    and the file it leaves behind. *)
Definition sample_closed_storage : CSVStorage.t :=
  snd (CSVStorage.close
         (snd (CSVStorage.write_single_school sample_school
                 (initialized_storage sample_time (Py.lit "results") None)))).

Definition sample_bytes : list byte :=
  match Codec.write_text (Csv.format_rows (durable sample_closed_storage)) with
  | Py.Ok raw => raw
  | Py.Raise _ => []
  end.

Definition sample_fs : Py.str -> CSVStorage.fs_entry :=
  fun _ => CSVStorage.Regular sample_bytes.

(** What a stretch of a run did: it produced the entities [schools],
    appended them to [all_schools] and wrote their rows; the storage is
    open, the run totals were not touched, and the counters of the
    school processor grew by the number of entities. *)
Definition stored (self self' : EDSPScraper.t) (schools : list SchoolData.t)
  : Prop :=
  storage_open (EDSPScraper.storage self')
  /\ EDSPScraper.batch_processor self' = EDSPScraper.batch_processor self
  /\ EDSPScraper.all_schools self' = EDSPScraper.all_schools self ++ schools
  /\ written (EDSPScraper.storage self')
     = written (EDSPScraper.storage self) ++ (csv_row <$> schools)
  /\ let s := SchoolDataProcessor.stats (EDSPScraper.school_processor self) in
     let s' := SchoolDataProcessor.stats (EDSPScraper.school_processor self') in
     ProcessingStats.total_processed s'
     = ProcessingStats.total_processed s + Z.of_nat (length schools)
     /\ ProcessingStats.successful s'
        = ProcessingStats.successful s + Z.of_nat (length schools)
     /\ ProcessingStats.errors s' = ProcessingStats.errors s
     /\ ProcessingStats.skipped s' = ProcessingStats.skipped s.

(** The sum of the running counts: what accumulates when, after every
    batch, the count of all batches so far is added. *)
Fixpoint running_total (seen : Z) (counts : list Z) : Z :=
  match counts with
  | [] => 0
  | n :: rest => (seen + n) + running_total (seen + n) rest
  end.

(** A run over thirteen result pages, two batches: every browser starts,
    every page is [sample_page_world], where two of the three schools
    can be fetched, and the advance control is never found, so that only
    the first page yields entities. *)
Definition sample_run : EDSPScraper.run_world :=
  EDSPScraper.make_run (fun _ => sample_time) opening_succeeds
    (Py.Ok 13) (Py.Ok 1300) (fun _ => Py.Ok tt) (fun _ => Py.Ok tt)
    (fun _ => sample_page_world).

Definition sample_run_result
  : Py.result ProcessingStats.t * EDSPScraper.t :=
  EDSPScraper.process_all_pages (H := ascii_only_database) sample_run
    (EDSPScraper.init (Py.lit "results")).


(** The dictionaries that the page tasks of a batch return, in the order
    of the pages; a task that raises contributes none. *)
Definition gathered_dicts (w : EDSPScraper.world) (pages : list Z)
  : list (gmap string Py.str) :=
  pages ≫= fun page_num =>
    match BrowserManager.process_page_parallel (EDSPScraper.page w page_num)
            page_num with
    | Py.Ok page_results => page_results
    | Py.Raise _ => []
    end.

(** The sample scraper after its storage was closed. *)
Definition closed_scraper : EDSPScraper.t :=
  EDSPScraper.make (EDSPScraper.school_processor sample_scraper)
    (EDSPScraper.batch_processor sample_scraper)
    (snd (CSVStorage.close (EDSPScraper.storage sample_scraper)))
    (EDSPScraper.all_schools sample_scraper)
    (EDSPScraper.clock_reads sample_scraper).

(* ===================================================================== *)
(** * Statistics *)
(* ===================================================================== *)

Lemma record_outcome_consistent s o :
  consistent s -> consistent (record_outcome s o).
Proof. unfold consistent. destruct o; simpl; lia. Qed.

Lemma record_outcome_le s o : counters_le s (record_outcome s o).
Proof. unfold counters_le. destruct o; simpl; lia. Qed.

Lemma record_outcomes_snoc os o :
  record_outcomes (os ++ [o]) = record_outcome (record_outcomes os) o.
Proof. unfold record_outcomes. by rewrite fold_left_app. Qed.

Lemma record_outcomes_consistent os : consistent (record_outcomes os).
Proof.
  induction os as [|o os IH] using rev_ind.
  - reflexivity.
  - rewrite record_outcomes_snoc. by apply record_outcome_consistent.
Qed.

Lemma record_outcomes_total os :
  ProcessingStats.total_processed (record_outcomes os) = Z.of_nat (length os).
Proof.
  induction os as [|o os IH] using rev_ind; [done|].
  rewrite record_outcomes_snoc, length_app. simpl.
  destruct o; simpl; lia.
Qed.

(** C6.  Start from the zeroed statistics and apply any sequence [os] of
    per-record updates, then one more update [o].  Before and after the
    last update the total equals the sum of the three outcome counters;
    the update raises the total by exactly one and exactly the counter of
    its outcome by exactly one, leaving the two others unchanged; no
    counter decreases; and the total is the number of updates applied. *)
Theorem stats_invariant_after_every_update (os : list outcome) (o : outcome) :
  let s := record_outcomes os in
  let s' := record_outcomes (os ++ [o]) in
  consistent s /\ consistent s'
  /\ ProcessingStats.total_processed s' = ProcessingStats.total_processed s + 1
  /\ match o with
     | Succeeded =>
         ProcessingStats.successful s' = ProcessingStats.successful s + 1
         /\ ProcessingStats.errors s' = ProcessingStats.errors s
         /\ ProcessingStats.skipped s' = ProcessingStats.skipped s
     | Failed =>
         ProcessingStats.successful s' = ProcessingStats.successful s
         /\ ProcessingStats.errors s' = ProcessingStats.errors s + 1
         /\ ProcessingStats.skipped s' = ProcessingStats.skipped s
     | Skipped =>
         ProcessingStats.successful s' = ProcessingStats.successful s
         /\ ProcessingStats.errors s' = ProcessingStats.errors s
         /\ ProcessingStats.skipped s' = ProcessingStats.skipped s + 1
     end
  /\ counters_le s s'
  /\ ProcessingStats.pages_processed s' = ProcessingStats.pages_processed s
  /\ ProcessingStats.total_processed s = Z.of_nat (length os).
Proof.
  intros s s'. subst s s'. rewrite record_outcomes_snoc.
  split; [apply record_outcomes_consistent|].
  split; [apply record_outcome_consistent, record_outcomes_consistent|].
  split; [destruct o; reflexivity|].
  split; [destruct o; simpl; auto|].
  split; [apply record_outcome_le|].
  split; [destruct o; reflexivity|].
  apply record_outcomes_total.
Qed.









(* ===================================================================== *)
(** * Classification *)
(* ===================================================================== *)

(** For a non-empty text the classification carries the stripped,
    upper-cased text, whichever branch is taken. *)
Lemma from_text_value `{UnicodeDatabase} (text : Py.str) :
  text <> [] ->
  SchoolClassification.from_text (Some text)
  = SchoolClassification.make (Py.upper (Py.strip text)).
Proof.
  intros Hne. unfold SchoolClassification.from_text.
  destruct text as [|c text]; [done|].
  repeat case_decide; congruence.
Qed.

(** C2.  [from_text] wraps the stripped, upper-cased text of every
    non-empty input; the empty and the missing text give UNKNOWN.  So PEI
    in any letter case and surrounded by white space gives PEI and ee
    gives EE; but the text Colegio Estadual comes back as
    COLEGIO ESTADUAL, not verbatim, and a text of blanks comes back as
    the empty text. *)
Theorem from_text_upper_cases_other_text `{UnicodeDatabase} :
  (forall c text,
     SchoolClassification.from_text (Some (c :: text))
     = SchoolClassification.make (Py.upper (Py.strip (c :: text))))
  /\ SchoolClassification.from_text (Some [])
    = SchoolClassification.make SchoolClassification.UNKNOWN
  /\ SchoolClassification.from_text None
    = SchoolClassification.make SchoolClassification.UNKNOWN
  /\ SchoolClassification.from_text (Some (Py.lit "PEI"))
    = SchoolClassification.make SchoolClassification.PEI
  /\ SchoolClassification.from_text (Some (Py.lit " pEi "))
    = SchoolClassification.make SchoolClassification.PEI
  /\ SchoolClassification.from_text (Some (Py.lit "ee"))
    = SchoolClassification.make SchoolClassification.EE
  /\ SchoolClassification.from_text (Some (Py.lit "Colegio Estadual"))
    = SchoolClassification.make (Py.lit "COLEGIO ESTADUAL")
  /\ SchoolClassification.from_text (Some (Py.lit "Colegio Estadual"))
    <> SchoolClassification.make (Py.lit "Colegio Estadual")
  /\ SchoolClassification.from_text (Some (Py.lit "   "))
    = SchoolClassification.make [].
Proof.
  split.
  { intros c text. by apply from_text_value. }
  repeat split; try reflexivity.
  rewrite from_text_value by done. vm_compute. discriminate.
Qed.

(* ===================================================================== *)
(** * Batches *)
(* ===================================================================== *)

(** The loop of [create_batches] builds [nth_batch] index by index. *)
Lemma create_batches_fold total_pages batch_size step (n k : nat)
    (acc : list BatchConfig.t) :
  step = batch_size ->
  fold_left (BatchProcessor.create_batches_step total_pages batch_size)
    ((fun i : nat => 1 + Z.of_nat i * step) <$> seq k n)
    (acc, Z.of_nat k + 1)
  = (acc ++ (nth_batch total_pages batch_size <$> seq k n),
     Z.of_nat (k + n) + 1).
Proof.
  intros ->. revert k acc.
  induction n as [|n IH]; intros k acc; simpl.
  - by rewrite app_nil_r, Nat.add_0_r.
  - replace (Z.of_nat k + 1 + 1) with (Z.of_nat (S k) + 1) by lia.
    rewrite IH. rewrite <- app_assoc. simpl.
    do 2 f_equal. lia.
Qed.

Lemma create_batches_eq total_pages batch_size :
  1 <= total_pages -> 1 <= batch_size ->
  BatchProcessor.create_batches total_pages batch_size
  = Py.Ok (nth_batch total_pages batch_size
             <$> seq 0 (batch_count total_pages batch_size)).
Proof.
  intros Ht Hb. unfold BatchProcessor.create_batches, Py.range.
  destruct (Z.eqb_spec batch_size 0) as [|_]; [lia|].
  destruct (Z.ltb_spec 0 batch_size) as [_|]; [|lia].
  destruct (Z.ltb_spec 1 (total_pages + 1)) as [_|]; [|lia].
  simpl. f_equal.
  replace (total_pages + 1 - 1 - 1) with (total_pages - 1) by lia.
  change ([] : list BatchConfig.t, 1) with ([] : list BatchConfig.t, Z.of_nat 0 + 1).
  by rewrite create_batches_fold.
Qed.

Lemma lookup_batches total_pages batch_size n i b :
  (nth_batch total_pages batch_size <$> seq 0 n) !! i = Some b <->
  (i < n)%nat /\ b = nth_batch total_pages batch_size i.
Proof.
  rewrite list_lookup_fmap. split.
  - intros H. destruct (seq 0 n !! i) as [j|] eqn:E; [|done].
    apply lookup_seq in E as [-> ?]. simpl in H. by inversion H.
  - intros [Hi ->]. by rewrite lookup_seq_lt.
Qed.

Section Partition.
Variables total_pages batch_size : Z.
Hypothesis Htotal : 1 <= total_pages.
Hypothesis Hsize : 1 <= batch_size.

Let n := batch_count total_pages batch_size.

Lemma batch_count_pos : (0 < n)%nat.
Proof.
  unfold n, batch_count.
  assert (0 <= (total_pages - 1) / batch_size) by (apply Z.div_pos; lia).
  lia.
Qed.

Lemma batch_count_bounds :
  (Z.of_nat n - 1) * batch_size <= total_pages - 1 < Z.of_nat n * batch_size.
Proof.
  unfold n, batch_count.
  assert (0 <= (total_pages - 1) / batch_size) by (apply Z.div_pos; lia).
  rewrite Z2Nat.id by lia.
  pose proof (Z.mul_div_le (total_pages - 1) batch_size ltac:(lia)).
  pose proof (Z.mul_succ_div_gt (total_pages - 1) batch_size ltac:(lia)).
  nia.
Qed.

Lemma nth_batch_start_le (i : nat) :
  (i < n)%nat -> 1 + Z.of_nat i * batch_size <= total_pages.
Proof. pose proof batch_count_bounds. nia. Qed.

Lemma nth_batch_full (i : nat) :
  (S i < n)%nat ->
  BatchConfig.end_page (nth_batch total_pages batch_size i)
  = 1 + Z.of_nat i * batch_size + batch_size - 1.
Proof.
  intros Hi. simpl. pose proof (nth_batch_start_le (S i) Hi). nia.
Qed.

Lemma nth_batch_last (i : nat) :
  S i = n ->
  BatchConfig.end_page (nth_batch total_pages batch_size i) = total_pages.
Proof.
  intros Hi. simpl. pose proof batch_count_bounds. nia.
Qed.

Lemma in_nth_batch (i : nat) (p : Z) :
  (i < n)%nat ->
  in_batch (nth_batch total_pages batch_size i) p ->
  1 <= p <= total_pages /\ Z.of_nat i = (p - 1) / batch_size.
Proof.
  unfold in_batch. simpl. intros Hi [H1 H2].
  split; [nia|].
  apply Z.div_unique with (r := p - 1 - Z.of_nat i * batch_size); nia.
Qed.

Lemma page_in_some_batch (p : Z) :
  1 <= p <= total_pages ->
  let i := Z.to_nat ((p - 1) / batch_size) in
  (i < n)%nat /\ in_batch (nth_batch total_pages batch_size i) p.
Proof.
  intros Hp i. subst i.
  assert (0 <= (p - 1) / batch_size) by (apply Z.div_pos; lia).
  pose proof (Z.mul_div_le (p - 1) batch_size ltac:(lia)).
  pose proof (Z.mul_succ_div_gt (p - 1) batch_size ltac:(lia)).
  pose proof batch_count_bounds.
  assert ((Z.to_nat ((p - 1) / batch_size) < n)%nat) by nia.
  split; [done|].
  unfold in_batch. simpl. rewrite Z2Nat.id by lia. nia.
Qed.

End Partition.

(** C3.  For at least one page and a batch size of at least one,
    [create_batches] returns a non-empty list of plans in which the plan
    of index i starts at page 1 + i * batch_size, ends at the smaller of
    its start + batch_size - 1 and the last page, has between 1 and
    batch_size pages, exactly batch_size unless it is the last one, and
    is named BATCH_ followed by i + 1 padded to three digits (BATCH_001,
    BATCH_002, ...); the first plan starts at page 1, the last ends at
    the last page, each plan starts right after its predecessor ends,
    every page from 1 to the last lies in some plan and in no two plans.
    The result is a value of a function of the two arguments. *)
Theorem create_batches_partition (total_pages batch_size : Z)
    (Htotal : 1 <= total_pages) (Hsize : 1 <= batch_size) :
  exists batches,
    BatchProcessor.create_batches total_pages batch_size = Py.Ok batches
    /\ (0 < length batches)%nat
    /\ (forall i b, batches !! i = Some b ->
          BatchConfig.start_page b = 1 + Z.of_nat i * batch_size
          /\ BatchConfig.end_page b
             = Z.min (BatchConfig.start_page b + batch_size - 1) total_pages
          /\ 1 <= window_size b <= batch_size
          /\ (S i < length batches -> window_size b = batch_size)%nat
          /\ BatchConfig.batch_name b
             = Py.lit "BATCH_" ++ Py.format_0d 3 (Z.of_nat i + 1))
    /\ (forall b, batches !! 0%nat = Some b ->
          BatchConfig.start_page b = 1
          /\ BatchConfig.batch_name b = Py.lit "BATCH_001")
    /\ (forall b, batches !! 1%nat = Some b ->
          BatchConfig.batch_name b = Py.lit "BATCH_002")
    /\ (forall b, last batches = Some b -> BatchConfig.end_page b = total_pages)
    /\ (forall i b b', batches !! i = Some b -> batches !! S i = Some b' ->
          BatchConfig.start_page b' = BatchConfig.end_page b + 1)
    /\ (forall p, 1 <= p <= total_pages <-> exists b, b ∈ batches /\ in_batch b p)
    /\ (forall i j b b' p,
          batches !! i = Some b -> batches !! j = Some b' ->
          in_batch b p -> in_batch b' p -> i = j).
Proof.
  set (n := batch_count total_pages batch_size).
  exists (nth_batch total_pages batch_size <$> seq 0 n).
  split; [by apply create_batches_eq|].
  assert (Hlen : length (nth_batch total_pages batch_size <$> seq 0 n) = n)
    by (by rewrite length_fmap, length_seq).
  rewrite Hlen.
  pose proof (batch_count_pos total_pages batch_size Htotal Hsize) as Hpos.
  fold n in Hpos.
  split; [done|].
  split.
  { intros i b [Hi ->]%lookup_batches.
    split; [done|]. split; [done|].
    pose proof (nth_batch_start_le total_pages batch_size Htotal Hsize i Hi).
    split; [unfold window_size; simpl; lia|].
    split; [|done].
    intros HS. unfold window_size.
    rewrite (nth_batch_full total_pages batch_size Htotal Hsize i HS).
    simpl. lia. }
  split.
  { intros b [_ ->]%lookup_batches. split; [simpl; lia|reflexivity]. }
  split.
  { by intros b [_ ->]%lookup_batches. }
  split.
  { intros b Hlast. rewrite last_lookup, Hlen in Hlast.
    apply lookup_batches in Hlast as [Hi ->].
    apply (nth_batch_last total_pages batch_size Htotal Hsize). fold n. lia. }
  split.
  { intros i b b' [Hi ->]%lookup_batches [HS ->]%lookup_batches.
    rewrite (nth_batch_full total_pages batch_size Htotal Hsize i HS).
    simpl. lia. }
  split.
  { intros p. split.
    - intros Hp.
      destruct (page_in_some_batch total_pages batch_size Htotal Hsize p Hp)
        as [Hi Hin].
      eexists. split; [|exact Hin].
      apply list_elem_of_lookup. eexists. apply lookup_batches. by split.
    - intros (b & [i Hb]%list_elem_of_lookup & Hin).
      apply lookup_batches in Hb as [Hi ->].
      by apply (in_nth_batch total_pages batch_size Htotal Hsize i p Hi). }
  intros i j b b' p [Hi ->]%lookup_batches [Hj ->]%lookup_batches Hb Hb'.
  apply (in_nth_batch total_pages batch_size Htotal Hsize i p Hi) in Hb as [_ E1].
  apply (in_nth_batch total_pages batch_size Htotal Hsize j p Hj) in Hb' as [_ E2].
  lia.
Qed.

(** 25 pages in batches of 12: pages 1-12, 13-24 and 25. *)
Lemma create_batches_partition_witness :
  exists batches,
    BatchProcessor.create_batches 25 12 = Py.Ok batches
    /\ (BatchConfig.start_page <$> batches) = [1; 13; 25]
    /\ (BatchConfig.end_page <$> batches) = [12; 24; 25]
    /\ (forall p, 1 <= p <= 25 <-> exists b, b ∈ batches /\ in_batch b p).
Proof.
  destruct (create_batches_partition 25 12 ltac:(lia) ltac:(lia))
    as (batches & Heq & _ & _ & _ & _ & _ & _ & Hcover & _).
  exists batches. split; [exact Heq|].
  assert (E : Py.Ok batches = BatchProcessor.create_batches 25 12) by (by rewrite Heq).
  vm_compute in E. inversion E. subst batches. clear E.
  split; [reflexivity|]. split; [reflexivity|]. exact Hcover.
Defined.

(* ===================================================================== *)
(** * Storage *)
(* ===================================================================== *)

(** C10.  On a storage whose writer was never set, that is before
    [initialize_csv], writing an entity raises the RuntimeError
    CSV file not initialized and leaves the storage as it was; the same
    holds for the two methods built on [write_school_data]. *)
Theorem write_before_initialize_raises
    (self : CSVStorage.t) (school : SchoolData.t)
    (Hnone : CSVStorage.csv_writer self = None) :
  CSVStorage.write_school_data school self = (Py.Raise not_initialized_error, self)
  /\ CSVStorage.write_single_school school self
     = (Py.Raise not_initialized_error, self)
  /\ (forall rest, CSVStorage.write_multiple_schools (school :: rest) self
     = (Py.Raise not_initialized_error, self)).
Proof.
  assert (E : CSVStorage.write_school_data school self
              = (Py.Raise not_initialized_error, self)).
  { unfold CSVStorage.write_school_data, CSVStorage.bind, CSVStorage.get.
    by rewrite Hnone. }
  split; [exact E|]. split.
  - unfold CSVStorage.write_single_school, CSVStorage.bind at 1. by rewrite E.
  - intros rest. simpl. unfold CSVStorage.bind at 1. by rewrite E.
Qed.

(** A storage fresh from its constructor. *)
Lemma write_before_initialize_raises_witness :
  CSVStorage.csv_writer (CSVStorage.init (Py.lit "results")) = None
  /\ CSVStorage.write_school_data sample_school (CSVStorage.init (Py.lit "results"))
     = (Py.Raise not_initialized_error, CSVStorage.init (Py.lit "results")).
Proof.
  split; [reflexivity|].
  exact (proj1 (write_before_initialize_raises
                  (CSVStorage.init (Py.lit "results")) sample_school eq_refl)).
Defined.

(** C4.  Initialise a storage and close it: the close succeeds and
    performs one final sync.  A second [close] on the resulting storage
    does not return normally: the guard finds the file object still in
    place, the flush of the closed file raises ValueError, and the
    storage is left as it was, with that one sync. *)
Theorem second_close_raises (now : datetime.t) (dir : Py.str)
    (fname : option Py.str) :
  let opened := initialized_storage now dir fname in
  let closed_once := snd (CSVStorage.close opened) in
  Py.is_ok (fst (CSVStorage.initialize_csv now opening_succeeds fname
                   (CSVStorage.init dir))) = true
  /\ fst (CSVStorage.close opened) = Py.Ok tt
  /\ fsync_count closed_once = 1%nat
  /\ CSVStorage.close closed_once = (Py.Raise TextFile.closed_error, closed_once).
Proof.
  intros opened closed_once. subst opened closed_once.
  split; [vm_compute; reflexivity|].
  split; [vm_compute; reflexivity|].
  split; [vm_compute; reflexivity|].
  vm_compute. reflexivity.
Qed.




(** A text that begins with a line break has an empty first record: the
    header row of such an artifact does not parse. *)
Lemma blank_first_line_has_no_header fs self rest :
  artifact_text fs self = Some (10%N :: rest) ->
  header_row fs self = Some [] /\ header_row_parses fs self = false.
Proof.
  intros Htext.
  assert (E : header_row fs self = Some []).
  { unfold header_row. rewrite Htext. cbn [mbind option_bind].
    unfold Csv.reader, Codec.readlines.
    cbn [Codec.lines_from N.eqb Pos.eqb].
    change (reverse [10%N]) with [10%N].
    cbn [Csv.records_from].
    change (Csv.feed Csv.parse_reset [10%N])
      with (Py.Ok (Csv.make_parser Csv.START_RECORD [] [] 0)).
    cbn [Csv.st Csv.at_record_start Csv.fields].
    by destruct (Csv.records_from Csv.parse_reset (Codec.lines_from [] rest)). }
  split; [exact E|]. unfold header_row_parses. by rewrite E.
Qed.

(* ===================================================================== *)
(** * Navigation *)
(* ===================================================================== *)

Lemma clicks_app t1 t2 : clicks (t1 ++ t2) = (clicks t1 + clicks t2)%nat.
Proof. unfold clicks. by rewrite List.filter_app, length_app. Qed.

Lemma renders_app t1 t2 : renders (t1 ++ t2) = (renders t1 + renders t2)%nat.
Proof. unfold renders. by rewrite List.filter_app, length_app. Qed.

(** The loop clicks at most once per iteration and moves the page
    counter once per verified re-render. *)
Lemma navigation_loop_bounds w target remaining :
  forall attempt current_page trace r reached trace',
    BrowserManager.navigation_loop w target remaining attempt current_page trace
      = (r, reached, trace') ->
    (clicks trace' <= clicks trace + remaining)%nat
    /\ reached - current_page = Z.of_nat (renders trace' - renders trace)
    /\ (renders trace <= renders trace')%nat
    /\ (renders trace' - renders trace <= clicks trace' - clicks trace)%nat
    /\ (clicks trace <= clicks trace')%nat
    /\ (r = true -> target <= reached).
Proof.
  induction remaining as [|n IH]; intros attempt cp trace r reached trace';
    cbn [BrowserManager.navigation_loop].
  - intros [= <- <- <-]. repeat split; try lia; try discriminate.
  - destruct (Z.leb_spec target cp).
    { intros [= <- <- <-]. repeat split; try lia. }
    destruct (BrowserManager.find_next_button _ _ _).
    2:{ intros [= <- <- <-]. repeat split; try lia; try discriminate. }
    destruct (BrowserManager.click _).
    2:{ intros [= <- <- <-]. rewrite clicks_app, renders_app.
        change (clicks [BrowserManager.Click]) with 1%nat.
        change (renders [BrowserManager.Click]) with 0%nat.
        repeat split; try lia; try discriminate. }
    destruct (BrowserManager.wait_after_click _).
    2:{ intros [= <- <- <-]. rewrite clicks_app, renders_app.
        change (clicks [BrowserManager.Click]) with 1%nat.
        change (renders [BrowserManager.Click]) with 0%nat.
        repeat split; try lia; try discriminate. }
    destruct (BrowserManager.wait_for_table _); intros Hloop;
      apply IH in Hloop; rewrite clicks_app, renders_app in Hloop.
    + change (clicks [BrowserManager.Click; BrowserManager.Rendered (cp + 1)])
        with 1%nat in Hloop.
      change (renders [BrowserManager.Click; BrowserManager.Rendered (cp + 1)])
        with 1%nat in Hloop.
      repeat split; try lia. tauto.
    + change (clicks [BrowserManager.Click]) with 1%nat in Hloop.
      change (renders [BrowserManager.Click]) with 0%nat in Hloop.
      repeat split; try lia. tauto.
Qed.

(** For the first page the page size is negotiated and the result is
    success, whatever the session answers. *)
Lemma navigate_first_page w :
  BrowserManager.navigate_to_page_robust w 1
  = (true, 1, [BrowserManager.SetResultsPerPage 100]).
Proof. reflexivity. Qed.

(** Beyond the first page: at most target + 5 clicks, a page counter
    that advanced once per verified re-render, never more often than
    clicks were made, and a target that was reached when the result is
    success. *)
Lemma navigate_bounded w target r reached trace :
  1 < target ->
  BrowserManager.navigate_to_page_robust w target = (r, reached, trace) ->
  (clicks trace <= Z.to_nat (target + 5))%nat
  /\ reached = 1 + Z.of_nat (renders trace)
  /\ (renders trace <= clicks trace)%nat
  /\ (r = true -> target <= reached).
Proof.
  intros Ht. unfold BrowserManager.navigate_to_page_robust.
  destruct (Z.eqb_spec target 1); [lia|].
  destruct (BrowserManager.wait_before w).
  2:{ intros [= <- <- <-]. repeat split; try done. unfold clicks; simpl; lia. }
  destruct (Z.ltb_spec 1 target); [|lia].
  intros Hloop. apply navigation_loop_bounds in Hloop.
  change (clicks []) with 0%nat in Hloop. change (renders []) with 0%nat in Hloop.
  repeat split; try lia. tauto.
Qed.

(** While the re-render is not verified, an iteration clicks and leaves
    the page counter alone. *)
Lemma late_render_early target n k cp trace :
  (k < 6)%nat -> cp < target ->
  BrowserManager.navigation_loop late_render target (S n) k cp trace
  = BrowserManager.navigation_loop late_render target n (S k) cp
      (trace ++ [BrowserManager.Click]).
Proof.
  intros Hk Hcp. cbn [BrowserManager.navigation_loop].
  destruct (Z.leb_spec target cp); [lia|].
  change (BrowserManager.find_next_button
            (BrowserManager.query_selector (late_render k))
            BrowserManager.next_selectors false) with true.
  cbn [late_render BrowserManager.click BrowserManager.wait_after_click
       BrowserManager.wait_for_table].
  destruct (Nat.leb_spec 6 k); [lia|]. reflexivity.
Qed.

(** From then on every iteration advances by one page; when the
    iterations left are exactly the pages missing, the target is reached
    in the last iteration and the loop ends without a further test. *)
Lemma late_render_late target n :
  forall k cp trace,
    (6 <= k)%nat -> Z.of_nat (S n) = target - cp ->
    exists trace',
      BrowserManager.navigation_loop late_render target (S n) k cp trace
      = (false, target, trace').
Proof.
  induction n as [|n IH]; intros k cp trace Hk Hleft;
    cbn [BrowserManager.navigation_loop];
    (destruct (Z.leb_spec target cp); [lia|]);
    change (BrowserManager.find_next_button
              (BrowserManager.query_selector (late_render k))
              BrowserManager.next_selectors false) with true;
    cbn [late_render BrowserManager.click BrowserManager.wait_after_click
         BrowserManager.wait_for_table];
    (destruct (Nat.leb_spec 6 k); [|lia]).
  - eexists. f_equal. f_equal. lia.
  - apply IH; lia.
Qed.

(** C9.  In the session [late_render_world] the first six clicks are not
    followed by a verified re-render and every later one is.  For every
    target beyond the first page the budget of target + 5 attempts is
    then used up exactly when the page counter reaches the target: the
    counter equals the target when the loop ends, and the result is
    failure, because the test of the counter against the target sits at
    the head of the loop body only. *)
Theorem navigate_reaches_target_on_last_attempt (target : Z) (Htarget : 1 < target) :
  fst (BrowserManager.navigate_to_page_robust late_render_world target)
  = (false, target).
Proof.
  unfold BrowserManager.navigate_to_page_robust.
  destruct (Z.eqb_spec target 1) as [|_]; [lia|].
  cbn [late_render_world BrowserManager.wait_before BrowserManager.advance].
  destruct (Z.ltb_spec 1 target) as [_|]; [|lia].
  assert (Hn : exists n, Z.to_nat (target + 5) = S (S (S (S (S (S (S n))))))
                         /\ Z.of_nat (S n) = target - 1).
  { exists (Z.to_nat (target - 2)). lia. }
  destruct Hn as (n & -> & Hleft).
  rewrite !late_render_early by lia.
  destruct (late_render_late target n 6 1
              ([] ++ [BrowserManager.Click] ++ [BrowserManager.Click]
               ++ [BrowserManager.Click] ++ [BrowserManager.Click]
               ++ [BrowserManager.Click] ++ [BrowserManager.Click])
              ltac:(lia) Hleft) as [trace' Hrun].
  rewrite <- !app_assoc. rewrite Hrun. reflexivity.
Qed.

(** Target 2: seven attempts, the seventh reaches page 2. *)
Lemma navigate_reaches_target_on_last_attempt_witness :
  1 < 2
  /\ fst (BrowserManager.navigate_to_page_robust late_render_world 2) = (false, 2).
Proof.
  split; [lia|]. apply (navigate_reaches_target_on_last_attempt 2). lia.
Defined.

(** The trace of that run: seven clicks, one verified re-render. *)
Lemma late_render_trace :
  BrowserManager.navigate_to_page_robust late_render_world 2
  = (false, 2,
     [BrowserManager.Click; BrowserManager.Click; BrowserManager.Click;
      BrowserManager.Click; BrowserManager.Click; BrowserManager.Click;
      BrowserManager.Click; BrowserManager.Rendered 2]).
Proof. reflexivity. Qed.


(* ===================================================================== *)
(** * Records of a batch *)
(* ===================================================================== *)

(** The keys of a row are field names of the writer. *)
Lemma to_dict_fields (s : SchoolData.t) :
  bool_decide (dom (SchoolData.to_dict s)
                 ⊆ list_to_set (C := gset string) CSVStorage.fieldnames) = true.
Proof. vm_compute. reflexivity. Qed.

(** A dictionary built by [extract_school_details] has every key the
    [try] block indexes. *)
Lemma success_arguments_details `{UnicodeDatabase} url r :
  EDSPScraper.success_arguments (BrowserManager.details_dict url r)
  = Py.Ok (BrowserManager.school_name r,
           SchoolDataProcessor.parse_school_classification
             (Some (BrowserManager.classification r)),
           url, details_of r).
Proof. reflexivity. Qed.

Lemma file_call_open op dir fname w f f' :
  op f = Py.Ok f' ->
  CSVStorage.file_call op (CSVStorage.make dir fname w (Some f))
  = (Py.Ok tt, CSVStorage.make dir fname w (Some f')).
Proof.
  intros Hop.
  unfold CSVStorage.file_call, CSVStorage.bind, CSVStorage.get, CSVStorage.lift,
    CSVStorage.ret, CSVStorage.set_csv_file.
  cbn [CSVStorage.csv_file]. rewrite Hop. reflexivity.
Qed.

Lemma writerow_open rowdict dir fname names f :
  bool_decide (dom rowdict ⊆ list_to_set (C := gset string) names) = true ->
  TextFile.closed f = false ->
  CSVStorage.writerow (CSVStorage.make_writer names) rowdict
    (CSVStorage.make dir fname (Some (CSVStorage.make_writer names)) (Some f))
  = (Py.Ok tt,
     CSVStorage.make dir fname (Some (CSVStorage.make_writer names))
       (Some (TextFile.make false
                (TextFile.buffer f
                 ++ [(fun key => default [] (rowdict !! key)) <$> names])
                (TextFile.kernel f) (TextFile.disk f)
                (TextFile.events f
                 ++ [TextFile.EvWrite
                       ((fun key => default [] (rowdict !! key)) <$> names)])))).
Proof.
  intros Hdom Hclosed. unfold CSVStorage.writerow.
  cbn [CSVStorage.writer_fieldnames]. rewrite Hdom.
  apply file_call_open. unfold TextFile.write. by rewrite Hclosed.
Qed.

(** Writing to an open storage appends the row and keeps it open. *)
Lemma write_single_school_open st school :
  storage_open st ->
  exists st',
    CSVStorage.write_single_school school st = (Py.Ok tt, st')
    /\ storage_open st'
    /\ written st' = written st ++ [csv_row school]
    /\ CSVStorage.filename st' = CSVStorage.filename st
    /\ CSVStorage.output_dir st' = CSVStorage.output_dir st.
Proof.
  intros [Hw (f & Hf & Hclosed)].
  destruct st as [dir fname w file].
  cbn [CSVStorage.csv_writer CSVStorage.csv_file] in *.
  subst w file.
  unfold CSVStorage.write_single_school, CSVStorage.write_school_data.
  unfold CSVStorage.bind at 1 2. unfold CSVStorage.get at 1.
  cbn [CSVStorage.csv_writer].
  rewrite (writerow_open (SchoolData.to_dict school) dir fname
             CSVStorage.fieldnames f (to_dict_fields school) Hclosed).
  unfold CSVStorage.bind, CSVStorage.get. cbn [CSVStorage.csv_file].
  erewrite file_call_open by reflexivity.
  eexists. split; [reflexivity|].
  split; [split; [reflexivity|eexists; split; reflexivity]|].
  split; [|done].
  unfold written, csv_row.
  cbn [CSVStorage.csv_file TextFile.kernel TextFile.buffer].
  by rewrite app_nil_r, app_assoc.
Qed.

Lemma add_successes_0 s : add_successes 0 s = s.
Proof. destruct s. unfold add_successes. simpl. f_equal; lia. Qed.

Lemma add_successes_add n m s :
  add_successes m (add_successes n s) = add_successes (n + m) s.
Proof. unfold add_successes. simpl. f_equal; lia. Qed.

Lemma progressed_refl self :
  storage_open (EDSPScraper.storage self) -> progressed self self [].
Proof.
  intros Ho. unfold progressed. cbn [length fmap list_fmap].
  change (Z.of_nat 0) with 0. rewrite add_successes_0, !app_nil_r.
  destruct self as [[urls st] bp sto al cr].
  cbn. split; [done|]. split; [done|]. split; [done|]. split; [exact Ho|].
  split; [done|]. lia.
Qed.

Lemma progressed_trans s1 s2 s3 l1 l2 :
  progressed s1 s2 l1 -> progressed s2 s3 l2 -> progressed s1 s3 (l1 ++ l2).
Proof.
  intros (A1 & A2 & A3 & A4 & A5 & A6) (B1 & B2 & B3 & B4 & B5 & B6).
  unfold progressed. rewrite B1, A1, B2, A2, B3, A3, B5, A5, B6, A6.
  cbn [SchoolDataProcessor.processed_urls SchoolDataProcessor.stats].
  rewrite add_successes_add, length_app, fmap_app, <- !app_assoc.
  split; [by rewrite Nat2Z.inj_add|].
  split; [done|]. split; [done|]. split; [exact B4|]. split; [done|]. lia.
Qed.

Lemma handle_raw_data_success `{UnicodeDatabase} w d url self :
  dict_for d url ->
  storage_open (EDSPScraper.storage self) ->
  exists school self',
    EDSPScraper.handle_raw_data w d self = (Py.Ok school, self')
    /\ success_for school url
    /\ progressed self self' [school].
Proof.
  intros [r ->] Hopen.
  destruct self as [sp bp sto al cr]. cbn [EDSPScraper.storage] in Hopen.
  destruct (write_single_school_open sto
    (SchoolDataProcessor.create_school_data (EDSPScraper.clock w cr)
       (BrowserManager.school_name r)
       (SchoolDataProcessor.parse_school_classification
          (Some (BrowserManager.classification r)))
       url (details_of r) SUCCESS None) Hopen)
    as (sto' & Hwrite & Hopen' & Hwritten & _ & _).
  unfold EDSPScraper.handle_raw_data, EDSPScraper.process_school_data.
  rewrite success_arguments_details.
  unfold EDSPScraper.bind, EDSPScraper.now, EDSPScraper.modify_school_processor,
    EDSPScraper.ret, EDSPScraper.append_all_schools, EDSPScraper.storage_call.
  cbn [EDSPScraper.clock_reads EDSPScraper.storage EDSPScraper.school_processor
       EDSPScraper.batch_processor EDSPScraper.all_schools].
  rewrite Hwrite.
  eexists _, _. split; [reflexivity|].
  split; [by repeat split|].
  unfold progressed.
  cbn [EDSPScraper.clock_reads EDSPScraper.storage EDSPScraper.school_processor
       EDSPScraper.batch_processor EDSPScraper.all_schools length fmap list_fmap].
  split; [|split; [done|]; split; [done|]; split; [exact Hopen'|];
           split; [by rewrite Hwritten|lia]].
  destruct sp as [urls st]. reflexivity.
Qed.

Lemma handle_page_results_success `{UnicodeDatabase} w ds urls :
  Forall2 dict_for ds urls ->
  forall self,
  storage_open (EDSPScraper.storage self) ->
  exists schools self',
    EDSPScraper.handle_page_results w ds self = (Py.Ok schools, self')
    /\ Forall2 success_for schools urls
    /\ progressed self self' schools.
Proof.
  induction 1 as [|d url ds urls Hd _ IH]; intros self Hopen.
  - exists [], self. split; [reflexivity|]. split; [constructor|].
    by apply progressed_refl.
  - destruct (handle_raw_data_success w d url self Hd Hopen)
      as (school & self1 & Hrun1 & Hs & Hp1).
    destruct (IH self1 (proj1 (proj2 (proj2 (proj2 Hp1)))))
      as (schools & self2 & Hrun2 & Hss & Hp2).
    exists (school :: schools), self2.
    split.
    + cbn [EDSPScraper.handle_page_results]. unfold EDSPScraper.bind at 1.
      rewrite Hrun1. unfold EDSPScraper.bind at 1. rewrite Hrun2. reflexivity.
    + split; [by constructor|].
      exact (progressed_trans _ _ _ [school] schools Hp1 Hp2).
Qed.

(** What the retried call returns is what one of its attempts returned. *)
Lemma retry_from_ok {A} (P : A -> Prop) (body : nat -> Py.result A) more n a :
  (forall k b, body k = Py.Ok b -> P b) ->
  BrowserManager.retry_from more n body = Py.Ok a -> P a.
Proof.
  intros Hbody. revert n.
  induction more as [|more IH]; intros n; simpl;
    destruct (body n) as [b|e] eqn:E; try discriminate.
  - intros [= <-]. eauto.
  - intros [= <-]. eauto.
  - apply IH.
Qed.

Lemma process_school_parallel_dict w url d :
  BrowserManager.process_school_parallel w url = Py.Ok d -> dict_for d url.
Proof.
  unfold BrowserManager.process_school_parallel, Py.rbind.
  destruct (BrowserManager.open_page w); [|discriminate].
  destruct (BrowserManager.close_page w); [|discriminate].
  unfold BrowserManager.extract_school_details.
  intros Hretry.
  apply (retry_from_ok (fun d => dict_for d url)) in Hretry; [done|].
  intros k b.
  destruct (BrowserManager.load w k) as [r|]; simpl; [|discriminate].
  intros [= <-]. by exists r.
Qed.

(** The dictionaries kept after the gather are those of the references
    whose task returned one, in order. *)
Lemma collect_results_fetched w links :
  Forall2 dict_for
    (BrowserManager.collect_results
       ((fun link =>
           BrowserManager.process_school_parallel (BrowserManager.school w link) link)
          <$> links))
    (List.filter (fetch_succeeds w) links).
Proof.
  induction links as [|link links IH]; [constructor|].
  cbn [fmap list_fmap BrowserManager.collect_results List.filter].
  unfold fetch_succeeds at 1.
  destruct (BrowserManager.process_school_parallel _ link) as [d|e] eqn:E;
    cbn [Py.is_ok]; [|exact IH].
  constructor; [|exact IH]. by apply process_school_parallel_dict in E.
Qed.

Lemma process_page_parallel_fetched w page_num :
  match BrowserManager.process_page_parallel w page_num with
  | Py.Ok ds => Forall2 dict_for ds (fetched_references w page_num)
  | Py.Raise _ => attempted_references w page_num = []
  end.
Proof.
  unfold BrowserManager.process_page_parallel, fetched_references,
    attempted_references, Py.rbind.
  destruct (BrowserManager.new_page w); [|done].
  destruct (BrowserManager.goto_base w); [|constructor].
  destruct (_ && _); [constructor|].
  apply collect_results_fetched.
Qed.

(** [unique_links] returns distinct links, none of them seen before. *)
Lemma unique_links_spec links seen :
  NoDup (BrowserManager.unique_links links seen)
  /\ forall x, x ∈ BrowserManager.unique_links links seen ->
               x ∈ links /\ x ∉ seen.
Proof.
  revert seen. induction links as [|link links IH]; intros seen; simpl.
  - split; [constructor|]. intros x Hx. by apply elem_of_nil in Hx.
  - case_bool_decide as Hin.
    + destruct (IH seen) as [Hnd Hsub]. split; [done|].
      intros x Hx. destruct (Hsub x Hx). split; [by right|done].
    + destruct (IH ({[link]} ∪ seen)) as [Hnd Hsub]. split.
      * constructor; [|done]. intros Hx. apply Hsub in Hx as [_ Hx].
        apply Hx, elem_of_union_l, elem_of_singleton. reflexivity.
      * intros x [->|Hx]%elem_of_cons; [split; [by left|done]|].
        apply Hsub in Hx as [? Hx]. split; [by right|].
        intros Hseen. by apply Hx, elem_of_union_r.
Qed.

Lemma extract_school_links_NoDup lw :
  NoDup (BrowserManager.extract_school_links lw).
Proof.
  unfold BrowserManager.extract_school_links.
  destruct (BrowserManager.wait_table lw); [|destruct (existsb _ _)];
    try constructor;
    (destruct (BrowserManager.settle lw); [apply unique_links_spec|constructor]).
Qed.


Lemma handle_all_results_success `{UnicodeDatabase} w pages :
  forall self,
  storage_open (EDSPScraper.storage self) ->
  exists schools self',
    EDSPScraper.handle_all_results w
      ((fun page_num =>
          BrowserManager.process_page_parallel (EDSPScraper.page w page_num) page_num)
         <$> pages) self
    = (Py.Ok schools, self')
    /\ Forall2 success_for schools
         (pages ≫= fun page_num =>
            fetched_references (EDSPScraper.page w page_num) page_num)
    /\ progressed self self' schools.
Proof.
  induction pages as [|p pages IH]; intros self Hopen.
  - exists [], self. split; [reflexivity|]. split; [constructor|].
    by apply progressed_refl.
  - rewrite fmap_cons, bind_cons. cbn [EDSPScraper.handle_all_results].
    pose proof (process_page_parallel_fetched (EDSPScraper.page w p) p) as Hpage.
    destruct (BrowserManager.process_page_parallel (EDSPScraper.page w p) p)
      as [ds|e].
    + destruct (handle_page_results_success w ds _ Hpage self Hopen)
        as (schools1 & self1 & Hrun1 & Hs1 & Hp1).
      destruct (IH self1 (proj1 (proj2 (proj2 (proj2 Hp1)))))
        as (schools2 & self2 & Hrun2 & Hs2 & Hp2).
      exists (schools1 ++ schools2), self2. split.
      * unfold EDSPScraper.bind at 1. rewrite Hrun1.
        unfold EDSPScraper.bind at 1.
        rewrite Hrun2. reflexivity.
      * split; [by apply Forall2_app|]. by eapply progressed_trans.
    + destruct (IH self Hopen) as (schools & self' & Hrun & Hs & Hp).
      exists schools, self'. split; [exact Hrun|]. split; [|done].
      unfold fetched_references at 1. rewrite Hpage. exact Hs.
Qed.




(* ===================================================================== *)
(** * Further properties of the code *)
(* ===================================================================== *)

(** * White space *)

Lemma lstrip_app_nonspace a c b :
  Py.isspace c = false -> Py.lstrip (a ++ c :: b) = Py.lstrip a ++ c :: b.
Proof.
  intros Hc. induction a as [|x a IH]; simpl.
  - by rewrite Hc.
  - destruct (Py.isspace x); [exact IH|reflexivity].
Qed.

Lemma rstrip_app_nonspace a c b :
  Py.isspace c = false -> Py.rstrip (a ++ c :: b) = a ++ c :: Py.rstrip b.
Proof.
  intros Hc. unfold Py.rstrip.
  rewrite reverse_app, reverse_cons, <- app_assoc. simpl.
  rewrite lstrip_app_nonspace by done.
  by rewrite reverse_app, reverse_cons, !reverse_involutive, <- app_assoc.
Qed.

Lemma lstrip_head s :
  match Py.lstrip s with
  | [] => True
  | c :: _ => Py.isspace c = false
  end.
Proof.
  induction s as [|x s IH]; simpl; [done|].
  destruct (Py.isspace x) eqn:E; [exact IH|exact E].
Qed.

Lemma lstrip_fixed c s : Py.isspace c = false -> Py.lstrip (c :: s) = c :: s.
Proof. intros Hc. simpl. by rewrite Hc. Qed.

Lemma rstrip_cons_nonspace c s :
  Py.isspace c = false -> Py.rstrip (c :: s) = c :: Py.rstrip s.
Proof. intros Hc. exact (rstrip_app_nonspace [] c s Hc). Qed.

Lemma lstrip_idempotent s : Py.lstrip (Py.lstrip s) = Py.lstrip s.
Proof.
  pose proof (lstrip_head s) as Hh.
  destruct (Py.lstrip s) as [|c t]; [done|]. by apply lstrip_fixed.
Qed.

Lemma rstrip_idempotent s : Py.rstrip (Py.rstrip s) = Py.rstrip s.
Proof.
  unfold Py.rstrip. by rewrite reverse_involutive, lstrip_idempotent.
Qed.

(** A stripped text is empty or starts with a character that is no white
    space and has no white space at its end. *)
Lemma strip_shape s :
  Py.strip s = []
  \/ exists c s', Py.strip s = c :: s' /\ Py.isspace c = false
                  /\ Py.rstrip s' = s'.
Proof.
  unfold Py.strip. pose proof (lstrip_head s) as Hh.
  destruct (Py.lstrip s) as [|c t]; [by left|]. right.
  exists c, (Py.rstrip t). split.
  - by apply rstrip_cons_nonspace.
  - split; [done|]. apply rstrip_idempotent.
Qed.

Lemma strip_idempotent s : Py.strip (Py.strip s) = Py.strip s.
Proof.
  destruct (strip_shape s) as [->|(c & s' & -> & Hc & Hs')]; [reflexivity|].
  unfold Py.strip. rewrite lstrip_fixed by done.
  rewrite rstrip_cons_nonspace by done. by rewrite Hs'.
Qed.

(** * Processed URLs *)

Lemma startswith_slash c s :
  Py.startswith (c :: s) (Py.lit "/") = (47 =? c)%N.
Proof.
  change (Py.lit "/") with [47%N]. cbn [Py.startswith].
  by destruct (47 =? c)%N, s.
Qed.

Lemma normalize_url_relative (path : Py.str) :
  SchoolDataProcessor.normalize_url (47%N :: path) = BrowserManager.site_root ++ 47%N :: Py.rstrip path.
Proof.
  unfold SchoolDataProcessor.normalize_url, Py.strip.
  rewrite lstrip_fixed by reflexivity.
  rewrite rstrip_cons_nonspace by reflexivity.
  by rewrite startswith_slash.
Qed.

Lemma normalize_url_absolute (path : Py.str) :
  SchoolDataProcessor.normalize_url (BrowserManager.site_root ++ 47%N :: path)
  = BrowserManager.site_root ++ 47%N :: Py.rstrip path.
Proof.
  unfold SchoolDataProcessor.normalize_url, Py.strip.
  assert (E : Py.lstrip (BrowserManager.site_root ++ 47%N :: path) = BrowserManager.site_root ++ 47%N :: path)
    by reflexivity.
  rewrite E. rewrite rstrip_app_nonspace by reflexivity.
  change (BrowserManager.site_root ++ 47%N :: Py.rstrip path)
    with (104%N :: tail BrowserManager.site_root ++ 47%N :: Py.rstrip path) at 1.
  by rewrite startswith_slash.
Qed.

Lemma normalize_url_idempotent (url : Py.str) :
  SchoolDataProcessor.normalize_url (SchoolDataProcessor.normalize_url url)
  = SchoolDataProcessor.normalize_url url
  /\ Py.startswith (SchoolDataProcessor.normalize_url url) (Py.lit "/") = false
  /\ Py.strip (SchoolDataProcessor.normalize_url url)
     = SchoolDataProcessor.normalize_url url.
Proof.
  assert (Hn : SchoolDataProcessor.normalize_url url
               = if Py.startswith (Py.strip url) (Py.lit "/")
                 then BrowserManager.site_root ++ Py.strip url else Py.strip url) by reflexivity.
  destruct (strip_shape url) as [E|(c & s' & E & Hc & Hs')];
    rewrite E in Hn; rewrite Hn; clear Hn E.
  - repeat split; reflexivity.
  - rewrite startswith_slash. destruct (N.eqb_spec 47 c) as [<-|Hne].
    + rewrite normalize_url_absolute, Hs'. split; [reflexivity|].
      split; [reflexivity|].
      unfold Py.strip.
      assert (E : Py.lstrip (BrowserManager.site_root ++ 47%N :: s') = BrowserManager.site_root ++ 47%N :: s')
        by reflexivity.
      rewrite E, rstrip_app_nonspace by reflexivity. by rewrite Hs'.
    + assert (Hstrip : Py.strip (c :: s') = c :: s').
      { unfold Py.strip.
        by rewrite lstrip_fixed, rstrip_cons_nonspace, Hs' by done. }
      split; [|split; [rewrite startswith_slash; by apply N.eqb_neq|exact Hstrip]].
      unfold SchoolDataProcessor.normalize_url. rewrite Hstrip.
      rewrite startswith_slash. by destruct (N.eqb_spec 47 c).
Qed.

(** X1.  Marking a URL makes exactly the URLs with the same normal form
    processed, on top of those that were; it is idempotent, leaves the
    statistics alone, and a reset forgets every URL. *)
Theorem mark_url_processed_lookup (p : SchoolDataProcessor.t) (url other : Py.str) :
  SchoolDataProcessor.is_url_processed
    (SchoolDataProcessor.mark_url_processed p url) url = true
  /\ SchoolDataProcessor.is_url_processed
       (SchoolDataProcessor.mark_url_processed p url) other
     = bool_decide (SchoolDataProcessor.normalize_url other
                    = SchoolDataProcessor.normalize_url url)
       || SchoolDataProcessor.is_url_processed p other
  /\ SchoolDataProcessor.mark_url_processed
       (SchoolDataProcessor.mark_url_processed p url) url
     = SchoolDataProcessor.mark_url_processed p url
  /\ SchoolDataProcessor.stats (SchoolDataProcessor.mark_url_processed p url)
     = SchoolDataProcessor.stats p
  /\ SchoolDataProcessor.is_url_processed
       (SchoolDataProcessor.reset_processing_state
          (SchoolDataProcessor.mark_url_processed p url)) other = false.
Proof.
  unfold SchoolDataProcessor.is_url_processed, SchoolDataProcessor.mark_url_processed.
  cbn [SchoolDataProcessor.processed_urls SchoolDataProcessor.stats].
  split; [apply bool_decide_eq_true, elem_of_union_l, elem_of_singleton; done|].
  split.
  { apply eq_true_iff_eq.
    rewrite orb_true_iff, !bool_decide_eq_true, elem_of_union, elem_of_singleton.
    done. }
  split.
  { f_equal. apply set_eq. intros x.
    rewrite !elem_of_union, elem_of_singleton. tauto. }
  split; [done|].
  apply bool_decide_eq_false, not_elem_of_empty.
Qed.

(** X2.  The normal form of a URL is stripped of surrounding white space
    and never BrowserManager.site_root-relative; normalising is idempotent; a path that
    starts with a slash and the same path behind the BrowserManager.site_root root have the
    same normal form, so marking either form marks the other. *)
Theorem normalize_url_forms (p : SchoolDataProcessor.t) (url path : Py.str) :
  SchoolDataProcessor.normalize_url (SchoolDataProcessor.normalize_url url)
  = SchoolDataProcessor.normalize_url url
  /\ Py.startswith (SchoolDataProcessor.normalize_url url) (Py.lit "/") = false
  /\ Py.strip (SchoolDataProcessor.normalize_url url)
     = SchoolDataProcessor.normalize_url url
  /\ SchoolDataProcessor.normalize_url
       (Py.lit "https://transparencia.educacao.sp.gov.br" ++ Py.lit "/" ++ path)
     = SchoolDataProcessor.normalize_url (Py.lit "/" ++ path)
  /\ SchoolDataProcessor.is_url_processed
       (SchoolDataProcessor.mark_url_processed p (Py.lit "/" ++ path))
       (Py.lit "https://transparencia.educacao.sp.gov.br" ++ Py.lit "/" ++ path)
     = true
  /\ SchoolDataProcessor.is_url_processed
       (SchoolDataProcessor.mark_url_processed p
          (Py.lit "https://transparencia.educacao.sp.gov.br" ++ Py.lit "/" ++ path))
       (Py.lit "/" ++ path)
     = true.
Proof.
  destruct (normalize_url_idempotent url) as (Hidem & Hstart & Hstrip).
  assert (Hsame : SchoolDataProcessor.normalize_url
       (Py.lit "https://transparencia.educacao.sp.gov.br" ++ Py.lit "/" ++ path)
     = SchoolDataProcessor.normalize_url (Py.lit "/" ++ path)).
  { change (Py.lit "/" ++ path) with (47%N :: path).
    change (Py.lit "https://transparencia.educacao.sp.gov.br") with BrowserManager.site_root. by rewrite normalize_url_absolute, normalize_url_relative. }
  split; [exact Hidem|]. split; [exact Hstart|].
  split; [exact Hstrip|]. split; [exact Hsame|].
  unfold SchoolDataProcessor.is_url_processed, SchoolDataProcessor.mark_url_processed.
  cbn [SchoolDataProcessor.processed_urls].
  rewrite Hsame.
  split; apply bool_decide_eq_true, elem_of_union_l, elem_of_singleton; done.
Qed.

(** * Rows *)

(** X3.  The keys of the dictionary of an entity are exactly the 28 field
    names of the header, which are pairwise distinct: the writer never
    rejects a row for an unknown key and never fills a cell for a missing
    one.  The row of an entity has, in the order of the header, its
    attributes, with the value of the classification and of the status,
    the ISO form of the time stamp, and an empty cell for a missing or
    empty error message. *)
Theorem to_dict_matches_header (s : SchoolData.t) :
  dom (SchoolData.to_dict s) = list_to_set (C := gset string) CSVStorage.fieldnames
  /\ NoDup CSVStorage.fieldnames
  /\ length CSVStorage.fieldnames = 28%nat
  /\ csv_row s
     = [ SchoolData.name s;
         SchoolClassification.value (SchoolData.classification s);
         SchoolData.detail_url s;
         datetime.isoformat (SchoolData.extraction_timestamp s);
         ProcessingStatusValue.value (SchoolData.status s);
         SchoolData.teaching_directorate s;
         SchoolData.neighborhood s;
         SchoolData.municipality s;
         SchoolData.phone s;
         SchoolData.email s;
         SchoolData.ideb_score_final_years s;
         SchoolData.idesp_score_final_years s;
         SchoolData.ideb_score_high_school s;
         SchoolData.idesp_score_high_school s;
         SchoolData.total_students s;
         SchoolData.age_06_10_final_years s;
         SchoolData.age_11_14_final_years s;
         SchoolData.age_15_17_final_years s;
         SchoolData.age_18_plus_final_years s;
         SchoolData.age_06_10_high_school s;
         SchoolData.age_11_14_high_school s;
         SchoolData.age_15_17_high_school s;
         SchoolData.age_18_plus_high_school s;
         SchoolData.total_classes s;
         SchoolData.classes_final_years s;
         SchoolData.classes_high_school s;
         SchoolData.total_classrooms s;
         default [] (SchoolData.error_message s) ].
Proof.
  split.
  { apply (bool_decide_eq_true_1 _). vm_compute. reflexivity. }
  split.
  { apply (bool_decide_eq_true_1 _). vm_compute. reflexivity. }
  split; [reflexivity|].
  unfold csv_row. destruct s as [? ? ? ts ? ? ? ? ? ? ? ? ? ? ? ? ? ? ? ? ? ? ? ? ? ? ? msg].
  cbn [SchoolData.name SchoolData.classification SchoolData.detail_url
       SchoolData.extraction_timestamp SchoolData.status
       SchoolData.teaching_directorate SchoolData.neighborhood
       SchoolData.municipality SchoolData.phone SchoolData.email
       SchoolData.ideb_score_final_years SchoolData.idesp_score_final_years
       SchoolData.ideb_score_high_school SchoolData.idesp_score_high_school
       SchoolData.total_students SchoolData.age_06_10_final_years
       SchoolData.age_11_14_final_years SchoolData.age_15_17_final_years
       SchoolData.age_18_plus_final_years SchoolData.age_06_10_high_school
       SchoolData.age_11_14_high_school SchoolData.age_15_17_high_school
       SchoolData.age_18_plus_high_school SchoolData.total_classes
       SchoolData.classes_final_years SchoolData.classes_high_school
       SchoolData.total_classrooms SchoolData.error_message].
  destruct msg as [[|c m]|]; vm_compute; reflexivity.
Qed.

(** * Batches: edge cases, count, names *)

Lemma undigits_digits d : undigits (Py.digits d) = d.
Proof. induction d; simpl; by f_equal. Qed.

Lemma undigits_zeros k s :
  N.of_uint (undigits (replicate k 48%N ++ s)) = N.of_uint (undigits s).
Proof.
  induction k as [|k IH]; [done|].
  cbn [replicate app undigits N.eqb Pos.eqb].
  rewrite <- IH. rewrite <- (Unsigned.of_uint_norm (D0 _)), unorm_D0.
  by rewrite Unsigned.of_uint_norm.
Qed.

Lemma format_0d_inj width n m :
  0 <= n -> 0 <= m -> Py.format_0d width n = Py.format_0d width m -> n = m.
Proof.
  intros Hn Hm. unfold Py.format_0d.
  destruct (Z.ltb_spec n 0); [lia|]. destruct (Z.ltb_spec m 0); [lia|].
  cbn [app length]. intros E.
  apply (f_equal (fun s => N.of_uint (undigits s))) in E.
  rewrite !undigits_zeros, !undigits_digits, !Unsigned.of_to in E.
  lia.
Qed.

Lemma batch_count_ceil total_pages batch_size :
  1 <= total_pages -> 1 <= batch_size ->
  Z.of_nat (batch_count total_pages batch_size)
  = (total_pages + batch_size - 1) / batch_size.
Proof.
  intros Ht Hb. unfold batch_count.
  assert (0 <= (total_pages - 1) / batch_size) by (apply Z.div_pos; lia).
  rewrite Z2Nat.id by lia.
  replace (total_pages + batch_size - 1)
    with (total_pages - 1 + 1 * batch_size) by lia.
  rewrite Z.div_add by lia. lia.
Qed.

(** X4.  With at least one page and a batch size of at least one, the
    number of batches is the number of pages divided by the batch size,
    rounded up; all pages fit in one batch when the batch size is at
    least the number of pages; and no two batches have the same name,
    also beyond BATCH_999. *)
Theorem create_batches_count_and_names (total_pages batch_size : Z)
    (Htotal : 1 <= total_pages) (Hsize : 1 <= batch_size) :
  exists batches,
    BatchProcessor.create_batches total_pages batch_size = Py.Ok batches
    /\ Z.of_nat (length batches) = (total_pages + batch_size - 1) / batch_size
    /\ (total_pages <= batch_size ->
        exists b, batches = [b] /\ BatchConfig.start_page b = 1
                  /\ BatchConfig.end_page b = total_pages)
    /\ NoDup (BatchConfig.batch_name <$> batches)
    /\ Forall (fun b => BatchConfig.max_concurrent b = 12
                        /\ BatchConfig.retry_attempts b = 3) batches.
Proof.
  eexists. split; [by apply create_batches_eq|].
  rewrite length_fmap, length_seq.
  split; [by apply batch_count_ceil|].
  split.
  { intros Hle.
    assert (batch_count total_pages batch_size = 1%nat) as ->.
    { unfold batch_count. rewrite Z.div_small by lia. reflexivity. }
    eexists. split; [reflexivity|]. simpl. lia. }
  split.
  { rewrite <- list_fmap_compose. apply NoDup_fmap_2_strong; [|apply NoDup_seq].
    intros i j _ _. unfold compose, nth_batch.
    cbn [BatchConfig.batch_name]. intros E. apply app_inv_head in E.
    apply format_0d_inj in E; lia. }
  apply Forall_fmap, Forall_forall. by intros i _.
Qed.

Lemma create_batches_count_and_names_witness :
  exists batches,
    BatchProcessor.create_batches 5574 12 = Py.Ok batches
    /\ Z.of_nat (length batches) = 465
    /\ NoDup (BatchConfig.batch_name <$> batches).
Proof.
  destruct (create_batches_count_and_names 5574 12 ltac:(lia) ltac:(lia))
    as (batches & Heq & Hlen & _ & Hnames & _).
  exists batches. split; [exact Heq|]. split; [|exact Hnames].
  rewrite Hlen. reflexivity.
Defined.

(** X5.  Without pages there is no batch, whatever the positive batch
    size; a negative batch size gives no batch either when the number of
    pages is not negative; a batch size of zero raises the ValueError of
    [range]. *)
Theorem create_batches_edge_cases (total_pages batch_size : Z) :
  (total_pages <= 0 -> 1 <= batch_size ->
   BatchProcessor.create_batches total_pages batch_size = Py.Ok [])
  /\ (0 <= total_pages -> batch_size < 0 ->
      BatchProcessor.create_batches total_pages batch_size = Py.Ok [])
  /\ BatchProcessor.create_batches total_pages 0
     = Py.Raise (Py.ValueError (Py.lit "range() arg 3 must not be zero")).
Proof.
  unfold BatchProcessor.create_batches, Py.range.
  split; [|split; [|reflexivity]].
  - intros Ht Hb.
    destruct (Z.eqb_spec batch_size 0); [lia|].
    destruct (Z.ltb_spec 0 batch_size); [|lia].
    destruct (Z.ltb_spec 1 (total_pages + 1)); [lia|]. reflexivity.
  - intros Ht Hb.
    destruct (Z.eqb_spec batch_size 0); [lia|].
    destruct (Z.ltb_spec 0 batch_size); [lia|].
    destruct (Z.ltb_spec (total_pages + 1) 1); [lia|]. reflexivity.
Qed.

Lemma create_batches_edge_cases_witness :
  0 <= 0 /\ 1 <= 12 /\ BatchProcessor.create_batches 0 12 = Py.Ok [].
Proof.
  split; [lia|]. split; [lia|].
  apply (proj1 (create_batches_edge_cases 0 12)); lia.
Defined.

(** * Retry *)

(** X6.  A detail fetch returns a dictionary exactly when the page could be
    opened and closed and one of the attempts 1, 2, 3 read the document:
    the dictionary is the one of the first such attempt.  Otherwise it
    raises: the error of opening, else the error of closing, else a
    RetryError that wraps the error of the third attempt.  No fourth
    attempt is made. *)
Theorem process_school_parallel_attempts (w : BrowserManager.school_world)
    (url : Py.str) :
  (forall d,
     BrowserManager.process_school_parallel w url = Py.Ok d <->
     Py.is_ok (BrowserManager.open_page w) = true
     /\ Py.is_ok (BrowserManager.close_page w) = true
     /\ exists n r,
          (1 <= n <= 3)%nat
          /\ BrowserManager.load w n = Py.Ok r
          /\ (forall k, (1 <= k < n)%nat ->
                        Py.is_ok (BrowserManager.load w k) = false)
          /\ d = BrowserManager.details_dict url r)
  /\ (forall e,
        BrowserManager.process_school_parallel w url = Py.Raise e <->
        BrowserManager.open_page w = Py.Raise e
        \/ (Py.is_ok (BrowserManager.open_page w) = true
            /\ BrowserManager.close_page w = Py.Raise e)
        \/ (Py.is_ok (BrowserManager.open_page w) = true
            /\ Py.is_ok (BrowserManager.close_page w) = true
            /\ Py.is_ok (BrowserManager.load w 1) = false
            /\ Py.is_ok (BrowserManager.load w 2) = false
            /\ exists e3, BrowserManager.load w 3 = Py.Raise e3
                          /\ e = Py.RetryError e3))
  /\ (forall w',
        BrowserManager.open_page w' = BrowserManager.open_page w ->
        BrowserManager.close_page w' = BrowserManager.close_page w ->
        (forall n, (1 <= n <= 3)%nat ->
                   BrowserManager.load w' n = BrowserManager.load w n) ->
        BrowserManager.process_school_parallel w' url
        = BrowserManager.process_school_parallel w url).
Proof.
  unfold BrowserManager.process_school_parallel,
    BrowserManager.extract_school_details, BrowserManager.stop_after_attempt,
    Py.rbind.
  cbn [Nat.sub BrowserManager.retry_from].
  split; [|split].
  - intros d. split.
    + destruct (BrowserManager.open_page w); [|discriminate].
      destruct (BrowserManager.close_page w); [|discriminate].
      destruct (BrowserManager.load w 1) as [r1|e1] eqn:E1.
      { intros [= <-]. do 2 (split; [reflexivity|]).
        exists 1%nat, r1. split; [lia|]. split; [exact E1|].
        split; [intros k Hk; lia|reflexivity]. }
      destruct (BrowserManager.load w 2) as [r2|e2] eqn:E2.
      { intros [= <-]. do 2 (split; [reflexivity|]).
        exists 2%nat, r2. split; [lia|]. split; [exact E2|].
        split; [|reflexivity].
        intros k Hk. assert (k = 1%nat) as -> by lia. by rewrite E1. }
      destruct (BrowserManager.load w 3) as [r3|e3] eqn:E3; [|discriminate].
      intros [= <-]. do 2 (split; [reflexivity|]).
      exists 3%nat, r3. split; [lia|]. split; [exact E3|].
      split; [|reflexivity].
      intros k Hk.
      assert (k = 1%nat \/ k = 2%nat) as [-> | ->] by lia;
        [by rewrite E1|by rewrite E2].
    + intros (Ho & Hc & n & r & Hn & Hload & Hbefore & ->).
      destruct (BrowserManager.open_page w); [|discriminate].
      destruct (BrowserManager.close_page w); [|discriminate].
      assert (n = 1 \/ n = 2 \/ n = 3)%nat as [-> | [-> | ->]] by lia.
      * by rewrite Hload.
      * pose proof (Hbefore 1%nat ltac:(lia)) as H1.
        destruct (BrowserManager.load w 1); [discriminate|].
        by rewrite Hload.
      * pose proof (Hbefore 1%nat ltac:(lia)) as H1.
        pose proof (Hbefore 2%nat ltac:(lia)) as H2.
        destruct (BrowserManager.load w 1); [discriminate|].
        destruct (BrowserManager.load w 2); [discriminate|].
        by rewrite Hload.
  - intros e. split.
    + destruct (BrowserManager.open_page w); [|intros [= <-]; by left].
      destruct (BrowserManager.close_page w);
        [|intros [= <-]; right; left; by split].
      destruct (BrowserManager.load w 1); [discriminate|].
      destruct (BrowserManager.load w 2); [discriminate|].
      destruct (BrowserManager.load w 3) as [|e3]; [discriminate|].
      intros [= <-]. right. right. do 4 (split; [reflexivity|]).
      by exists e3.
    + intros [Ho | [[Ho Hc] | (Ho & Hc & H1 & H2 & e3 & H3 & ->)]].
      * by rewrite Ho.
      * destruct (BrowserManager.open_page w); [|discriminate].
        by rewrite Hc.
      * destruct (BrowserManager.open_page w); [|discriminate].
        destruct (BrowserManager.close_page w); [|discriminate].
        destruct (BrowserManager.load w 1); [discriminate|].
        destruct (BrowserManager.load w 2); [discriminate|].
        by rewrite H3.
  - intros w' -> -> Hload.
    by rewrite !Hload by lia.
Qed.

(** * Links of a result page *)

Lemma unique_links_elem links seen x :
  x ∈ BrowserManager.unique_links links seen <-> x ∈ links /\ x ∉ seen.
Proof.
  revert seen. induction links as [|link links IH]; intros seen; simpl.
  - split; [intros H; by apply elem_of_nil in H|].
    intros [H _]. by apply elem_of_nil in H.
  - case_bool_decide as Hin.
    + rewrite IH, elem_of_cons. split; [intros [H1 H2]; by auto|].
      intros [[-> | H1] H2]; [done|by split].
    + rewrite elem_of_cons, IH, elem_of_cons, not_elem_of_union,
        not_elem_of_singleton.
      split.
      * intros [-> | (H1 & H2 & H3)]; [by split; [left|]|by split; [right|]].
      * intros [[-> | H1] H2]; [by left|].
        destruct (decide (x = link)) as [-> | Hne]; [by left|by right].
Qed.

Lemma unique_links_NoDup links seen :
  NoDup (BrowserManager.unique_links links seen).
Proof.
  revert seen. induction links as [|link links IH]; intros seen; simpl.
  - constructor.
  - case_bool_decide as Hin; [apply IH|].
    constructor; [|apply IH].
    rewrite unique_links_elem, not_elem_of_union, not_elem_of_singleton.
    by intros (_ & ? & _).
Qed.

Lemma unique_links_sublist links seen :
  BrowserManager.unique_links links seen `sublist_of` links.
Proof.
  revert seen. induction links as [|link links IH]; intros seen; simpl.
  - constructor.
  - case_bool_decide; [apply sublist_cons, IH|apply sublist_skip, IH].
Qed.

Lemma unique_links_app l1 l2 seen :
  BrowserManager.unique_links (l1 ++ l2) seen
  = BrowserManager.unique_links l1 seen
    ++ BrowserManager.unique_links l2 (list_to_set l1 ∪ seen).
Proof.
  revert seen. induction l1 as [|x l1 IH]; intros seen.
  - cbn [app BrowserManager.unique_links]. f_equal. apply set_eq. intros y.
    rewrite elem_of_union, elem_of_list_to_set, elem_of_nil. tauto.
  - cbn [app BrowserManager.unique_links].
    case_bool_decide as Hin.
    + rewrite IH. do 2 f_equal. apply set_eq. intros y.
      rewrite !elem_of_union, !elem_of_list_to_set, elem_of_cons.
      split; [tauto|]. intros [[-> | ?] | ?]; tauto.
    + cbn [app]. rewrite IH. do 3 f_equal. apply set_eq. intros y.
      rewrite !elem_of_union, !elem_of_list_to_set, elem_of_cons,
        elem_of_singleton.
      tauto.
Qed.

Lemma unique_links_fixed links seen :
  NoDup links -> (forall x, x ∈ links -> x ∉ seen) ->
  BrowserManager.unique_links links seen = links.
Proof.
  intros Hnd. revert seen.
  induction Hnd as [|x l Hx Hnd IH]; intros seen Hseen; simpl; [done|].
  rewrite bool_decide_eq_false_2 by (apply Hseen; by left).
  f_equal. apply IH. intros y Hy.
  rewrite not_elem_of_union, not_elem_of_singleton. split.
  - intros ->. done.
  - apply Hseen. by right.
Qed.

(** X7.  The removal of duplicates keeps the first occurrence of every
    link, in the order of the page: the result has no duplicate, has the
    links of the input and no other, is a sublist of the input, leaves a
    list without duplicates as it is, and continues over an appended list
    with the links of the first part as seen. *)
Theorem unique_links_first_occurrences (links more : list Py.str) :
  NoDup (BrowserManager.unique_links links ∅)
  /\ (forall x, x ∈ BrowserManager.unique_links links ∅ <-> x ∈ links)
  /\ BrowserManager.unique_links links ∅ `sublist_of` links
  /\ BrowserManager.unique_links (BrowserManager.unique_links links ∅) ∅
     = BrowserManager.unique_links links ∅
  /\ BrowserManager.unique_links (links ++ more) ∅
     = BrowserManager.unique_links links ∅
       ++ BrowserManager.unique_links more (list_to_set links)
  /\ BrowserManager.unique_links (links ++ links) ∅
     = BrowserManager.unique_links links ∅.
Proof.
  split; [apply unique_links_NoDup|].
  split.
  { intros x. rewrite unique_links_elem. split; [by intros [? _]|].
    intros H. split; [done|]. apply not_elem_of_empty. }
  split; [apply unique_links_sublist|].
  split.
  { apply unique_links_fixed; [apply unique_links_NoDup|].
    intros x _. apply not_elem_of_empty. }
  assert (Happ : forall m, BrowserManager.unique_links (links ++ m) ∅
     = BrowserManager.unique_links links ∅
       ++ BrowserManager.unique_links m (list_to_set links)).
  { intros m. rewrite unique_links_app. do 2 f_equal.
    apply leibniz_equiv. apply (right_id _ _). }
  split; [apply Happ|].
  rewrite Happ.
  assert (BrowserManager.unique_links links (list_to_set links) = []) as ->.
  { destruct (BrowserManager.unique_links links (list_to_set links))
      as [|x t] eqn:E; [done|].
    assert (Hx : x ∈ BrowserManager.unique_links links (list_to_set links))
      by (rewrite E; left).
    apply unique_links_elem in Hx as [H1 H2].
    exfalso. apply H2. by apply elem_of_list_to_set. }
  by rewrite app_nil_r.
Qed.

Lemma contains_app_l needle a b :
  Py.contains needle b = true -> Py.contains needle (a ++ b) = true.
Proof.
  intros H. induction a as [|c a IH]; [exact H|].
  simpl. rewrite IH. apply orb_true_r.
Qed.

Lemma site_root_no_slash s :
  Py.startswith (BrowserManager.site_root ++ s) (Py.lit "/") = false.
Proof. reflexivity. Qed.

(** X8.  Every link returned for a result page contains DetalhesEscola,
    does not start with a slash (a relative reference has been prefixed
    with the site root), and comes from the href of an element of the
    page; no link is returned twice.  When the table is not found and
    none of the three alternative selectors appears, or when the wait
    after it fails, the result is empty. *)
Theorem extract_school_links_wellformed (lw : BrowserManager.links_world) :
  NoDup (BrowserManager.extract_school_links lw)
  /\ Forall (fun link =>
       Py.contains (Py.lit "DetalhesEscola") link = true
       /\ Py.startswith link (Py.lit "/") = false
       /\ exists selector elements href,
            BrowserManager.query_selector_all lw selector = Py.Ok elements
            /\ Py.Ok (Some href) ∈ elements
            /\ link = if Py.startswith href (Py.lit "/")
                      then BrowserManager.site_root ++ href else href)
       (BrowserManager.extract_school_links lw)
  /\ (Py.is_ok (BrowserManager.wait_table lw) = false ->
      (forall selector,
         Py.is_ok (BrowserManager.wait_alternative lw selector) = false) ->
      BrowserManager.extract_school_links lw = [])
  /\ (Py.is_ok (BrowserManager.settle lw) = false ->
      BrowserManager.extract_school_links lw = []).
Proof.
  split; [apply extract_school_links_NoDup|].
  unfold BrowserManager.extract_school_links.
  split; [|split].
  - set (proceed := match BrowserManager.wait_table lw with
                    | Py.Ok _ => true | Py.Raise _ => _ end).
    destruct proceed; [|constructor].
    destruct (BrowserManager.settle lw); [|constructor].
    apply Forall_forall. intros link Hlink.
    apply unique_links_elem in Hlink as [Hlink _].
    apply list_elem_of_bind in Hlink as (element & Hlink & Helement).
    assert (Hfrom : exists selector elements,
              BrowserManager.query_selector_all lw selector = Py.Ok elements
              /\ element ∈ elements).
    { revert Helement. unfold BrowserManager.first_nonempty.
      cbn [fold_left].
      destruct (BrowserManager.query_selector_all lw _) as [[|x1 l1]|] eqn:E1;
        [| intros H; by eauto |].
      - destruct (BrowserManager.query_selector_all lw
                    "table tbody tr td a") as [[|x2 l2]|] eqn:E2;
          [| intros H; by eauto |].
        + destruct (BrowserManager.query_selector_all lw
                      ".dataTable tbody tr td a") as [l3|] eqn:E3;
            [intros H; by eauto|].
          intros H. by apply elem_of_nil in H.
        + destruct (BrowserManager.query_selector_all lw
                      ".dataTable tbody tr td a") as [l3|] eqn:E3;
            [intros H; by eauto|].
          intros H. by apply elem_of_nil in H.
      - destruct (BrowserManager.query_selector_all lw
                    "table tbody tr td a") as [[|x2 l2]|] eqn:E2;
          [| intros H; by eauto |].
        + destruct (BrowserManager.query_selector_all lw
                      ".dataTable tbody tr td a") as [l3|] eqn:E3;
            [intros H; by eauto|].
          intros H. by apply elem_of_nil in H.
        + destruct (BrowserManager.query_selector_all lw
                      ".dataTable tbody tr td a") as [l3|] eqn:E3;
            [intros H; by eauto|].
          intros H. by apply elem_of_nil in H. }
    destruct Hfrom as (selector & elements & Hq & Hin).
    destruct element as [[href|]|]; [| by apply elem_of_nil in Hlink ..].
    destruct href as [|c href]; [by apply elem_of_nil in Hlink|].
    destruct (Py.contains (Py.lit "DetalhesEscola") (c :: href)) eqn:Hc;
      [|by apply elem_of_nil in Hlink].
    apply list_elem_of_singleton in Hlink. subst link.
    split.
    { destruct (Py.startswith (c :: href) (Py.lit "/"));
        [by apply contains_app_l|exact Hc]. }
    split.
    { destruct (Py.startswith (c :: href) (Py.lit "/")) eqn:Hs;
        [apply site_root_no_slash|exact Hs]. }
    exists selector, elements, (c :: href). by split.
  - intros Hw Halt.
    destruct (BrowserManager.wait_table lw); [discriminate|].
    cbn [existsb]. by rewrite !Halt.
  - intros Hs.
    destruct (BrowserManager.settle lw); [discriminate|].
    by destruct (match BrowserManager.wait_table lw with
                 | Py.Ok _ => true | Py.Raise _ => _ end).
Qed.




Lemma sample_storage_open :
  storage_open (initialized_storage sample_time (Py.lit "results") None).
Proof.
  split; [vm_compute; reflexivity|].
  eexists. split; [vm_compute; reflexivity|reflexivity].
Qed.



Lemma force_save_open dir fname w f :
  TextFile.closed f = false ->
  CSVStorage.force_save (CSVStorage.make dir fname w (Some f))
  = (Py.Ok tt,
     CSVStorage.make dir fname w
       (Some (TextFile.make false [] (TextFile.kernel f ++ TextFile.buffer f)
                (TextFile.kernel f ++ TextFile.buffer f)
                ((TextFile.events f ++ [TextFile.EvFlush])
                 ++ [TextFile.EvFsync])))).
Proof.
  intros Hc. unfold CSVStorage.force_save.
  unfold CSVStorage.bind at 1. unfold CSVStorage.get at 1.
  cbn [CSVStorage.csv_file].
  unfold CSVStorage.bind at 1.
  rewrite (file_call_open TextFile.flush dir fname _ f
             (TextFile.make false [] (TextFile.kernel f ++ TextFile.buffer f)
                (TextFile.disk f) (TextFile.events f ++ [TextFile.EvFlush])))
    by (unfold TextFile.flush; by rewrite Hc).
  by rewrite (file_call_open TextFile.fsync dir fname _ _
                (TextFile.make false [] (TextFile.kernel f ++ TextFile.buffer f)
                   (TextFile.kernel f ++ TextFile.buffer f)
                   ((TextFile.events f ++ [TextFile.EvFlush])
                    ++ [TextFile.EvFsync]))).
Qed.

Lemma close_open dir fname w f :
  TextFile.closed f = false ->
  CSVStorage.close (CSVStorage.make dir fname w (Some f))
  = (Py.Ok tt,
     CSVStorage.make dir fname w
       (Some (TextFile.make true [] ((TextFile.kernel f ++ TextFile.buffer f) ++ [])
                (TextFile.kernel f ++ TextFile.buffer f)
                (((TextFile.events f ++ [TextFile.EvFlush])
                  ++ [TextFile.EvFsync]) ++ [TextFile.EvClose])))).
Proof.
  intros Hc. unfold CSVStorage.close.
  unfold CSVStorage.bind at 1. unfold CSVStorage.get at 1.
  cbn [CSVStorage.csv_file].
  unfold CSVStorage.bind at 1.
  rewrite (file_call_open TextFile.flush dir fname _ f
             (TextFile.make false [] (TextFile.kernel f ++ TextFile.buffer f)
                (TextFile.disk f) (TextFile.events f ++ [TextFile.EvFlush])))
    by (unfold TextFile.flush; by rewrite Hc).
  unfold CSVStorage.bind at 1.
  rewrite (file_call_open TextFile.fsync dir fname _ _
             (TextFile.make false [] (TextFile.kernel f ++ TextFile.buffer f)
                (TextFile.kernel f ++ TextFile.buffer f)
                ((TextFile.events f ++ [TextFile.EvFlush])
                 ++ [TextFile.EvFsync])))
    by reflexivity.
  by rewrite (file_call_open (fun f => Py.Ok (TextFile.close f)) dir fname _ _
                (TextFile.make true []
                   ((TextFile.kernel f ++ TextFile.buffer f) ++ [])
                   (TextFile.kernel f ++ TextFile.buffer f)
                   (((TextFile.events f ++ [TextFile.EvFlush])
                     ++ [TextFile.EvFsync]) ++ [TextFile.EvClose]))).
Qed.

(** X11.  [force_save] on an initialised, open storage makes every row
    written so far durable with one fsync and leaves the file open; on a
    storage that was never initialised it does nothing. *)
Theorem force_save_makes_durable (st : CSVStorage.t) (Hopen : storage_open st) :
  (exists st',
     CSVStorage.force_save st = (Py.Ok tt, st')
     /\ storage_open st'
     /\ durable st' = written st
     /\ handed_over st' = written st
     /\ pending st' = []
     /\ fsync_count st' = S (fsync_count st))
  /\ forall dir, CSVStorage.force_save (CSVStorage.init dir)
                 = (Py.Ok tt, CSVStorage.init dir).
Proof.
  split; [|reflexivity].
  destruct Hopen as [Hw (f & Hf & Hc)].
  destruct st as [dir fname w file].
  cbn [CSVStorage.csv_writer CSVStorage.csv_file] in *. subst w file.
  rewrite (force_save_open dir fname _ f Hc).
  eexists. split; [reflexivity|].
  unfold durable, handed_over, pending, written, fsync_count.
  cbn [CSVStorage.csv_file CSVStorage.csv_writer TextFile.buffer
       TextFile.kernel TextFile.disk TextFile.events].
  split; [split; [reflexivity|]; eexists; split; reflexivity|].
  do 3 (split; [reflexivity|]).
  rewrite !List.filter_app, !length_app. cbn [List.filter length]. lia.
Qed.

Lemma force_save_makes_durable_witness :
  exists st',
    CSVStorage.force_save
      (initialized_storage sample_time (Py.lit "results") None)
    = (Py.Ok tt, st')
    /\ length (durable st') = 1%nat.
Proof.
  destruct (proj1 (force_save_makes_durable _ sample_storage_open))
    as (st' & Hrun & _ & Hd & _).
  exists st'. split; [exact Hrun|]. rewrite Hd. vm_compute. reflexivity.
Defined.

(** X12.  [close] on an initialised, open storage makes every row written
    so far durable and closes the file.  From then on the storage rejects
    every operation that touches the file: writing an entity and
    [force_save] raise the ValueError of a closed file, not the
    RuntimeError of a storage that was not initialised, and leave the
    storage as it is. *)
Theorem close_makes_durable_then_rejects (st : CSVStorage.t)
    (school : SchoolData.t) (Hopen : storage_open st) :
  exists st',
    CSVStorage.close st = (Py.Ok tt, st')
    /\ storage_closed st'
    /\ durable st' = written st
    /\ CSVStorage.filename st' = CSVStorage.filename st
    /\ CSVStorage.write_school_data school st'
       = (Py.Raise TextFile.closed_error, st')
    /\ CSVStorage.write_single_school school st'
       = (Py.Raise TextFile.closed_error, st')
    /\ CSVStorage.write_multiple_schools [school] st'
       = (Py.Raise TextFile.closed_error, st')
    /\ CSVStorage.force_save st' = (Py.Raise TextFile.closed_error, st').
Proof.
  destruct Hopen as [Hw (f & Hf & Hc)].
  destruct st as [dir fname w file].
  cbn [CSVStorage.csv_writer CSVStorage.csv_file] in *. subst w file.
  rewrite (close_open dir fname _ f Hc).
  eexists. split; [reflexivity|].
  split; [split; [reflexivity|]; eexists; split; reflexivity|].
  split; [reflexivity|]. split; [reflexivity|].
  assert (Hwrite : forall s,
    CSVStorage.write_school_data s
      (CSVStorage.make dir fname (Some (CSVStorage.make_writer CSVStorage.fieldnames))
         (Some (TextFile.make true [] ((TextFile.kernel f ++ TextFile.buffer f) ++ [])
                  (TextFile.kernel f ++ TextFile.buffer f)
                  (((TextFile.events f ++ [TextFile.EvFlush]) ++ [TextFile.EvFsync])
                   ++ [TextFile.EvClose]))))
    = (Py.Raise TextFile.closed_error,
       CSVStorage.make dir fname (Some (CSVStorage.make_writer CSVStorage.fieldnames))
         (Some (TextFile.make true [] ((TextFile.kernel f ++ TextFile.buffer f) ++ [])
                  (TextFile.kernel f ++ TextFile.buffer f)
                  (((TextFile.events f ++ [TextFile.EvFlush]) ++ [TextFile.EvFsync])
                   ++ [TextFile.EvClose]))))).
  { intros s. unfold CSVStorage.write_school_data.
    unfold CSVStorage.bind at 1. unfold CSVStorage.get at 1.
    cbn [CSVStorage.csv_writer]. unfold CSVStorage.writerow.
    cbn [CSVStorage.writer_fieldnames].
    rewrite (to_dict_fields s). reflexivity. }
  split; [apply Hwrite|].
  split.
  { unfold CSVStorage.write_single_school. unfold CSVStorage.bind at 1.
    by rewrite Hwrite. }
  split.
  { cbn [CSVStorage.write_multiple_schools]. unfold CSVStorage.bind at 1.
    by rewrite Hwrite. }
  reflexivity.
Qed.

Lemma close_makes_durable_then_rejects_witness :
  exists st',
    CSVStorage.close (initialized_storage sample_time (Py.lit "results") None)
    = (Py.Ok tt, st')
    /\ CSVStorage.write_single_school sample_school st'
       = (Py.Raise (Py.ValueError (Py.lit "I/O operation on closed file.")), st').
Proof.
  destruct (close_makes_durable_then_rejects _ sample_school sample_storage_open)
    as (st' & Hrun & _ & _ & _ & _ & Hw & _).
  exists st'. split; [exact Hrun|exact Hw].
Defined.

Lemma header_dict_fields :
  bool_decide
    (dom (list_to_map (M := gmap string Py.str)
            ((fun key => (key, Py.lit key)) <$> CSVStorage.fieldnames))
     ⊆ list_to_set (C := gset string) CSVStorage.fieldnames) = true.
Proof. vm_compute. reflexivity. Qed.

Lemma header_dict_row :
  (fun key =>
     default [] ((list_to_map (M := gmap string Py.str)
                    ((fun key => (key, Py.lit key)) <$> CSVStorage.fieldnames))
                 !! key)) <$> CSVStorage.fieldnames
  = Py.lit <$> CSVStorage.fieldnames.
Proof. vm_compute. reflexivity. Qed.

Lemma initialize_csv_eq now open_ fname dir fname0 w0 file0 :
  let path := CSVStorage.path_join dir (chosen_filename now fname) in
  CSVStorage.initialize_csv now open_ fname
    (CSVStorage.make dir fname0 w0 file0)
  = match open_ path with
    | Py.Ok _ =>
        (Py.Ok path,
         CSVStorage.make dir (Some path)
           (Some (CSVStorage.make_writer CSVStorage.fieldnames))
           (Some (TextFile.make false [Py.lit <$> CSVStorage.fieldnames] [] []
                    [TextFile.EvWrite (Py.lit <$> CSVStorage.fieldnames)])))
    | Py.Raise e => (Py.Raise e, CSVStorage.make dir (Some path) w0 file0)
    end.
Proof.
  intros path. unfold CSVStorage.initialize_csv.
  change (match fname with
          | None | Some [] =>
              Py.lit "edsp_schools_" ++ datetime.strftime_compact now
              ++ Py.lit ".csv"
          | Some n => n
          end) with (chosen_filename now fname).
  unfold CSVStorage.bind at 1. unfold CSVStorage.get at 1.
  cbn [CSVStorage.output_dir]. fold path.
  unfold CSVStorage.bind at 1. unfold CSVStorage.set_filename at 1.
  cbn [CSVStorage.output_dir CSVStorage.csv_writer CSVStorage.csv_file].
  unfold CSVStorage.bind at 1.
  destruct (open_ path) as [[]|e]; [|reflexivity].
  cbn [CSVStorage.lift]. unfold CSVStorage.ret at 1.
  unfold CSVStorage.bind at 1. unfold CSVStorage.set_csv_file at 1.
  cbn [CSVStorage.output_dir CSVStorage.csv_writer CSVStorage.csv_file
       CSVStorage.filename].
  unfold CSVStorage.bind at 1. unfold CSVStorage.set_csv_writer at 1.
  cbn [CSVStorage.output_dir CSVStorage.csv_writer CSVStorage.csv_file
       CSVStorage.filename].
  unfold CSVStorage.bind at 1. unfold CSVStorage.writeheader.
  cbn [CSVStorage.writer_fieldnames].
  rewrite (writerow_open _ dir (Some path) CSVStorage.fieldnames
             TextFile.opened header_dict_fields eq_refl).
  rewrite header_dict_row. reflexivity.
Qed.


(** X14.  [process_school_data] never raises and always returns an entity
    stamped with one reading of the clock.  The entity has status SUCCESS
    and no error message when the dictionary has the keys classification,
    name and detail_url; otherwise it has status ERROR, an empty name,
    the classification UNKNOWN, the detail_url of the dictionary if it
    has one, and as error message the quoted name of the first missing
    key.  Exactly one of the counters successful and errors grows by
    one with total processed, so consistent statistics stay consistent;
    the storage and the list of entities are not touched. *)
Theorem process_school_data_outcomes `{Py.UnicodeDatabase}
    (w : EDSPScraper.world) (raw_data : gmap string Py.str)
    (self : EDSPScraper.t) :
  exists school self',
    EDSPScraper.process_school_data w raw_data self = (Py.Ok school, self')
    /\ SchoolData.extraction_timestamp school
       = EDSPScraper.clock w (EDSPScraper.clock_reads self)
    /\ EDSPScraper.clock_reads self' = S (EDSPScraper.clock_reads self)
    /\ EDSPScraper.storage self' = EDSPScraper.storage self
    /\ EDSPScraper.all_schools self' = EDSPScraper.all_schools self
    /\ EDSPScraper.batch_processor self' = EDSPScraper.batch_processor self
    /\ (consistent (SchoolDataProcessor.stats (EDSPScraper.school_processor self))
        -> consistent (SchoolDataProcessor.stats (EDSPScraper.school_processor self')))
    /\ match missing_key raw_data with
       | None =>
           SchoolData.status school = SUCCESS
           /\ SchoolData.error_message school = None
           /\ Some (SchoolData.name school) = raw_data !! "name"%string
           /\ Some (SchoolData.detail_url school) = raw_data !! "detail_url"%string
           /\ SchoolData.classification school
              = SchoolClassification.from_text (raw_data !! "classification"%string)
           /\ EDSPScraper.school_processor self'
              = SchoolDataProcessor.update_stats_success
                  (EDSPScraper.school_processor self)
       | Some key =>
           SchoolData.status school = ERROR
           /\ SchoolData.error_message school
              = Some (Py.lit "'" ++ Py.lit key ++ Py.lit "'")
           /\ SchoolData.name school = []
           /\ SchoolData.classification school
              = SchoolClassification.make (Py.lit "UNKNOWN")
           /\ SchoolData.detail_url school
              = default [] (raw_data !! "detail_url"%string)
           /\ EDSPScraper.school_processor self'
              = SchoolDataProcessor.update_stats_error
                  (EDSPScraper.school_processor self)
       end.
Proof.
  unfold EDSPScraper.process_school_data, EDSPScraper.success_arguments,
    missing_key, EDSPScraper.getitem, EDSPScraper.get_default.
  destruct (raw_data !! "classification"%string) as [c|] eqn:Ec;
    cbn [Py.rbind];
    [destruct (raw_data !! "name"%string) as [n|] eqn:En;
     cbn [Py.rbind];
     [destruct (raw_data !! "detail_url"%string) as [u|] eqn:Eu;
      cbn [Py.rbind]|]|];
    (eexists; eexists; split; [reflexivity|]);
    cbn [SchoolData.extraction_timestamp SchoolDataProcessor.create_school_data
         EDSPScraper.clock_reads EDSPScraper.storage EDSPScraper.all_schools
         EDSPScraper.batch_processor EDSPScraper.school_processor
         SchoolData.status SchoolData.error_message SchoolData.name
         SchoolData.detail_url SchoolData.classification Py.str_of_exn];
    (split; [reflexivity|]); (split; [reflexivity|]); (split; [reflexivity|]);
    (split; [reflexivity|]); (split; [reflexivity|]);
    (split; [unfold consistent; cbn; lia|]);
    (split; [reflexivity|]); (split; [reflexivity|]); (split; [reflexivity|]);
    (split; [reflexivity|]); (split; [try reflexivity|try reflexivity]).
  all: try (rewrite ?Eu; reflexivity).
Qed.

Lemma verified_renders_S w from n :
  verified_renders w from (S n)
  = ((if verified w from then 1 else 0) + verified_renders w (S from) n)%nat.
Proof.
  unfold verified_renders. cbn [seq List.filter].
  by destruct (verified w from).
Qed.

Lemma navigation_loop_responsive w target (Hresp : forall k, responsive (w k)) :
  forall remaining attempt cp trace,
    cp <= target ->
    (fst (fst (BrowserManager.navigation_loop w target remaining attempt cp trace))
     = true
     <-> (0 < remaining)%nat
         /\ target <= cp + Z.of_nat (verified_renders w attempt (remaining - 1)))
    /\ (fst (fst (BrowserManager.navigation_loop w target remaining attempt cp trace))
        = true ->
        snd (fst (BrowserManager.navigation_loop w target remaining attempt cp trace))
        = target).
Proof.
  induction remaining as [|n IH]; intros attempt cp trace Hcp;
    cbn [BrowserManager.navigation_loop].
  - cbn [fst snd]. split; [|discriminate]. split; [discriminate|lia].
  - destruct (Z.leb_spec target cp) as [Hge|Hlt].
    { cbn [fst snd]. split; [|intros _; lia]. split; [intros _|done].
      split; lia. }
    destruct (Hresp attempt) as (Hb & Hc & Hw). rewrite Hb.
    destruct (BrowserManager.click (w attempt)); [|discriminate].
    destruct (BrowserManager.wait_after_click (w attempt)); [|discriminate].
    replace (S n - 1)%nat with n by lia.
    destruct n as [|m].
    { assert (Hz : verified_renders w attempt 0 = 0%nat) by reflexivity.
      rewrite Hz.
      destruct (BrowserManager.wait_for_table (w attempt));
        cbn [BrowserManager.navigation_loop fst snd];
        (split; [|discriminate]); (split; [discriminate|lia]). }
    rewrite verified_renders_S. unfold verified at 1.
    destruct (BrowserManager.wait_for_table (w attempt)); cbn [Py.is_ok].
    + destruct (IH (S attempt) (cp + 1)
                  (trace ++ [BrowserManager.Click;
                             BrowserManager.Rendered (cp + 1)]) ltac:(lia))
        as [Hiff Hreach].
      split; [|exact Hreach].
      rewrite Hiff. replace (S m - 1)%nat with m by lia.
      split; intros [_ H]; (split; [lia|lia]).
    + destruct (IH (S attempt) cp (trace ++ [BrowserManager.Click]) ltac:(lia))
        as [Hiff Hreach].
      split; [|exact Hreach].
      rewrite Hiff. replace (S m - 1)%nat with m by lia.
      split; intros [_ H]; (split; [lia|lia]).
Qed.

Lemma navigation_loop_all_verified w target
    (Hresp : forall k, responsive (w k))
    (Hver : forall k, verified w k = true) :
  forall remaining attempt cp trace,
    cp <= target -> target - cp < Z.of_nat remaining ->
    exists trace',
      BrowserManager.navigation_loop w target remaining attempt cp trace
      = (true, target, trace')
      /\ clicks trace' = (clicks trace + Z.to_nat (target - cp))%nat
      /\ renders trace' = (renders trace + Z.to_nat (target - cp))%nat.
Proof.
  induction remaining as [|n IH]; intros attempt cp trace Hcp Hrem; [lia|].
  cbn [BrowserManager.navigation_loop].
  destruct (Z.leb_spec target cp) as [Hge|Hlt].
  { exists trace. assert (cp = target) as -> by lia.
    split; [reflexivity|]. rewrite Z.sub_diag. cbn. lia. }
  destruct (Hresp attempt) as (Hb & Hc & Hw). rewrite Hb.
  destruct (BrowserManager.click (w attempt)); [|discriminate].
  destruct (BrowserManager.wait_after_click (w attempt)); [|discriminate].
  pose proof (Hver attempt) as Hv. unfold verified in Hv.
  destruct (BrowserManager.wait_for_table (w attempt)); [|discriminate].
  destruct (IH (S attempt) (cp + 1)
              (trace ++ [BrowserManager.Click; BrowserManager.Rendered (cp + 1)])
              ltac:(lia) ltac:(lia)) as (trace' & Hrun & Hcl & Hre).
  exists trace'. split; [exact Hrun|].
  rewrite Hcl, Hre, clicks_app, renders_app.
  change (clicks [BrowserManager.Click; BrowserManager.Rendered (cp + 1)])
    with 1%nat.
  change (renders [BrowserManager.Click; BrowserManager.Rendered (cp + 1)])
    with 1%nat.
  lia.
Qed.

(** X15.  Navigation beyond the first page in a session where the advance
    control is always found and every click goes through: the function
    returns True exactly when at least target - 1 of the first target + 4
    attempts are followed by a verified re-render, that is, it absorbs
    up to five re-renders that are not verified; it then stops at the
    target page, not beyond.  When every re-render is verified it makes
    exactly target - 1 clicks. *)
Theorem navigate_responsive_session (w : BrowserManager.navigation_world)
    (target : Z) (Htarget : 1 < target)
    (Hwait : Py.is_ok (BrowserManager.wait_before w) = true)
    (Hresp : forall k, responsive (BrowserManager.advance w k)) :
  (fst (fst (BrowserManager.navigate_to_page_robust w target)) = true
   <-> target - 1
       <= Z.of_nat (verified_renders (BrowserManager.advance w) 0
                      (Z.to_nat (target + 4))))
  /\ (fst (fst (BrowserManager.navigate_to_page_robust w target)) = true ->
      snd (fst (BrowserManager.navigate_to_page_robust w target)) = target)
  /\ ((forall k, verified (BrowserManager.advance w) k = true) ->
      exists trace,
        BrowserManager.navigate_to_page_robust w target = (true, target, trace)
        /\ clicks trace = Z.to_nat (target - 1)
        /\ renders trace = Z.to_nat (target - 1)).
Proof.
  unfold BrowserManager.navigate_to_page_robust.
  destruct (Z.eqb_spec target 1) as [|_]; [lia|].
  destruct (BrowserManager.wait_before w); [|discriminate].
  destruct (Z.ltb_spec 1 target) as [_|]; [|lia].
  destruct (navigation_loop_responsive (BrowserManager.advance w) target Hresp
              (Z.to_nat (target + 5)) 0 1 [] ltac:(lia)) as [Hiff Hreach].
  split; [|split; [exact Hreach|]].
  - rewrite Hiff.
    replace (Z.to_nat (target + 5) - 1)%nat with (Z.to_nat (target + 4)) by lia.
    split; [intros [_ H]; lia|intros H; split; lia].
  - intros Hver.
    destruct (navigation_loop_all_verified (BrowserManager.advance w) target
                Hresp Hver (Z.to_nat (target + 5)) 0 1 []
                ltac:(lia) ltac:(lia)) as (trace & Hrun & Hcl & Hre).
    exists trace. split; [exact Hrun|].
    change (clicks []) with 0%nat in Hcl. change (renders []) with 0%nat in Hre.
    split; lia.
Qed.

Lemma navigate_responsive_session_witness :
  fst (fst (BrowserManager.navigate_to_page_robust prompt_world 3)) = true
  <-> 3 - 1 <= Z.of_nat (verified_renders (BrowserManager.advance prompt_world) 0
                           (Z.to_nat (3 + 4))).
Proof.
  apply (navigate_responsive_session prompt_world 3); [lia|reflexivity|].
  intros k. by repeat split.
Defined.

Lemma find_next_button_true q selectors :
  BrowserManager.find_next_button q selectors false = true
  <-> exists selector, selector ∈ selectors /\ q selector = Py.Ok true.
Proof.
  induction selectors as [|s selectors IH]; cbn [BrowserManager.find_next_button].
  - split; [discriminate|]. intros (x & Hx & _). by apply elem_of_nil in Hx.
  - destruct (q s) as [[]|e] eqn:E.
    + split; [intros _|done]. exists s. split; [left|done].
    + rewrite IH. split; intros (x & Hx & Hq).
      * exists x. split; [by right|done].
      * apply elem_of_cons in Hx as [->|Hx]; [congruence|by exists x].
    + rewrite IH. split; intros (x & Hx & Hq).
      * exists x. split; [by right|done].
      * apply elem_of_cons in Hx as [->|Hx]; [congruence|by exists x].
Qed.

(** X16.  Navigation that ends before the first click: for a target below
    the first page the function waits and reports success without
    navigating; when that wait fails, or when no selector finds the
    advance control on the first page, a target beyond the first page is
    reported as not reached, with no click made.  The control is found
    exactly when one of the five selectors returns an element; a selector
    whose query raises is passed over. *)
Theorem navigate_without_click (w : BrowserManager.navigation_world)
    (target : Z) :
  (target < 1 ->
   BrowserManager.navigate_to_page_robust w target
   = (Py.is_ok (BrowserManager.wait_before w), 1, []))
  /\ (1 < target ->
      Py.is_ok (BrowserManager.wait_before w) = false
      \/ BrowserManager.find_next_button
           (BrowserManager.query_selector (BrowserManager.advance w 0))
           BrowserManager.next_selectors false = false ->
      BrowserManager.navigate_to_page_robust w target = (false, 1, []))
  /\ (BrowserManager.find_next_button
        (BrowserManager.query_selector (BrowserManager.advance w 0))
        BrowserManager.next_selectors false = true
      <-> exists selector,
            selector ∈ BrowserManager.next_selectors
            /\ BrowserManager.query_selector (BrowserManager.advance w 0)
                 selector = Py.Ok true).
Proof.
  unfold BrowserManager.navigate_to_page_robust.
  split; [|split].
  - intros Ht. destruct (Z.eqb_spec target 1) as [|_]; [lia|].
    destruct (BrowserManager.wait_before w); [|reflexivity].
    destruct (Z.ltb_spec 1 target); [lia|reflexivity].
  - intros Ht Hfail. destruct (Z.eqb_spec target 1) as [|_]; [lia|].
    destruct (BrowserManager.wait_before w) eqn:Ew; [|reflexivity].
    destruct Hfail as [Hfail|Hfail]; [discriminate|].
    destruct (Z.ltb_spec 1 target); [|lia].
    destruct (Z.to_nat (target + 5)) as [|n] eqn:En; [lia|].
    cbn [BrowserManager.navigation_loop].
    destruct (Z.leb_spec target 1); [lia|]. by rewrite Hfail.
  - apply find_next_button_true.
Qed.

Lemma fold_count_classification schools :
  forall (m : gmap Py.str Z) (c : Py.str),
    fold_left EDSPScraper.count_classification schools m !! c
    = match List.filter (counts_for c) schools with
      | [] => m !! c
      | l => Some (default 0 (m !! c) + Z.of_nat (length l))
      end.
Proof.
  induction schools as [|s schools IH]; intros m c; [reflexivity|].
  cbn [fold_left List.filter]. rewrite IH.
  unfold EDSPScraper.count_classification, counts_for.
  destruct (SchoolData.status s).
  - case_bool_decide as Hc.
    + subst c. rewrite lookup_insert_eq.
      destruct (List.filter _ schools) as [|x l]; cbn [default length];
        f_equal; unfold id; lia.
    + rewrite lookup_insert_ne by done. reflexivity.
  - reflexivity.
  - reflexivity.
Qed.

(** X17.  In the summary, the entry of a classification value is the
    number of entities in [all_schools] that have status SUCCESS and that
    value; a value no such entity has is absent, so no entry is zero, and
    entities with status ERROR are counted in [total_schools] only. *)
Theorem summary_counts_successes (self : EDSPScraper.t) (c : Py.str) :
  EDSPScraper.summary_classifications self !! c
  = match List.filter (counts_for c) (EDSPScraper.all_schools self) with
    | [] => None
    | l => Some (Z.of_nat (length l))
    end
  /\ (forall n, EDSPScraper.summary_classifications self !! c = Some n ->
                1 <= n <= Z.of_nat (length (List.filter succeeded
                                              (EDSPScraper.all_schools self))))
  /\ Z.of_nat (length (List.filter succeeded (EDSPScraper.all_schools self)))
     <= EDSPScraper.summary_total_schools self.
Proof.
  unfold EDSPScraper.summary_classifications, EDSPScraper.summary_total_schools.
  rewrite fold_count_classification, lookup_empty. cbn [default].
  assert (Hle : forall l : list SchoolData.t,
            (length (List.filter (counts_for c) l)
             <= length (List.filter succeeded l))%nat).
  { induction l as [|s l IH]; [done|]. cbn [List.filter].
    unfold counts_for at 1, succeeded at 1.
    destruct (SchoolData.status s); [|exact IH..].
    case_bool_decide; cbn [length]; lia. }
  split; [|split].
  - destruct (List.filter _ _); reflexivity.
  - intros n. specialize (Hle (EDSPScraper.all_schools self)).
    destruct (List.filter (counts_for c) _) as [|x l]; [discriminate|].
    intros [= <-]. cbn [length] in *. lia.
  - pose proof (List.filter_length_le succeeded (EDSPScraper.all_schools self)).
    lia.
Qed.


(** * Classification of ASCII text *)

Lemma upper_ascii `{Py.UnicodeDatabase} s :
  is_ascii s = true -> Py.upper s = Py.ascii_upper <$> s.
Proof.
  induction s as [|c s IH]; [done|].
  cbn [is_ascii forallb]. intros [Hc Hs]%andb_true_iff.
  unfold Py.upper. cbn [mbind list_bind]. fold (Py.upper s).
  rewrite (IH Hs). unfold Py.upper_cp. by rewrite Hc.
Qed.

Lemma ascii_upper_lt c : (c < 128)%N -> (Py.ascii_upper c < 128)%N.
Proof.
  unfold Py.ascii_upper. intros Hc.
  destruct (97 <=? c)%N eqn:E1, (c <=? 122)%N eqn:E2; cbn [andb]; lia.
Qed.

Lemma ascii_upper_idempotent c :
  Py.ascii_upper (Py.ascii_upper c) = Py.ascii_upper c.
Proof.
  unfold Py.ascii_upper.
  destruct (N.leb_spec 97 c), (N.leb_spec c 122); cbn [andb]; try reflexivity.
  - destruct (N.leb_spec 97 (c - 32)), (N.leb_spec (c - 32) 122);
      cbn [andb]; try reflexivity; lia.
  - destruct (N.leb_spec 97 c), (N.leb_spec c 122); cbn [andb];
      try reflexivity; lia.
  - destruct (N.leb_spec 97 c), (N.leb_spec c 122); cbn [andb];
      try reflexivity; lia.
  - destruct (N.leb_spec 97 c), (N.leb_spec c 122); cbn [andb];
      try reflexivity; lia.
Qed.

Lemma isspace_ascii_upper c : Py.isspace (Py.ascii_upper c) = Py.isspace c.
Proof.
  unfold Py.ascii_upper.
  destruct (N.leb_spec 97 c), (N.leb_spec c 122); cbn [andb]; try reflexivity.
  unfold Py.isspace.
  repeat match goal with
         | |- context [(?a <=? ?b)%N] => destruct (N.leb_spec a b); try lia
         | |- context [(?a =? ?b)%N] => destruct (N.eqb_spec a b); try lia
         end; reflexivity.
Qed.

Lemma lstrip_ascii_upper s :
  Py.lstrip (Py.ascii_upper <$> s) = Py.ascii_upper <$> Py.lstrip s.
Proof.
  induction s as [|c s IH]; [done|].
  cbn [fmap list_fmap Py.lstrip]. rewrite isspace_ascii_upper.
  destruct (Py.isspace c); [exact IH|reflexivity].
Qed.

Lemma strip_ascii_upper s :
  Py.strip (Py.ascii_upper <$> s) = Py.ascii_upper <$> Py.strip s.
Proof.
  unfold Py.strip, Py.rstrip.
  by rewrite lstrip_ascii_upper, <- fmap_reverse, lstrip_ascii_upper,
    fmap_reverse.
Qed.

Lemma is_ascii_fmap_upper s :
  is_ascii s = true -> is_ascii (Py.ascii_upper <$> s) = true.
Proof.
  induction s as [|c s IH]; [done|].
  cbn [is_ascii forallb fmap list_fmap].
  intros [Hc Hs]%andb_true_iff. apply andb_true_iff. split; [|by apply IH].
  apply N.ltb_lt, ascii_upper_lt. by apply N.ltb_lt.
Qed.

Lemma is_ascii_lstrip s : is_ascii s = true -> is_ascii (Py.lstrip s) = true.
Proof.
  induction s as [|c s IH]; [done|]. intros Hs. cbn [Py.lstrip].
  destruct (Py.isspace c); [|exact Hs].
  apply IH. cbn [is_ascii forallb] in Hs. by apply andb_true_iff in Hs as [_ ?].
Qed.

Lemma is_ascii_reverse s : is_ascii (reverse s) = is_ascii s.
Proof.
  unfold is_ascii. induction s as [|c s IH]; [done|].
  rewrite reverse_cons, forallb_app, IH. cbn [forallb].
  rewrite andb_true_r. apply andb_comm.
Qed.

Lemma is_ascii_strip s : is_ascii s = true -> is_ascii (Py.strip s) = true.
Proof.
  intros Hs. unfold Py.strip, Py.rstrip.
  rewrite is_ascii_reverse. apply is_ascii_lstrip.
  rewrite is_ascii_reverse. by apply is_ascii_lstrip.
Qed.

Lemma upper_strip_ascii `{Py.UnicodeDatabase} s :
  is_ascii s = true ->
  Py.upper (Py.strip s) = Py.ascii_upper <$> Py.strip s
  /\ Py.strip (Py.upper (Py.strip s)) = Py.upper (Py.strip s)
  /\ Py.upper (Py.upper (Py.strip s)) = Py.upper (Py.strip s)
  /\ Py.upper (Py.strip (Py.upper s)) = Py.upper (Py.strip s).
Proof.
  intros Hs. pose proof (is_ascii_strip s Hs) as Hst.
  rewrite (upper_ascii (Py.strip s) Hst), (upper_ascii s Hs).
  split; [reflexivity|].
  split; [by rewrite strip_ascii_upper, strip_idempotent|].
  rewrite strip_ascii_upper.
  rewrite !(upper_ascii (Py.ascii_upper <$> Py.strip s))
    by (by apply is_ascii_fmap_upper).
  rewrite <- !list_fmap_compose.
  split; apply list_fmap_ext; intros; apply ascii_upper_idempotent.
Qed.

(** X19.  On ASCII text [from_text] ignores letter case and, for a text
    that is not blank, surrounding white space; the value it returns is
    stable: parsing the value again gives the same classification.  A
    non-empty text of white space only is the exception: it gives the
    empty value, not UNKNOWN, and parsing that value again gives
    UNKNOWN. *)
Theorem from_text_normalises `{Py.UnicodeDatabase} (text : Py.str)
    (Hascii : is_ascii text = true) :
  SchoolClassification.from_text (Some (Py.upper text))
  = SchoolClassification.from_text (Some text)
  /\ (Py.strip text <> [] ->
      SchoolClassification.from_text (Some (Py.strip text))
      = SchoolClassification.from_text (Some text)
      /\ SchoolClassification.from_text
           (Some (SchoolClassification.value
                    (SchoolClassification.from_text (Some text))))
         = SchoolClassification.from_text (Some text))
  /\ (text <> [] -> Py.strip text = [] ->
      SchoolClassification.from_text (Some text) = SchoolClassification.make []
      /\ SchoolClassification.from_text
           (Some (SchoolClassification.value
                    (SchoolClassification.from_text (Some text))))
         = SchoolClassification.make SchoolClassification.UNKNOWN).
Proof.
  destruct (upper_strip_ascii text Hascii) as (Hup & Hstrip & Hupup & Hcomm).
  split; [|split].
  - destruct text as [|c text]; [reflexivity|].
    assert (Hu : Py.upper (c :: text) <> [])
      by (rewrite (upper_ascii (c :: text) Hascii); done).
    rewrite (from_text_value (Py.upper (c :: text)) Hu).
    rewrite (from_text_value (c :: text)) by done. by rewrite Hcomm.
  - intros Hne.
    assert (Ht : text <> []) by (intros ->; by apply Hne).
    rewrite (from_text_value text Ht).
    split.
    + rewrite from_text_value by done. by rewrite strip_idempotent.
    + cbn [SchoolClassification.value].
      assert (Hne' : Py.upper (Py.strip text) <> []).
      { rewrite Hup. intros E. apply fmap_nil_inv in E. done. }
      rewrite from_text_value by done. by rewrite Hstrip, Hupup.
  - intros Ht Hblank. rewrite (from_text_value text Ht), Hblank.
    split; reflexivity.
Qed.

Lemma from_text_normalises_witness :
  SchoolClassification.from_text
    (H := ascii_only_database) (Some (Py.upper (H := ascii_only_database)
                                        (Py.lit " Escola Tecnica ")))
  = SchoolClassification.from_text (H := ascii_only_database)
      (Some (Py.lit " Escola Tecnica ")).
Proof.
  exact (proj1 (from_text_normalises (H := ascii_only_database)
                  (Py.lit " Escola Tecnica ") eq_refl)).
Defined.

(** * The reader on the lines of the writer *)

Section Automaton.

Import Csv.

Lemma special_false c :
  special c = false ->
  (c =? delimiter)%N = false /\ (c =? quotechar)%N = false
  /\ is_newline c = false.
Proof.
  unfold special, is_newline.
  destruct (c =? delimiter)%N, (c =? quotechar)%N, (c =? 13)%N, (c =? 10)%N;
    cbn; intros; try discriminate; done.
Qed.

Lemma step_add s fs f n c :
  (n < field_limit)%N ->
  parse_add_char (make_parser s fs f n) c = Py.Ok (make_parser s fs (c :: f) (n + 1)).
Proof.
  intros Hn. unfold parse_add_char. cbn [field_len st fields field].
  destruct (N.leb_spec field_limit n); [lia|reflexivity].
Qed.

Lemma step_in_field fs f n c :
  special c = false -> (n < field_limit)%N ->
  parse_process_char (make_parser IN_FIELD fs f n) (Some c)
  = Py.Ok (make_parser IN_FIELD fs (c :: f) (n + 1)).
Proof.
  intros (Hd & Hq & Hnl)%special_false Hn.
  unfold parse_process_char. cbn [st]. rewrite Hnl, Hd. by apply step_add.
Qed.

Lemma step_start_plain s fs c :
  s = START_RECORD \/ s = START_FIELD -> special c = false ->
  parse_process_char (make_parser s fs [] 0) (Some c) = Py.Ok (make_parser IN_FIELD fs [c] 1).
Proof.
  intros Hs (Hd & Hq & Hnl)%special_false.
  unfold parse_process_char.
  destruct Hs as [-> | ->]; cbn [st]; rewrite Hnl, Hq, Hd;
    rewrite step_add by reflexivity; reflexivity.
Qed.

Lemma step_start_quote s fs :
  s = START_RECORD \/ s = START_FIELD ->
  parse_process_char (make_parser s fs [] 0) (Some quotechar)
  = Py.Ok (make_parser IN_QUOTED_FIELD fs [] 0).
Proof. intros [-> | ->]; reflexivity. Qed.

Lemma step_start_delim s fs :
  s = START_RECORD \/ s = START_FIELD ->
  parse_process_char (make_parser s fs [] 0) (Some delimiter)
  = Py.Ok (make_parser START_FIELD ([] :: fs) [] 0).
Proof. intros [-> | ->]; reflexivity. Qed.

Lemma step_field_delim fs f n :
  parse_process_char (make_parser IN_FIELD fs f n) (Some delimiter)
  = Py.Ok (make_parser START_FIELD (reverse f :: fs) [] 0).
Proof. reflexivity. Qed.

Lemma step_field_end fs f n :
  feed (make_parser IN_FIELD fs f n) [10%N]
  = Py.Ok (make_parser START_RECORD (reverse f :: fs) [] 0).
Proof. reflexivity. Qed.

Lemma step_start_field_end fs :
  feed (make_parser START_FIELD fs [] 0) [10%N] = Py.Ok (make_parser START_RECORD ([] :: fs) [] 0).
Proof. reflexivity. Qed.

Lemma step_quoted_char fs f n c :
  (c =? quotechar)%N = false -> (n < field_limit)%N ->
  parse_process_char (make_parser IN_QUOTED_FIELD fs f n) (Some c)
  = Py.Ok (make_parser IN_QUOTED_FIELD fs (c :: f) (n + 1)).
Proof.
  intros Hq Hn. unfold parse_process_char. cbn [st]. rewrite Hq.
  by apply step_add.
Qed.

Lemma step_quoted_quote fs f n :
  (n < field_limit)%N ->
  feed (make_parser IN_QUOTED_FIELD fs f n) [quotechar; quotechar]
  = feed (make_parser IN_QUOTED_FIELD fs (quotechar :: f) (n + 1)) [].
Proof.
  intros Hn. cbn [feed].
  change (parse_process_char (make_parser IN_QUOTED_FIELD fs f n) (Some quotechar))
    with (Py.Ok (make_parser QUOTE_IN_QUOTED_FIELD fs f n)).
  cbn [Py.rbind].
  assert (E : parse_process_char (make_parser QUOTE_IN_QUOTED_FIELD fs f n) (Some quotechar)
              = Py.Ok (make_parser IN_QUOTED_FIELD fs (quotechar :: f) (n + 1))).
  { unfold parse_process_char. cbn [st].
    change (quotechar =? quotechar)%N with true. cbv iota.
    rewrite step_add by done. reflexivity. }
  rewrite E. reflexivity.
Qed.

Lemma step_close_delim fs f n :
  parse_process_char (make_parser QUOTE_IN_QUOTED_FIELD fs f n) (Some delimiter)
  = Py.Ok (make_parser START_FIELD (reverse f :: fs) [] 0).
Proof. reflexivity. Qed.

Lemma step_close_end fs f n :
  feed (make_parser QUOTE_IN_QUOTED_FIELD fs f n) [10%N]
  = Py.Ok (make_parser START_RECORD (reverse f :: fs) [] 0).
Proof. reflexivity. Qed.

Lemma feed_cons p c line :
  feed p (c :: line)
  = Py.rbind (parse_process_char p (Some c)) (fun p' => feed p' line).
Proof. reflexivity. Qed.

(** The characters of an unquoted cell, after the first. *)
Lemma feed_in_field chars :
  forall fs f n rest,
    forallb (fun c => negb (special c)) chars = true ->
    (n + N.of_nat (length chars) <= field_limit)%N ->
    feed (make_parser IN_FIELD fs f n) (chars ++ rest)
    = feed (make_parser IN_FIELD fs (reverse chars ++ f)
              (n + N.of_nat (length chars))) rest.
Proof.
  induction chars as [|c chars IH]; intros fs f n rest Hplain Hlen.
  - cbn [app length reverse]. by rewrite N.add_0_r.
  - cbn [forallb] in Hplain. apply andb_true_iff in Hplain as [Hc Hplain].
    apply negb_true_iff in Hc. cbn [length] in Hlen.
    cbn [app]. rewrite feed_cons, step_in_field by (done || lia).
    cbn [Py.rbind]. rewrite IH by (done || lia).
    rewrite reverse_cons, <- app_assoc. cbn [app length].
    do 2 f_equal. lia.
Qed.

(** The characters of a quoted cell, between the quotes. *)
Lemma feed_in_quotes cell :
  forall fs f n rest,
    forallb (fun c => negb (is_newline c)) cell = true ->
    (n + N.of_nat (length cell) <= field_limit)%N ->
    feed (make_parser IN_QUOTED_FIELD fs f n) (escape cell ++ rest)
    = feed (make_parser IN_QUOTED_FIELD fs (reverse cell ++ f)
              (n + N.of_nat (length cell))) rest.
Proof.
  induction cell as [|c cell IH]; intros fs f n rest Hnl Hlen.
  - cbn [app length reverse]. by rewrite N.add_0_r.
  - cbn [forallb] in Hnl. apply andb_true_iff in Hnl as [Hc Hnl].
    cbn [length] in Hlen.
    unfold escape. cbn [mbind list_bind]. fold (escape cell).
    rewrite reverse_cons, <- !app_assoc. cbn [app length].
    replace (n + N.of_nat (S (length cell)))%N
      with (n + 1 + N.of_nat (length cell))%N by lia.
    destruct (c =? quotechar)%N eqn:Hq.
    + apply N.eqb_eq in Hq. subst c. cbn [app].
      rewrite feed_cons.
      change (parse_process_char (make_parser IN_QUOTED_FIELD fs f n)
                (Some quotechar))
        with (Py.Ok (make_parser QUOTE_IN_QUOTED_FIELD fs f n)).
      cbn [Py.rbind]. rewrite feed_cons.
      assert (E : parse_process_char (make_parser QUOTE_IN_QUOTED_FIELD fs f n)
                    (Some quotechar)
                  = Py.Ok (make_parser IN_QUOTED_FIELD fs (quotechar :: f) (n + 1))).
      { unfold parse_process_char. cbn [st].
        change (quotechar =? quotechar)%N with true. cbv iota.
        rewrite step_add by lia. reflexivity. }
      rewrite E. cbn [Py.rbind]. by rewrite IH by (done || lia).
    + cbn [app]. rewrite feed_cons, step_quoted_char by (done || lia).
      cbn [Py.rbind]. by rewrite IH by (done || lia).
Qed.

Lemma needs_quotes_false cell :
  needs_quotes cell = false -> forallb (fun c => negb (special c)) cell = true.
Proof.
  unfold needs_quotes. induction cell as [|c cell IH]; [done|].
  cbn [existsb forallb]. intros [Hc Hs]%orb_false_iff.
  by rewrite Hc, IH.
Qed.

Lemma clean_cell_spec cell :
  clean_cell cell = true ->
  forallb (fun c => negb (is_newline c)) cell = true
  /\ (N.of_nat (length cell) <= field_limit)%N.
Proof.
  unfold clean_cell. intros [H1 H2]%andb_true_iff. split; [done|].
  by apply N.leb_le.
Qed.

(** A cell followed by the delimiter. *)
Lemma feed_field_delim s fs cell rest :
  s = START_RECORD \/ s = START_FIELD -> clean_cell cell = true ->
  feed (make_parser s fs [] 0) (format_field cell ++ delimiter :: rest)
  = feed (make_parser START_FIELD (cell :: fs) [] 0) rest.
Proof.
  intros Hs [Hnl Hlen]%clean_cell_spec. unfold format_field.
  destruct (needs_quotes cell) eqn:Hquote.
  - cbn [app]. rewrite feed_cons, step_start_quote by done. cbn [Py.rbind].
    rewrite <- app_assoc, feed_in_quotes by (done || lia).
    cbn [app]. rewrite feed_cons.
    change (parse_process_char
              (make_parser IN_QUOTED_FIELD fs (reverse cell ++ [])
                 (0 + N.of_nat (length cell))) (Some quotechar))
      with (Py.Ok (make_parser QUOTE_IN_QUOTED_FIELD fs (reverse cell ++ [])
                     (0 + N.of_nat (length cell)))).
    cbn [Py.rbind]. rewrite feed_cons, step_close_delim. cbn [Py.rbind].
    by rewrite app_nil_r, reverse_involutive.
  - apply needs_quotes_false in Hquote.
    destruct cell as [|c cell].
    + cbn [app]. rewrite feed_cons, step_start_delim by done. reflexivity.
    + cbn [forallb] in Hquote. apply andb_true_iff in Hquote as [Hc Hplain].
      apply negb_true_iff in Hc. cbn [length] in Hlen.
      cbn [app]. rewrite feed_cons, step_start_plain by done. cbn [Py.rbind].
      rewrite feed_in_field by (done || lia).
      rewrite feed_cons, step_field_delim. cbn [Py.rbind].
      by rewrite reverse_app, reverse_involutive, reverse_singleton.
Qed.

(** The last cell of a row, followed by the end of the line. *)
Lemma feed_field_end s fs cell :
  s = START_FIELD \/ (s = START_RECORD /\ cell <> []) ->
  clean_cell cell = true ->
  feed (make_parser s fs [] 0) (format_field cell ++ [10%N])
  = Py.Ok (make_parser START_RECORD (cell :: fs) [] 0).
Proof.
  intros Hs [Hnl Hlen]%clean_cell_spec. unfold format_field.
  assert (Hs' : s = START_RECORD \/ s = START_FIELD) by (destruct Hs as [|[]]; auto).
  destruct (needs_quotes cell) eqn:Hquote.
  - cbn [app]. rewrite feed_cons, step_start_quote by done. cbn [Py.rbind].
    rewrite <- app_assoc, feed_in_quotes by (done || lia).
    cbn [app]. rewrite feed_cons.
    change (parse_process_char
              (make_parser IN_QUOTED_FIELD fs (reverse cell ++ [])
                 (0 + N.of_nat (length cell))) (Some quotechar))
      with (Py.Ok (make_parser QUOTE_IN_QUOTED_FIELD fs (reverse cell ++ [])
                     (0 + N.of_nat (length cell)))).
    cbn [Py.rbind]. rewrite step_close_end.
    by rewrite app_nil_r, reverse_involutive.
  - apply needs_quotes_false in Hquote.
    destruct cell as [|c cell].
    + destruct Hs as [-> | [_ ?]]; [|done]. apply step_start_field_end.
    + cbn [forallb] in Hquote. apply andb_true_iff in Hquote as [Hc Hplain].
      apply negb_true_iff in Hc. cbn [length] in Hlen.
      cbn [app]. rewrite feed_cons, step_start_plain by done. cbn [Py.rbind].
      rewrite feed_in_field by (done || lia).
      rewrite step_field_end.
      by rewrite reverse_app, reverse_involutive, reverse_singleton.
Qed.

Lemma feed_join_fields cells :
  forall s fs,
    cells <> [] ->
    s = START_FIELD \/ (s = START_RECORD /\ cells <> [[]]) ->
    clean_row cells = true ->
    feed (make_parser s fs [] 0) (join_fields cells ++ [10%N])
    = Py.Ok (make_parser START_RECORD (reverse cells ++ fs) [] 0).
Proof.
  induction cells as [|cell cells IH]; intros s fs Hne Hs Hclean; [done|].
  cbn [clean_row forallb] in Hclean.
  apply andb_true_iff in Hclean as [Hcell Hclean].
  destruct cells as [|cell' cells].
  - cbn [join_fields]. rewrite feed_field_end; [reflexivity| |done].
    destruct Hs as [-> | [-> Hs]]; [by left|right].
    split; [done|]. intros ->. done.
  - change (join_fields (cell :: cell' :: cells))
      with (format_field cell ++ [delimiter] ++ join_fields (cell' :: cells)).
    rewrite <- !app_assoc. cbn [app].
    rewrite feed_field_delim; [| destruct Hs as [|[]]; auto | done].
    etrans; [apply (IH START_FIELD (cell :: fs)); [done|by left|done]|].
    rewrite (reverse_cons (cell' :: cells) cell), <- app_assoc. reflexivity.
Qed.

(** The reader gives back the row of a line of the writer. *)
Lemma feed_row_line row :
  clean_row row = true ->
  feed parse_reset (row_line row)
  = Py.Ok (make_parser START_RECORD (reverse row) [] 0).
Proof.
  intros Hclean. unfold row_line, parse_reset.
  destruct row as [|cell cells]; [reflexivity|].
  destruct cell as [|c cell], cells as [|cell' cells]; try reflexivity.
  - rewrite feed_join_fields; [by rewrite app_nil_r|done| |done].
    right. split; [done|discriminate].
  - rewrite feed_join_fields; [by rewrite app_nil_r|done| |done].
    right. split; [done|discriminate].
  - rewrite feed_join_fields; [by rewrite app_nil_r|done| |done].
    right. split; [done|discriminate].
Qed.

Lemma reader_row_lines rows :
  forallb clean_row rows = true ->
  reader (row_line <$> rows) = (rows, None).
Proof.
  unfold reader. induction rows as [|row rows IH]; [reflexivity|].
  cbn [forallb]. intros [Hrow Hrows]%andb_true_iff.
  cbn [fmap list_fmap records_from].
  rewrite (feed_row_line row Hrow).
  cbn [st at_record_start fields].
  change (list_fmap _ _ row_line rows) with (row_line <$> rows).
  rewrite (IH Hrows). by rewrite reverse_involutive.
Qed.

End Automaton.

(** * From the rows written to the lines read *)

Lemma no_newline_app a b : no_newline (a ++ b) = no_newline a && no_newline b.
Proof. apply forallb_app. Qed.

Lemma no_newline_escape cell :
  no_newline cell = true -> no_newline (Csv.escape cell) = true.
Proof.
  unfold no_newline, Csv.escape.
  induction cell as [|c cell IH]; [done|].
  cbn [forallb mbind list_bind]. intros [Hc Hcell]%andb_true_iff.
  rewrite forallb_app. fold (no_newline cell) in *.
  apply andb_true_iff. split; [|by apply IH].
  destruct (N.eqb_spec c Csv.quotechar) as [->|]; [reflexivity|].
  cbn [forallb]. by rewrite Hc.
Qed.

Lemma no_newline_format_field cell :
  clean_cell cell = true -> no_newline (Csv.format_field cell) = true.
Proof.
  intros [Hnl _]%clean_cell_spec. unfold Csv.format_field.
  destruct (Csv.needs_quotes cell); [|exact Hnl].
  rewrite !no_newline_app, no_newline_escape by done. reflexivity.
Qed.

Lemma no_newline_join_fields row :
  clean_row row = true -> no_newline (Csv.join_fields row) = true.
Proof.
  induction row as [|cell row IH]; [done|].
  cbn [clean_row forallb]. intros [Hcell Hrow]%andb_true_iff.
  destruct row as [|cell' row].
  - by apply no_newline_format_field.
  - change (Csv.join_fields (cell :: cell' :: row))
      with (Csv.format_field cell ++ [Csv.delimiter]
            ++ Csv.join_fields (cell' :: row)).
    rewrite !no_newline_app, no_newline_format_field by done.
    cbn [andb]. etrans; [|apply (IH Hrow)]. reflexivity.
Qed.

(** The text of a row as the writer sends it and as the reader gets it. *)
Lemma row_text_split row :
  clean_row row = true ->
  exists text,
    no_newline text = true
    /\ Csv.format_row row = text ++ [13%N; 10%N]
    /\ row_line row = text ++ [10%N].
Proof.
  intros Hclean.
  destruct row as [|[|c cell] [|cell' row]];
    try (exists [Csv.quotechar; Csv.quotechar]; by repeat split).
  - exists []. by repeat split.
  - exists (Csv.join_fields ([] :: cell' :: row)).
    split; [by apply no_newline_join_fields|]. by split.
  - exists (Csv.join_fields [c :: cell]).
    split; [by apply no_newline_join_fields|]. by split.
  - exists (Csv.join_fields ((c :: cell) :: cell' :: row)).
    split; [by apply no_newline_join_fields|]. by split.
Qed.

Lemma translate_newlines_line text rest :
  no_newline text = true ->
  Codec.translate_newlines (text ++ 13%N :: 10%N :: rest)
  = text ++ 10%N :: Codec.translate_newlines rest.
Proof.
  induction text as [|c text IH]; [reflexivity|].
  cbn [no_newline forallb]. intros [Hc Htext]%andb_true_iff.
  apply negb_true_iff in Hc. unfold Csv.is_newline in Hc.
  apply orb_false_iff in Hc as [_ H13].
  cbn [app Codec.translate_newlines]. rewrite H13.
  f_equal. by apply IH.
Qed.

Lemma lines_from_line text :
  forall cur rest,
    no_newline text = true ->
    Codec.lines_from cur (text ++ 10%N :: rest)
    = (reverse cur ++ text ++ [10%N]) :: Codec.lines_from [] rest.
Proof.
  induction text as [|c text IH]; intros cur rest.
  - intros _. cbn [app Codec.lines_from].
    change (10 =? 10)%N with true. cbv iota.
    by rewrite reverse_cons.
  - cbn [no_newline forallb]. intros [Hc Htext]%andb_true_iff.
    apply negb_true_iff in Hc. unfold Csv.is_newline in Hc.
    apply orb_false_iff in Hc as [H10 _].
    cbn [app Codec.lines_from]. rewrite H10.
    rewrite (IH (c :: cur) rest Htext), reverse_cons, <- app_assoc.
    reflexivity.
Qed.

Lemma read_rows_lines rows :
  forallb clean_row rows = true ->
  Codec.readlines (Codec.translate_newlines (Csv.format_rows rows))
  = row_line <$> rows.
Proof.
  unfold Codec.readlines, Csv.format_rows.
  induction rows as [|row rows IH]; [reflexivity|].
  cbn [forallb]. intros [Hrow Hrows]%andb_true_iff.
  cbn [mbind list_bind fmap list_fmap].
  destruct (row_text_split row Hrow) as (text & Hnl & -> & ->).
  rewrite <- app_assoc. cbn [app].
  rewrite translate_newlines_line by done.
  rewrite lines_from_line by done. f_equal.
  apply (IH Hrows).
Qed.

(** * The bytes of the file *)

Ltac forget_divmod :=
  repeat match goal with
         | |- context [N.modulo ?a ?b] =>
             let m := fresh "m" in set (m := N.modulo a b) in *; clearbody m
         | H : context [N.modulo ?a ?b] |- _ =>
             let m := fresh "m" in set (m := N.modulo a b) in *; clearbody m
         | |- context [N.div ?a ?b] =>
             let q := fresh "q" in set (q := N.div a b) in *; clearbody q
         | H : context [N.div ?a ?b] |- _ =>
             let q := fresh "q" in set (q := N.div a b) in *; clearbody q
         end.

Ltac split_comparisons :=
  repeat (match goal with
          | |- context [(?a <? ?b)%N] => destruct (N.ltb_spec a b); try lia
          | |- context [(?a <=? ?b)%N] => destruct (N.leb_spec a b); try lia
          | |- context [(?a =? ?b)%N] => destruct (N.eqb_spec a b); try lia
          end; cbn [andb negb]).

Ltac bytes_below := repeat (apply List.Forall_cons; [lia|]); apply List.Forall_nil.

Lemma utf8_decode_encode_cp c bs rest :
  Codec.utf8_encode_cp c = Some bs ->
  Codec.utf8_decode (bs ++ rest) = cons c <$> Codec.utf8_decode rest
  /\ Forall (fun b => (b < 256)%N) bs.
Proof.
  unfold Codec.utf8_encode_cp.
  destruct (N.ltb_spec c 128) as [H1|H1].
  { intros [= <-]. split; [|bytes_below].
    cbn [app Codec.utf8_decode].
    destruct (N.ltb_spec c 128); [reflexivity|lia]. }
  pose proof (N.div_mod c 64 ltac:(lia)) as Hdm.
  pose proof (N.mod_lt c 64 ltac:(lia)) as Hm.
  pose proof (N.div_mod (c / 64) 64 ltac:(lia)) as Hdm2.
  pose proof (N.mod_lt (c / 64) 64 ltac:(lia)) as Hm2.
  pose proof (N.div_mod (c / 4096) 64 ltac:(lia)) as Hdm3.
  pose proof (N.mod_lt (c / 4096) 64 ltac:(lia)) as Hm3.
  assert (Hdd : (c / 64 / 64 = c / 4096)%N)
    by (rewrite N.Div0.div_div; reflexivity).
  assert (Hddd : (c / 4096 / 64 = c / 262144)%N)
    by (rewrite N.Div0.div_div; reflexivity).
  rewrite Hdd in Hdm2. rewrite Hddd in Hdm3. clear Hdd Hddd.
  destruct (N.ltb_spec c 2048) as [H2|H2].
  { intros [= <-].
    cbn [app Codec.utf8_decode]. unfold Codec.continuation.
    forget_divmod. split; [|bytes_below].
    split_comparisons; do 2 f_equal; lia. }
  destruct (N.ltb_spec c 65536) as [H3|H3].
  { destruct (N.leb_spec 55296 c) as [H4|H4], (N.leb_spec c 57343) as [H5|H5];
      cbn [andb]; try discriminate; intros [= <-].
    all: cbn [app Codec.utf8_decode]; unfold Codec.continuation;
      forget_divmod; (split; [|bytes_below]);
      split_comparisons; do 2 f_equal; lia. }
  destruct (N.ltb_spec c 1114112) as [H4|H4]; [|discriminate].
  intros [= <-].
  cbn [app Codec.utf8_decode]. unfold Codec.continuation.
  forget_divmod. split; [|bytes_below].
  split_comparisons; do 2 f_equal; lia.
Qed.

Lemma utf8_decode_encode s :
  forall bs,
    Codec.utf8_encode s = Some bs ->
    Codec.utf8_decode bs = Some s /\ Forall (fun b => (b < 256)%N) bs.
Proof.
  induction s as [|c s IH]; intros bs; cbn [Codec.utf8_encode].
  - intros [= <-]. split; [reflexivity|constructor].
  - destruct (Codec.utf8_encode_cp c) as [bc|] eqn:Ec; [|discriminate].
    destruct (Codec.utf8_encode s) as [bs'|]; [|discriminate].
    intros [= <-].
    destruct (utf8_decode_encode_cp c bc bs' Ec) as [Hdec Hlt].
    destruct (IH bs' eq_refl) as [Hdec' Hlt'].
    split; [by rewrite Hdec, Hdec'|by apply Forall_app].
Qed.

Lemma byte_of_to_N bs :
  Forall (fun b => (b < 256)%N) bs -> Byte.to_N <$> (Codec.byte_of <$> bs) = bs.
Proof.
  induction 1 as [|b bs Hb _ IH]; [reflexivity|].
  cbn [fmap list_fmap]. f_equal; [|exact IH].
  unfold Codec.byte_of.
  destruct (Byte.of_N b) as [x|] eqn:E.
  - by apply Byte.to_of_N.
  - apply Byte.of_N_None_iff in E. lia.
Qed.

(** Reading a file that was written as UTF-8 gives the text written,
    with its line ends translated. *)
Lemma read_text_write_text s raw :
  Codec.write_text s = Py.Ok raw ->
  Codec.read_text raw = Py.Ok (Codec.translate_newlines s).
Proof.
  unfold Codec.write_text, Codec.read_text.
  destruct (Codec.utf8_encode s) as [bs|] eqn:E; [|discriminate].
  intros [= <-]. destruct (utf8_decode_encode s bs E) as [Hdec Hlt].
  by rewrite byte_of_to_N, Hdec.
Qed.

(** * Reading back what the storage made durable *)

Lemma header_clean : clean_row (Py.lit <$> CSVStorage.fieldnames) = true.
Proof. vm_compute. reflexivity. Qed.

Lemma header_text_head :
  exists text,
    Csv.format_row (Py.lit <$> CSVStorage.fieldnames)
    = (115%N :: text) ++ [13%N; 10%N]
    /\ no_newline (115%N :: text) = true.
Proof.
  exists (tail (Csv.join_fields (Py.lit <$> CSVStorage.fieldnames))).
  split; vm_compute; reflexivity.
Qed.

(** X20.  Suppose the rows on stable storage are the header and the rows
    of the entities [schools], the file named by the storage holds the
    UTF-8 bytes of those rows as the writer formats them, and no cell of
    an entity holds a carriage return or a line feed or exceeds the field
    size limit of the reader.  Then the reader gives back exactly the
    rows, cell for cell (cells with commas and quotes included), the
    integrity check succeeds and [get_partial_data_count] is the number
    of entities. *)
Theorem durable_rows_read_back (fs : Py.str -> CSVStorage.fs_entry)
    (st : CSVStorage.t) (schools : list SchoolData.t)
    (path : Py.str) (raw : list byte)
    (Hname : CSVStorage.filename st = Some path)
    (Hrows : durable st
             = (Py.lit <$> CSVStorage.fieldnames) :: (csv_row <$> schools))
    (Hbytes : Codec.write_text (Csv.format_rows (durable st)) = Py.Ok raw)
    (Hfs : fs path = CSVStorage.Regular raw)
    (Hclean : forallb (fun s => clean_row (csv_row s)) schools = true) :
  (exists content,
     artifact_text fs st = Some content
     /\ Csv.reader (Codec.readlines content) = (durable st, None))
  /\ CSVStorage.verify_file_integrity fs st = true
  /\ CSVStorage.get_partial_data_count fs st = length schools.
Proof.
  assert (Hall : forallb clean_row (durable st) = true).
  { rewrite Hrows. cbn [forallb]. rewrite header_clean. cbn [andb].
    clear -Hclean. induction schools as [|s schools IH]; [done|].
    cbn [forallb] in Hclean. apply andb_true_iff in Hclean as [Hs Hrest].
    cbn [fmap list_fmap forallb]. rewrite Hs. by apply IH. }
  pose proof (read_text_write_text _ _ Hbytes) as Hread.
  pose proof (read_rows_lines _ Hall) as Hlines.
  pose proof (reader_row_lines _ Hall) as Hreader.
  rewrite <- Hlines in Hreader.
  assert (Hblank : Py.strip (Codec.translate_newlines (Csv.format_rows (durable st)))
                   <> []).
  { rewrite Hrows. unfold Csv.format_rows. cbn [mbind list_bind].
    destruct header_text_head as (text & -> & Hnl).
    rewrite <- app_assoc. cbn [app].
    change (115%N :: text ++ 13%N :: 10%N :: ?r)
      with ((115%N :: text) ++ 13%N :: 10%N :: r).
    rewrite translate_newlines_line by done. cbn [app].
    unfold Py.strip. rewrite lstrip_fixed by reflexivity.
    rewrite rstrip_cons_nonspace by reflexivity. discriminate. }
  split; [|split].
  - exists (Codec.translate_newlines (Csv.format_rows (durable st))).
    split; [|exact Hreader].
    unfold artifact_text, artifact. by rewrite Hname, Hfs, Hread.
  - unfold CSVStorage.verify_file_integrity.
    rewrite Hname, Hfs. cbn [CSVStorage.exists_ CSVStorage.verify_body].
    rewrite Hread. cbn [Py.rbind].
    rewrite bool_decide_eq_false_2 by exact Hblank.
    rewrite Hreader, Hrows. reflexivity.
  - unfold CSVStorage.get_partial_data_count.
    rewrite Hname, Hfs. cbn [CSVStorage.exists_ CSVStorage.count_body].
    rewrite Hread. cbn [Py.rbind]. rewrite Hreader, Hrows.
    cbn [tail]. by rewrite length_fmap.
Qed.

Lemma durable_rows_read_back_witness :
  CSVStorage.verify_file_integrity sample_fs sample_closed_storage = true
  /\ CSVStorage.get_partial_data_count sample_fs sample_closed_storage = 1%nat.
Proof.
  refine (proj2 (durable_rows_read_back sample_fs sample_closed_storage
                   [sample_school]
                   (default [] (CSVStorage.filename sample_closed_storage))
                   sample_bytes _ _ _ _ _));
    vm_compute; reflexivity.
Defined.

(** * The whole run *)

Lemma stored_refl self :
  storage_open (EDSPScraper.storage self) -> stored self self [].
Proof.
  intros Hopen. unfold stored. rewrite fmap_nil, !app_nil_r.
  split; [exact Hopen|]. do 3 (split; [reflexivity|]).
  cbn [length]. cbv zeta. repeat split; lia.
Qed.


Lemma progressed_stored self self' schools :
  progressed self self' schools -> stored self self' schools.
Proof.
  intros (P1 & P2 & P3 & P4 & P5 & _). unfold stored.
  split; [exact P4|]. split; [exact P2|]. split; [exact P3|].
  split; [exact P5|].
  rewrite P1. cbv zeta. unfold add_successes. cbn. repeat split; lia.
Qed.

Lemma process_batch_stored `{Py.UnicodeDatabase} w batch_config self :
  storage_open (EDSPScraper.storage self) ->
  exists r self' schools,
    EDSPScraper.process_batch w batch_config self = (r, self')
    /\ stored self self' schools
    /\ match r with
       | Py.Ok v =>
           v = (schools,
                SchoolDataProcessor.stats (EDSPScraper.school_processor self'))
       | Py.Raise _ => True
       end.
Proof.
  intros Hopen. unfold EDSPScraper.process_batch.
  unfold EDSPScraper.bind at 1.
  destruct (EDSPScraper.launch w) as [[]|e]; cbn [EDSPScraper.lift].
  2:{ exists (Py.Raise e), self, []. split; [reflexivity|].
      split; [by apply stored_refl|done]. }
  unfold EDSPScraper.ret at 1.
  unfold EDSPScraper.bind at 1. unfold EDSPScraper.get at 1.
  unfold EDSPScraper.bind at 1.
  destruct (Py.range _ _ 1) as [pages|e]; cbn [EDSPScraper.lift].
  2:{ exists (Py.Raise e), self, []. split; [reflexivity|].
      split; [by apply stored_refl|done]. }
  unfold EDSPScraper.ret at 1.
  unfold EDSPScraper.bind at 1.
  destruct pages as [|p pages].
  - unfold EDSPScraper.ret at 1. unfold EDSPScraper.bind at 1.
    destruct (EDSPScraper.shutdown w) as [[]|e]; cbn [EDSPScraper.lift].
    + exists (Py.Ok ([], SchoolDataProcessor.stats
                           (EDSPScraper.school_processor self))), self, [].
      split; [reflexivity|]. split; [by apply stored_refl|reflexivity].
    + exists (Py.Raise e), self, []. split; [reflexivity|].
      split; [by apply stored_refl|done].
  - destruct (handle_all_results_success w (p :: pages) self Hopen)
      as (schools & self1 & Hrun & _ & Hp).
    apply progressed_stored in Hp.
    unfold EDSPScraper.bind at 1. rewrite Hrun.
    unfold EDSPScraper.bind at 1.
    unfold EDSPScraper.modify_school_processor at 1.
    unfold EDSPScraper.ret at 1.
    unfold EDSPScraper.bind at 1.
    set (self2 := EDSPScraper.make _ _ _ _ _).
    assert (Hst : stored self self2 schools).
    { destruct Hp as (O & B & A & W & C). unfold stored, self2.
      cbn [EDSPScraper.school_processor EDSPScraper.batch_processor
           EDSPScraper.storage EDSPScraper.all_schools].
      split; [exact O|]. split; [exact B|]. split; [exact A|].
      split; [exact W|]. exact C. }
    destruct (EDSPScraper.shutdown w) as [[]|e]; cbn [EDSPScraper.lift].
    + exists (Py.Ok (schools, SchoolDataProcessor.stats
                                (EDSPScraper.school_processor self2))),
        self2, schools.
      split; [reflexivity|]. split; [exact Hst|reflexivity].
    + exists (Py.Raise e), self2, schools.
      split; [reflexivity|]. split; [exact Hst|done].
Qed.

Lemma get_progress_percentage_ok i n :
  n <> 0 -> Py.is_ok (BatchProcessor.get_progress_percentage i n) = true.
Proof.
  intros Hn. unfold BatchProcessor.get_progress_percentage, Py.truediv.
  destruct (Z.eqb_spec n 0); [done|reflexivity].
Qed.

Lemma process_batches_stored `{Py.UnicodeDatabase} w n batches :
  forall i self,
    (batches <> [] -> n <> 0) ->
    storage_open (EDSPScraper.storage self) ->
    exists r self' groups,
      EDSPScraper.process_batches w n i batches self = (r, self')
      /\ storage_open (EDSPScraper.storage self')
      /\ EDSPScraper.all_schools self'
         = EDSPScraper.all_schools self ++ concat groups
      /\ written (EDSPScraper.storage self')
         = written (EDSPScraper.storage self) ++ (csv_row <$> concat groups)
      /\ (let s := SchoolDataProcessor.stats (EDSPScraper.school_processor self) in
          let s' := SchoolDataProcessor.stats (EDSPScraper.school_processor self') in
          ProcessingStats.total_processed s'
          = ProcessingStats.total_processed s + Z.of_nat (length (concat groups))
          /\ ProcessingStats.successful s'
             = ProcessingStats.successful s + Z.of_nat (length (concat groups))
          /\ ProcessingStats.errors s' = ProcessingStats.errors s
          /\ ProcessingStats.skipped s' = ProcessingStats.skipped s)
      /\ (Py.is_ok r = true ->
          let s := SchoolDataProcessor.stats (EDSPScraper.school_processor self) in
          let t := BatchProcessor.stats (EDSPScraper.batch_processor self) in
          let t' := BatchProcessor.stats (EDSPScraper.batch_processor self') in
          let counts := (fun g : list SchoolData.t => Z.of_nat (length g)) <$> groups in
          length groups = length batches
          /\ ProcessingStats.total_processed t'
             = ProcessingStats.total_processed t
               + running_total (ProcessingStats.total_processed s) counts
          /\ ProcessingStats.successful t'
             = ProcessingStats.successful t
               + running_total (ProcessingStats.successful s) counts
          /\ ProcessingStats.errors t'
             = ProcessingStats.errors t
               + Z.of_nat (length batches) * ProcessingStats.errors s
          /\ ProcessingStats.skipped t'
             = ProcessingStats.skipped t
               + Z.of_nat (length batches) * ProcessingStats.skipped s).
Proof.
  induction batches as [|batch_config batches IH]; intros i self Hn Hopen.
  - exists (Py.Ok tt), self, [].
    split; [reflexivity|]. split; [exact Hopen|].
    cbn [concat fmap list_fmap length running_total]. rewrite !app_nil_r.
    split; [reflexivity|]. split; [reflexivity|].
    split; [cbv zeta; repeat split; lia|].
    intros _. cbv zeta. repeat split; lia.
  - cbn [EDSPScraper.process_batches].
    destruct (process_batch_stored (EDSPScraper.batch_world w i) batch_config
                self Hopen) as (r1 & self1 & schools1 & Hrun1 & Hst1 & Hr1).
    destruct Hst1 as (O1 & B1 & A1 & W1 & T1 & S1 & E1 & K1).
    unfold EDSPScraper.bind at 1. rewrite Hrun1.
    destruct r1 as [v|e].
    2:{ exists (Py.Raise e), self1, [schools1].
        cbn [concat]. rewrite app_nil_r.
        split; [reflexivity|]. split; [exact O1|].
        split; [exact A1|]. split; [exact W1|].
        split; [cbv zeta; repeat split; assumption|discriminate]. }
    subst v. cbn [snd].
    unfold EDSPScraper.bind at 1.
    unfold EDSPScraper.modify_batch_processor at 1.
    unfold EDSPScraper.bind at 1.
    pose proof (get_progress_percentage_ok i n (Hn ltac:(done))) as Hpct.
    destruct (BatchProcessor.get_progress_percentage i n) as [pct|];
      [|discriminate].
    cbn [EDSPScraper.lift]. unfold EDSPScraper.ret at 1.
    set (self2 := EDSPScraper.make _ _ _ _ _).
    assert (O2 : storage_open (EDSPScraper.storage self2)) by exact O1.
    destruct (IH (i + 1) self2 (fun _ => Hn ltac:(done)) O2)
      as (r & self3 & groups & Hrun & O3 & A3 & W3 & C3 & Hok).
    exists r, self3, (schools1 :: groups).
    split; [exact Hrun|]. split; [exact O3|].
    cbn [concat]. rewrite fmap_app, length_app.
    split; [rewrite A3; unfold self2; cbn [EDSPScraper.all_schools];
            by rewrite A1, app_assoc|].
    split; [rewrite W3; unfold self2; cbn [EDSPScraper.storage];
            by rewrite W1, app_assoc|].
    unfold self2 in C3, Hok.
    cbn [EDSPScraper.school_processor EDSPScraper.batch_processor
         BatchProcessor.merge_stats BatchProcessor.stats
         ProcessingStats.total_processed ProcessingStats.successful
         ProcessingStats.errors ProcessingStats.skipped] in C3, Hok.
    cbv zeta in C3, Hok, T1, S1, E1, K1.
    destruct C3 as (C31 & C32 & C33 & C34).
    split; [cbv zeta; repeat split; lia|].
    intros Hr. specialize (Hok Hr).
    destruct Hok as (L & H1 & H2 & H3 & H4).
    cbv zeta. cbn [length fmap list_fmap running_total].
    rewrite <- T1, <- S1.
    change (list_fmap _ _ ?f groups) with (f <$> groups).
    rewrite B1 in H1, H2, H3, H4.
    repeat split; [lia|lia|lia|nia|nia].
Qed.

Lemma running_total_ge seen counts :
  0 <= seen -> Forall (fun n => 0 <= n) counts ->
  seen * Z.of_nat (length counts) + foldr Z.add 0 counts
  <= running_total seen counts.
Proof.
  intros Hseen Hcounts. revert seen Hseen.
  induction Hcounts as [|n counts Hn _ IH]; intros seen Hseen;
    cbn [running_total length foldr]; [lia|].
  specialize (IH (seen + n) ltac:(lia)). nia.
Qed.

Lemma sum_lengths (groups : list (list SchoolData.t)) :
  foldr Z.add 0 ((fun g : list SchoolData.t => Z.of_nat (length g)) <$> groups)
  = Z.of_nat (length (concat groups)).
Proof.
  induction groups as [|g groups IH]; [reflexivity|].
  cbn [fmap list_fmap foldr concat]. rewrite length_app.
  change (list_fmap _ _ ?f groups) with (f <$> groups). lia.
Qed.

Lemma lengths_nonneg (groups : list (list SchoolData.t)) :
  Forall (fun n => 0 <= n)
    ((fun g : list SchoolData.t => Z.of_nat (length g)) <$> groups).
Proof. apply Forall_fmap, Forall_forall. intros g _. cbn. lia. Qed.

(** The run totals count an entity once for its own batch and once more
    for every later batch. *)
Lemma running_total_overcounts (groups : list (list SchoolData.t)) :
  let counts := (fun g : list SchoolData.t => Z.of_nat (length g)) <$> groups in
  Z.of_nat (length (concat groups)) <= running_total 0 counts
  /\ forall g1 g2 rest,
       groups = g1 :: g2 :: rest ->
       Z.of_nat (length (concat groups)) + Z.of_nat (length g1)
       <= running_total 0 counts.
Proof.
  cbv zeta. split.
  - pose proof (running_total_ge 0 _ ltac:(lia) (lengths_nonneg groups)) as H.
    rewrite sum_lengths in H. lia.
  - intros g1 g2 rest ->.
    cbn [fmap list_fmap running_total concat]. rewrite !length_app.
    change (list_fmap _ _ ?f rest) with (f <$> rest).
    pose proof (running_total_ge (0 + Z.of_nat (length g1) + Z.of_nat (length g2))
                  _ ltac:(lia) (lengths_nonneg rest)) as H.
    rewrite sum_lengths in H. nia.
Qed.

Lemma process_all_pages_body_stored `{Py.UnicodeDatabase} w self :
  storage_open (EDSPScraper.storage self) ->
  exists r self' groups,
    EDSPScraper.process_all_pages_body w self = (r, self')
    /\ storage_open (EDSPScraper.storage self')
    /\ EDSPScraper.all_schools self'
       = EDSPScraper.all_schools self ++ concat groups
    /\ written (EDSPScraper.storage self')
       = written (EDSPScraper.storage self) ++ (csv_row <$> concat groups)
    /\ ProcessingStats.total_processed
         (SchoolDataProcessor.stats (EDSPScraper.school_processor self'))
       = ProcessingStats.total_processed
           (SchoolDataProcessor.stats (EDSPScraper.school_processor self))
         + Z.of_nat (length (concat groups))
    /\ match r with
       | Py.Raise _ => True
       | Py.Ok stats =>
           let s := SchoolDataProcessor.stats (EDSPScraper.school_processor self) in
           let t := BatchProcessor.stats (EDSPScraper.batch_processor self) in
           let counts :=
             (fun g : list SchoolData.t => Z.of_nat (length g)) <$> groups in
           stats = BatchProcessor.stats (EDSPScraper.batch_processor self')
           /\ (exists pages batches,
                 EDSPScraper.total_pages w = Py.Ok pages
                 /\ BatchProcessor.create_batches pages 12 = Py.Ok batches
                 /\ length groups = length batches)
           /\ ProcessingStats.total_processed stats
              = ProcessingStats.total_processed t
                + running_total (ProcessingStats.total_processed s) counts
           /\ ProcessingStats.successful stats
              = ProcessingStats.successful t
                + running_total (ProcessingStats.successful s) counts
           /\ ProcessingStats.errors stats
              = ProcessingStats.errors t
                + Z.of_nat (length groups) * ProcessingStats.errors s
           /\ ProcessingStats.skipped stats
              = ProcessingStats.skipped t
                + Z.of_nat (length groups) * ProcessingStats.skipped s
       end.
Proof.
  intros Hopen. unfold EDSPScraper.process_all_pages_body.
  unfold EDSPScraper.bind at 1.
  destruct (EDSPScraper.total_pages w) as [pages|e] eqn:Hpages;
    cbn [EDSPScraper.lift].
  2:{ exists (Py.Raise e), self, [].
      cbn [concat fmap list_fmap length]. rewrite !app_nil_r.
      split; [reflexivity|]. split; [exact Hopen|].
      split; [reflexivity|]. split; [reflexivity|]. split; [lia|done]. }
  unfold EDSPScraper.ret at 1. unfold EDSPScraper.bind at 1.
  destruct (EDSPScraper.total_institutions w) as [institutions|e];
    cbn [EDSPScraper.lift].
  2:{ exists (Py.Raise e), self, [].
      cbn [concat fmap list_fmap length]. rewrite !app_nil_r.
      split; [reflexivity|]. split; [exact Hopen|].
      split; [reflexivity|]. split; [reflexivity|]. split; [lia|done]. }
  unfold EDSPScraper.ret at 1. unfold EDSPScraper.bind at 1.
  unfold EDSPScraper.modify_school_processor at 1.
  unfold EDSPScraper.bind at 1.
  set (self1 := EDSPScraper.make _ _ _ _ _).
  destruct (BatchProcessor.create_batches pages 12) as [batches|e] eqn:Hbatches;
    cbn [EDSPScraper.lift].
  2:{ exists (Py.Raise e), self1, [].
      cbn [concat fmap list_fmap length]. rewrite !app_nil_r.
      split; [reflexivity|]. split; [exact Hopen|].
      split; [reflexivity|]. split; [reflexivity|].
      split; [unfold self1; cbn; lia|done]. }
  unfold EDSPScraper.ret at 1. unfold EDSPScraper.bind at 1.
  assert (Hn : batches <> [] -> Z.of_nat (length batches) <> 0)
    by (destruct batches; [done|cbn [length]; lia]).
  destruct (process_batches_stored w (Z.of_nat (length batches)) batches 1 self1
              Hn Hopen) as (r & self2 & groups & Hrun & O & A & W & C & Hok).
  rewrite Hrun.
  unfold self1 in A, W, C, Hok.
  cbn [EDSPScraper.school_processor EDSPScraper.batch_processor
       EDSPScraper.storage EDSPScraper.all_schools
       EDSPScraper.set_totals SchoolDataProcessor.stats
       ProcessingStats.total_processed ProcessingStats.successful
       ProcessingStats.errors ProcessingStats.skipped] in A, W, C, Hok.
  cbv zeta in C, Hok. destruct C as (C1 & _).
  destruct r as [[]|e].
  - unfold EDSPScraper.bind at 1. unfold EDSPScraper.get at 1.
    unfold EDSPScraper.ret.
    exists (Py.Ok (BatchProcessor.stats (EDSPScraper.batch_processor self2))),
      self2, groups.
    split; [reflexivity|]. split; [exact O|]. split; [exact A|].
    split; [exact W|]. split; [exact C1|].
    destruct (Hok eq_refl) as (L & H1 & H2 & H3 & H4).
    cbv zeta. split; [reflexivity|].
    split; [exists pages, batches; by repeat split|].
    rewrite L. by repeat split.
  - exists (Py.Raise e), self2, groups.
    split; [reflexivity|]. split; [exact O|]. split; [exact A|].
    split; [exact W|]. split; [exact C1|done].
Qed.

(** The frame shared by [process_all_pages] and [process_sample]: reset
    and initialisation before the [try] block [body], [force_save] in the
    [except] clause, [close] in the [finally] clause. *)
Lemma guarded_run_outcome {A} (body : EDSPScraper.M A)
    (w : EDSPScraper.run_world) (self : EDSPScraper.t)
    (run : Py.result A * EDSPScraper.t) :
  run
  = EDSPScraper.bind
      (EDSPScraper.modify_school_processor
         SchoolDataProcessor.reset_processing_state)
      (fun _ =>
         EDSPScraper.bind (EDSPScraper.now (EDSPScraper.batch_world w 0))
           (fun t =>
              EDSPScraper.bind
                (EDSPScraper.storage_call
                   (CSVStorage.initialize_csv t (EDSPScraper.open_file w) None))
                (fun _ self =>
                   let '(r, self) := body self in
                   let self :=
                     match r with
                     | Py.Ok _ => self
                     | Py.Raise _ =>
                         snd (EDSPScraper.storage_call CSVStorage.force_save self)
                     end in
                   let self :=
                     snd (EDSPScraper.storage_call CSVStorage.close self) in
                   (r, self))))
      self ->
  let path :=
    CSVStorage.path_join (CSVStorage.output_dir (EDSPScraper.storage self))
      (chosen_filename
         (EDSPScraper.run_clock w (EDSPScraper.clock_reads self)) None) in
  match EDSPScraper.open_file w path with
  | Py.Raise e =>
      exists self',
        run = (Py.Raise e, self')
        /\ CSVStorage.csv_file (EDSPScraper.storage self')
           = CSVStorage.csv_file (EDSPScraper.storage self)
        /\ CSVStorage.csv_writer (EDSPScraper.storage self')
           = CSVStorage.csv_writer (EDSPScraper.storage self)
        /\ EDSPScraper.all_schools self' = EDSPScraper.all_schools self
  | Py.Ok _ =>
      exists self1,
        storage_open (EDSPScraper.storage self1)
        /\ written (EDSPScraper.storage self1)
           = [Py.lit <$> CSVStorage.fieldnames]
        /\ EDSPScraper.school_processor self1
           = SchoolDataProcessor.reset_processing_state
               (EDSPScraper.school_processor self)
        /\ EDSPScraper.batch_processor self1 = EDSPScraper.batch_processor self
        /\ EDSPScraper.all_schools self1 = EDSPScraper.all_schools self
        /\ forall r self2,
             body self1 = (r, self2) ->
             storage_open (EDSPScraper.storage self2) ->
             exists self',
               run = (r, self')
               /\ storage_closed (EDSPScraper.storage self')
               /\ durable (EDSPScraper.storage self')
                  = written (EDSPScraper.storage self2)
               /\ EDSPScraper.school_processor self'
                  = EDSPScraper.school_processor self2
               /\ EDSPScraper.batch_processor self'
                  = EDSPScraper.batch_processor self2
               /\ EDSPScraper.all_schools self' = EDSPScraper.all_schools self2
  end.
Proof.
  intros Hrun path.
  destruct self as [sp bp st all cr]. destruct st as [dir fname0 w0 file0].
  cbn [EDSPScraper.storage EDSPScraper.clock_reads CSVStorage.output_dir
       EDSPScraper.all_schools EDSPScraper.batch_processor
       EDSPScraper.school_processor
       CSVStorage.csv_file CSVStorage.csv_writer] in path |- *.
  set (self1 :=
         EDSPScraper.make (SchoolDataProcessor.reset_processing_state sp) bp
           (CSVStorage.make dir (Some path)
              (Some (CSVStorage.make_writer CSVStorage.fieldnames))
              (Some (TextFile.make false [Py.lit <$> CSVStorage.fieldnames] [] []
                       [TextFile.EvWrite (Py.lit <$> CSVStorage.fieldnames)])))
           all (S cr)).
  assert (Heq :
    EDSPScraper.bind
      (EDSPScraper.modify_school_processor
         SchoolDataProcessor.reset_processing_state)
      (fun _ =>
         EDSPScraper.bind (EDSPScraper.now (EDSPScraper.batch_world w 0))
           (fun t =>
              EDSPScraper.bind
                (EDSPScraper.storage_call
                   (CSVStorage.initialize_csv t (EDSPScraper.open_file w) None))
                (fun _ self =>
                   let '(r, self) := body self in
                   let self :=
                     match r with
                     | Py.Ok _ => self
                     | Py.Raise _ =>
                         snd (EDSPScraper.storage_call CSVStorage.force_save self)
                     end in
                   let self :=
                     snd (EDSPScraper.storage_call CSVStorage.close self) in
                   (r, self))))
      (EDSPScraper.make sp bp (CSVStorage.make dir fname0 w0 file0) all cr)
    = match EDSPScraper.open_file w path with
      | Py.Raise e =>
          (Py.Raise e,
           EDSPScraper.make (SchoolDataProcessor.reset_processing_state sp) bp
             (CSVStorage.make dir (Some path) w0 file0) all (S cr))
      | Py.Ok _ =>
          let '(r, self2) := body self1 in
          (r, snd (EDSPScraper.storage_call CSVStorage.close
                     match r with
                     | Py.Ok _ => self2
                     | Py.Raise _ =>
                         snd (EDSPScraper.storage_call CSVStorage.force_save self2)
                     end))
      end).
  { unfold EDSPScraper.bind at 1.
    unfold EDSPScraper.modify_school_processor at 1.
    cbn [EDSPScraper.school_processor EDSPScraper.batch_processor
         EDSPScraper.storage EDSPScraper.all_schools EDSPScraper.clock_reads].
    unfold EDSPScraper.bind at 1. unfold EDSPScraper.now at 1.
    cbn [EDSPScraper.school_processor EDSPScraper.batch_processor
         EDSPScraper.storage EDSPScraper.all_schools EDSPScraper.clock_reads
         EDSPScraper.batch_world EDSPScraper.clock].
    unfold EDSPScraper.bind at 1. unfold EDSPScraper.storage_call at 1.
    cbn [EDSPScraper.school_processor EDSPScraper.batch_processor
         EDSPScraper.storage EDSPScraper.all_schools EDSPScraper.clock_reads].
    rewrite (initialize_csv_eq (EDSPScraper.run_clock w cr)
               (EDSPScraper.open_file w) None dir fname0 w0 file0).
    cbv zeta. fold path.
    destruct (EDSPScraper.open_file w path) as [[]|e]; reflexivity. }
  rewrite Heq in Hrun. clear Heq. subst run.
  destruct (EDSPScraper.open_file w path) as [[]|e].
  2:{ eexists. split; [reflexivity|]. by repeat split. }
  exists self1.
  split; [split; [reflexivity|]; eexists; split; reflexivity|].
  do 4 (split; [reflexivity|]).
  intros r self2 Hbody O. rewrite Hbody.
  destruct self2 as [sp2 bp2 st2 all2 cr2]. destruct st2 as [dir2 fname2 w2 file2].
  cbn [EDSPScraper.school_processor EDSPScraper.batch_processor
       EDSPScraper.storage EDSPScraper.all_schools] in *.
  destruct O as [Hw2 (f & Hf & Hc)].
  cbn [CSVStorage.csv_writer CSVStorage.csv_file] in Hw2, Hf. subst w2 file2.
  unfold written. cbn [CSVStorage.csv_file].
  destruct r as [a|e].
  - unfold EDSPScraper.storage_call. cbn [EDSPScraper.storage].
    rewrite (close_open dir2 fname2 _ f Hc). cbn [snd].
    eexists. split; [reflexivity|].
    cbn [EDSPScraper.school_processor EDSPScraper.batch_processor
         EDSPScraper.storage EDSPScraper.all_schools].
    split; [split; [reflexivity|]; eexists; split; reflexivity|].
    by repeat split.
  - unfold EDSPScraper.storage_call at 2. cbn [EDSPScraper.storage].
    rewrite (force_save_open dir2 fname2 _ f Hc). cbn [snd].
    unfold EDSPScraper.storage_call.
    cbn [EDSPScraper.storage EDSPScraper.school_processor
         EDSPScraper.batch_processor EDSPScraper.all_schools
         EDSPScraper.clock_reads].
    rewrite (close_open dir2 fname2 _
               (TextFile.make false [] (TextFile.kernel f ++ TextFile.buffer f)
                  (TextFile.kernel f ++ TextFile.buffer f)
                  ((TextFile.events f ++ [TextFile.EvFlush])
                   ++ [TextFile.EvFsync])) eq_refl).
    cbn [snd]. eexists. split; [reflexivity|].
    cbn [EDSPScraper.school_processor EDSPScraper.batch_processor
         EDSPScraper.storage EDSPScraper.all_schools].
    split; [split; [reflexivity|]; eexists; split; reflexivity|].
    unfold durable.
    cbn [CSVStorage.csv_file TextFile.disk TextFile.kernel TextFile.buffer].
    split; [by rewrite app_nil_r|]. by repeat split.
Qed.

Lemma process_all_pages_run `{Py.UnicodeDatabase} w self :
  let path :=
    CSVStorage.path_join (CSVStorage.output_dir (EDSPScraper.storage self))
      (chosen_filename
         (EDSPScraper.run_clock w (EDSPScraper.clock_reads self)) None) in
  match EDSPScraper.open_file w path with
  | Py.Raise e =>
      exists self',
        EDSPScraper.process_all_pages w self = (Py.Raise e, self')
        /\ CSVStorage.csv_file (EDSPScraper.storage self')
           = CSVStorage.csv_file (EDSPScraper.storage self)
        /\ CSVStorage.csv_writer (EDSPScraper.storage self')
           = CSVStorage.csv_writer (EDSPScraper.storage self)
        /\ EDSPScraper.all_schools self' = EDSPScraper.all_schools self
  | Py.Ok _ =>
      exists r self' groups,
        EDSPScraper.process_all_pages w self = (r, self')
        /\ storage_closed (EDSPScraper.storage self')
        /\ durable (EDSPScraper.storage self')
           = (Py.lit <$> CSVStorage.fieldnames) :: (csv_row <$> concat groups)
        /\ EDSPScraper.all_schools self'
           = EDSPScraper.all_schools self ++ concat groups
        /\ ProcessingStats.total_processed
             (SchoolDataProcessor.stats (EDSPScraper.school_processor self'))
           = Z.of_nat (length (concat groups))
        /\ match r with
           | Py.Raise _ => True
           | Py.Ok stats =>
               let t := BatchProcessor.stats (EDSPScraper.batch_processor self) in
               let counts :=
                 (fun g : list SchoolData.t => Z.of_nat (length g)) <$> groups in
               stats = BatchProcessor.stats (EDSPScraper.batch_processor self')
               /\ (exists pages batches,
                     EDSPScraper.total_pages w = Py.Ok pages
                     /\ BatchProcessor.create_batches pages 12 = Py.Ok batches
                     /\ length groups = length batches)
               /\ ProcessingStats.total_processed stats
                  = ProcessingStats.total_processed t + running_total 0 counts
               /\ ProcessingStats.successful stats
                  = ProcessingStats.successful t + running_total 0 counts
               /\ ProcessingStats.errors stats = ProcessingStats.errors t
               /\ ProcessingStats.skipped stats = ProcessingStats.skipped t
           end
  end.
Proof.
  intros path.
  pose proof (guarded_run_outcome (EDSPScraper.process_all_pages_body w) w self
                (EDSPScraper.process_all_pages w self) eq_refl) as G.
  cbv zeta in G. fold path in G.
  destruct (EDSPScraper.open_file w path) as [[]|e]; [|exact G].
  destruct G as (self1 & Hopen1 & Hw1 & Hsp1 & Hbp1 & Hall1 & Hfin).
  destruct (process_all_pages_body_stored w self1 Hopen1)
    as (r & self2 & groups & Hrun & O & A & W & C & Hr).
  destruct (Hfin r self2 Hrun O) as (self' & Heq & Hc & Hd & Hsp & Hbp & Hall).
  exists r, self', groups.
  split; [exact Heq|]. split; [exact Hc|].
  split; [by rewrite Hd, W, Hw1|].
  split; [by rewrite Hall, A, Hall1|].
  rewrite Hsp1 in C, Hr. rewrite Hbp1 in Hr.
  cbn [SchoolDataProcessor.reset_processing_state SchoolDataProcessor.stats
       ProcessingStats.init ProcessingStats.total_processed
       ProcessingStats.successful ProcessingStats.errors
       ProcessingStats.skipped] in C, Hr.
  split; [rewrite Hsp; lia|].
  destruct r as [stats|e]; [|done].
  cbv zeta in Hr. destruct Hr as (R0 & R1 & R2 & R3 & R4 & R5).
  cbv zeta. split; [by rewrite Hbp|]. split; [exact R1|].
  split; [exact R2|]. split; [exact R3|]. split; lia.
Qed.


(** X22.  When [process_all_pages] returns, the statistics it returns are
    the run totals, and they count an entity once for its own batch and
    once more for every later batch: [process_batch] returns the
    statistics object of the school processor, which is not reset
    between batches, and [merge_stats] adds it to the totals after every
    batch.  With the entities grouped by batch, total processed and
    successful grow by the sum of the running counts; this is at least
    the number of entities, and exceeds it by at least the size of the
    first batch when there are two batches or more.  The counters errors
    and skipped of the totals keep their value. *)
Theorem process_all_pages_overcounts `{Py.UnicodeDatabase}
    (w : EDSPScraper.run_world) (self self' : EDSPScraper.t)
    (stats : ProcessingStats.t)
    (Hrun : EDSPScraper.process_all_pages w self = (Py.Ok stats, self')) :
  exists groups : list (list SchoolData.t),
    let before := BatchProcessor.stats (EDSPScraper.batch_processor self) in
    let counts := (fun g : list SchoolData.t => Z.of_nat (length g)) <$> groups in
    EDSPScraper.all_schools self' = EDSPScraper.all_schools self ++ concat groups
    /\ (exists pages batches,
          EDSPScraper.total_pages w = Py.Ok pages
          /\ BatchProcessor.create_batches pages 12 = Py.Ok batches
          /\ length groups = length batches)
    /\ stats = BatchProcessor.stats (EDSPScraper.batch_processor self')
    /\ ProcessingStats.total_processed stats
       = ProcessingStats.total_processed before + running_total 0 counts
    /\ ProcessingStats.successful stats
       = ProcessingStats.successful before + running_total 0 counts
    /\ ProcessingStats.errors stats = ProcessingStats.errors before
    /\ ProcessingStats.skipped stats = ProcessingStats.skipped before
    /\ Z.of_nat (length (concat groups)) <= running_total 0 counts
    /\ (forall g1 g2 rest,
          groups = g1 :: g2 :: rest ->
          Z.of_nat (length (concat groups)) + Z.of_nat (length g1)
          <= running_total 0 counts).
Proof.
  pose proof (process_all_pages_run w self) as Hall. cbv zeta in Hall.
  destruct (EDSPScraper.open_file w _) as [[]|e].
  2:{ destruct Hall as (self1 & Heq & _). rewrite Heq in Hrun. discriminate. }
  destruct Hall as (r & self1 & groups & Heq & _ & _ & Ha & _ & Hr).
  rewrite Heq in Hrun. injection Hrun as -> ->.
  cbv zeta in Hr. destruct Hr as (R0 & R1 & R2 & R3 & R4 & R5).
  exists groups. cbv zeta.
  destruct (running_total_overcounts groups) as [Hge Hgt].
  split; [exact Ha|]. split; [exact R1|]. split; [exact R0|].
  split; [exact R2|]. split; [exact R3|]. split; [exact R4|].
  split; [exact R5|]. split; [exact Hge|exact Hgt].
Qed.

(** The sample run stores two entities and reports four. *)
Lemma sample_run_totals :
  match fst sample_run_result with
  | Py.Ok stats =>
      ProcessingStats.total_processed stats = 4
      /\ ProcessingStats.successful stats = 4
  | Py.Raise _ => False
  end
  /\ length (EDSPScraper.all_schools (snd sample_run_result)) = 2%nat
  /\ fsync_count (EDSPScraper.storage (snd sample_run_result)) = 1%nat.
Proof. vm_compute. by repeat split. Qed.

Lemma process_all_pages_overcounts_witness :
  exists groups : list (list SchoolData.t),
    EDSPScraper.all_schools (snd sample_run_result) = [] ++ concat groups
    /\ length groups = 2%nat.
Proof.
  destruct (process_all_pages_overcounts (H := ascii_only_database)
              sample_run (EDSPScraper.init (Py.lit "results"))
              (snd sample_run_result)
              (match fst sample_run_result with
               | Py.Ok stats => stats
               | Py.Raise _ => ProcessingStats.init
               end))
    as (groups & Ha & (pages & batches & Hp & Hb & Hl) & _).
  { vm_compute. reflexivity. }
  exists groups. split; [exact Ha|].
  injection Hp as <-. rewrite Hl.
  apply (f_equal (fun r => match r with Py.Ok l => length l | _ => 0%nat end)) in Hb.
  rewrite <- Hb. reflexivity.
Defined.

(** * Batches: pages counted, and entities after the storage was closed *)

Lemma range_step_one start stop :
  exists pages,
    Py.range start stop 1 = Py.Ok pages
    /\ Z.of_nat (length pages) = Z.max 0 (stop - start)
    /\ (pages = [] <-> stop <= start).
Proof.
  unfold Py.range. cbn [Z.eqb Z.ltb Z.compare].
  eexists. split; [reflexivity|].
  rewrite length_fmap, length_seq.
  destruct (Z.ltb_spec start stop).
  - rewrite Z.div_1_r. split; [lia|].
    split; [|lia]. intros E. apply fmap_nil_inv in E.
    apply (f_equal length) in E. rewrite length_seq in E. cbn in E. lia.
  - split; [cbn; lia|]. split; [lia|reflexivity].
Qed.



Lemma write_single_school_closed st school :
  storage_closed st ->
  CSVStorage.write_single_school school st = (Py.Raise TextFile.closed_error, st).
Proof.
  intros [Hw (f & Hf & Hc)].
  destruct st as [dir fname w file].
  cbn [CSVStorage.csv_writer CSVStorage.csv_file] in *. subst w file.
  unfold CSVStorage.write_single_school, CSVStorage.write_school_data.
  unfold CSVStorage.bind at 1. unfold CSVStorage.bind at 1.
  unfold CSVStorage.get at 1. cbn [CSVStorage.csv_writer].
  unfold CSVStorage.writerow. cbn [CSVStorage.writer_fieldnames].
  rewrite (to_dict_fields school).
  unfold CSVStorage.file_call, CSVStorage.bind, CSVStorage.get.
  cbn [CSVStorage.csv_file]. unfold TextFile.write. rewrite Hc.
  reflexivity.
Qed.

Lemma process_school_data_counts `{Py.UnicodeDatabase} w raw_data self :
  exists school self',
    EDSPScraper.process_school_data w raw_data self = (Py.Ok school, self')
    /\ EDSPScraper.storage self' = EDSPScraper.storage self
    /\ EDSPScraper.all_schools self' = EDSPScraper.all_schools self
    /\ ProcessingStats.total_processed
         (SchoolDataProcessor.stats (EDSPScraper.school_processor self'))
       = ProcessingStats.total_processed
           (SchoolDataProcessor.stats (EDSPScraper.school_processor self)) + 1
    /\ ProcessingStats.pages_processed
         (SchoolDataProcessor.stats (EDSPScraper.school_processor self'))
       = ProcessingStats.pages_processed
           (SchoolDataProcessor.stats (EDSPScraper.school_processor self)).
Proof.
  unfold EDSPScraper.process_school_data.
  destruct (EDSPScraper.success_arguments raw_data) as [[[[n c] u] d]|e];
    (eexists; eexists; split; [reflexivity|]); by repeat split.
Qed.

Lemma handle_raw_data_closed `{Py.UnicodeDatabase} w raw_data self :
  storage_closed (EDSPScraper.storage self) ->
  exists school self',
    EDSPScraper.handle_raw_data w raw_data self
    = (Py.Raise TextFile.closed_error, self')
    /\ EDSPScraper.storage self' = EDSPScraper.storage self
    /\ EDSPScraper.all_schools self' = EDSPScraper.all_schools self ++ [school]
    /\ ProcessingStats.total_processed
         (SchoolDataProcessor.stats (EDSPScraper.school_processor self'))
       = ProcessingStats.total_processed
           (SchoolDataProcessor.stats (EDSPScraper.school_processor self)) + 1
    /\ ProcessingStats.pages_processed
         (SchoolDataProcessor.stats (EDSPScraper.school_processor self'))
       = ProcessingStats.pages_processed
           (SchoolDataProcessor.stats (EDSPScraper.school_processor self)).
Proof.
  intros Hclosed.
  destruct (process_school_data_counts w raw_data self)
    as (school & self1 & Hrun & Hs & Ha & Ht & Hp).
  unfold EDSPScraper.handle_raw_data.
  unfold EDSPScraper.bind at 1. rewrite Hrun.
  unfold EDSPScraper.bind at 1. unfold EDSPScraper.append_all_schools at 1.
  unfold EDSPScraper.bind at 1. unfold EDSPScraper.storage_call at 1.
  cbn [EDSPScraper.storage]. rewrite Hs.
  rewrite (write_single_school_closed _ school Hclosed).
  exists school. eexists. split; [reflexivity|].
  cbn [EDSPScraper.storage EDSPScraper.all_schools
       EDSPScraper.school_processor].
  split; [reflexivity|]. split; [by rewrite Ha|]. by split.
Qed.

Lemma handle_all_results_closed `{Py.UnicodeDatabase} w pages :
  forall self,
    storage_closed (EDSPScraper.storage self) ->
    match gathered_dicts w pages with
    | [] =>
        EDSPScraper.handle_all_results w
          ((fun page_num =>
              BrowserManager.process_page_parallel (EDSPScraper.page w page_num)
                page_num) <$> pages) self
        = (Py.Ok [], self)
    | _ :: _ =>
        exists school self',
          EDSPScraper.handle_all_results w
            ((fun page_num =>
                BrowserManager.process_page_parallel (EDSPScraper.page w page_num)
                  page_num) <$> pages) self
          = (Py.Raise TextFile.closed_error, self')
          /\ EDSPScraper.storage self' = EDSPScraper.storage self
          /\ EDSPScraper.all_schools self'
             = EDSPScraper.all_schools self ++ [school]
          /\ ProcessingStats.total_processed
               (SchoolDataProcessor.stats (EDSPScraper.school_processor self'))
             = ProcessingStats.total_processed
                 (SchoolDataProcessor.stats (EDSPScraper.school_processor self)) + 1
          /\ ProcessingStats.pages_processed
               (SchoolDataProcessor.stats (EDSPScraper.school_processor self'))
             = ProcessingStats.pages_processed
                 (SchoolDataProcessor.stats (EDSPScraper.school_processor self))
    end.
Proof.
  induction pages as [|p pages IH]; intros self Hclosed; [reflexivity|].
  unfold gathered_dicts. rewrite fmap_cons, bind_cons.
  fold (gathered_dicts w pages).
  cbn [EDSPScraper.handle_all_results].
  destruct (BrowserManager.process_page_parallel (EDSPScraper.page w p) p)
    as [[|d ds]|e].
  - cbn [app EDSPScraper.handle_page_results].
    specialize (IH self Hclosed).
    destruct (gathered_dicts w pages) as [|d' ds'].
    + unfold EDSPScraper.bind, EDSPScraper.ret. by rewrite IH.
    + destruct IH as (school & self' & Hrun & Hrest).
      exists school, self'. unfold EDSPScraper.bind, EDSPScraper.ret.
      by rewrite Hrun.
  - cbn [app EDSPScraper.handle_page_results].
    destruct (handle_raw_data_closed w d self Hclosed)
      as (school & self' & Hrun & Hrest).
    exists school, self'.
    unfold EDSPScraper.bind at 1. unfold EDSPScraper.bind at 1.
    by rewrite Hrun.
  - cbn [app]. apply (IH self Hclosed).
Qed.

Lemma process_batch_closed_run `{Py.UnicodeDatabase} w batch_config self pages :
  storage_closed (EDSPScraper.storage self) ->
  EDSPScraper.launch w = Py.Ok tt ->
  Py.range (BatchConfig.start_page batch_config)
    (Z.min (BatchConfig.end_page batch_config)
       (ProcessingStats.total_pages
          (SchoolDataProcessor.stats (EDSPScraper.school_processor self))) + 1) 1
  = Py.Ok pages ->
  exists r self',
    EDSPScraper.process_batch w batch_config self = (r, self')
    /\ match gathered_dicts w pages with
       | [] =>
           EDSPScraper.all_schools self' = EDSPScraper.all_schools self
           /\ EDSPScraper.storage self' = EDSPScraper.storage self
           /\ Py.is_ok r = Py.is_ok (EDSPScraper.shutdown w)
       | _ :: _ =>
           r = Py.Raise TextFile.closed_error
           /\ EDSPScraper.storage self' = EDSPScraper.storage self
           /\ (exists school,
                 EDSPScraper.all_schools self'
                 = EDSPScraper.all_schools self ++ [school])
           /\ ProcessingStats.total_processed
                (SchoolDataProcessor.stats (EDSPScraper.school_processor self'))
              = ProcessingStats.total_processed
                  (SchoolDataProcessor.stats (EDSPScraper.school_processor self))
                + 1
           /\ ProcessingStats.pages_processed
                (SchoolDataProcessor.stats (EDSPScraper.school_processor self'))
              = ProcessingStats.pages_processed
                  (SchoolDataProcessor.stats (EDSPScraper.school_processor self))
       end.
Proof.
  intros Hclosed Hlaunch Hrange.
  pose proof (handle_all_results_closed w pages self Hclosed) as Hall.
  destruct pages as [|p pages].
  - cbn [gathered_dicts mbind list_bind].
    destruct (EDSPScraper.shutdown w) as [[]|e] eqn:Hsd;
      (eexists; eexists; split;
       [unfold EDSPScraper.process_batch;
        unfold EDSPScraper.bind at 1; rewrite Hlaunch;
        cbn [EDSPScraper.lift EDSPScraper.ret];
        unfold EDSPScraper.bind at 1; unfold EDSPScraper.get at 1;
        rewrite Hrange; cbn [EDSPScraper.lift];
        unfold EDSPScraper.bind, EDSPScraper.ret, EDSPScraper.get;
        rewrite Hsd; reflexivity|]); by repeat split.
  - destruct (gathered_dicts w (p :: pages)) as [|d ds].
    + destruct (EDSPScraper.shutdown w) as [[]|e] eqn:Hsd;
        (eexists; eexists; split;
         [unfold EDSPScraper.process_batch;
          unfold EDSPScraper.bind at 1; rewrite Hlaunch;
          cbn [EDSPScraper.lift EDSPScraper.ret];
          unfold EDSPScraper.bind at 1; unfold EDSPScraper.get at 1;
          rewrite Hrange; cbn [EDSPScraper.lift];
          unfold EDSPScraper.bind at 1; unfold EDSPScraper.ret at 1;
          unfold EDSPScraper.bind at 1; unfold EDSPScraper.bind at 1;
          unfold EDSPScraper.bind at 1; rewrite Hall;
          unfold EDSPScraper.bind, EDSPScraper.modify_school_processor,
            EDSPScraper.ret, EDSPScraper.get;
          rewrite Hsd; reflexivity|]); by repeat split.
    + destruct Hall as (school & self' & Hrun & Hs & Ha & Ht & Hp).
      exists (Py.Raise TextFile.closed_error), self'.
      split.
      { unfold EDSPScraper.process_batch.
        unfold EDSPScraper.bind at 1. rewrite Hlaunch.
        cbn [EDSPScraper.lift EDSPScraper.ret].
        unfold EDSPScraper.bind at 1. unfold EDSPScraper.get at 1.
        rewrite Hrange. cbn [EDSPScraper.lift].
        unfold EDSPScraper.bind at 1. unfold EDSPScraper.ret at 1.
        unfold EDSPScraper.bind at 1. unfold EDSPScraper.bind at 1.
        unfold EDSPScraper.bind at 1. rewrite Hrun. reflexivity. }
      split; [reflexivity|]. split; [exact Hs|].
      split; [by exists school|]. by split.
Qed.

(** X24.  [process_batch] on a storage that has been closed (the signal
    handler closes it while a run is under way), with a browser that
    starts.  If no page task of the batch returns a dictionary, no
    entity is produced and the storage is not touched.  Otherwise the
    first dictionary is turned into an entity that is counted and
    appended to [all_schools], the write raises the ValueError of a
    closed file, and [process_batch] raises it: the entity is not
    stored, pages processed is not updated, and the browser is not shut
    down by the function. *)
Theorem process_batch_after_close `{Py.UnicodeDatabase}
    (w : EDSPScraper.world) (batch_config : BatchConfig.t)
    (self : EDSPScraper.t)
    (Hclosed : storage_closed (EDSPScraper.storage self))
    (Hlaunch : EDSPScraper.launch w = Py.Ok tt) :
  let stats0 := SchoolDataProcessor.stats (EDSPScraper.school_processor self) in
  exists pages,
    Py.range (BatchConfig.start_page batch_config)
      (Z.min (BatchConfig.end_page batch_config)
         (ProcessingStats.total_pages stats0) + 1) 1 = Py.Ok pages
    /\ match gathered_dicts w pages with
       | [] =>
           exists r self',
             EDSPScraper.process_batch w batch_config self = (r, self')
             /\ EDSPScraper.all_schools self' = EDSPScraper.all_schools self
             /\ EDSPScraper.storage self' = EDSPScraper.storage self
             /\ (Py.is_ok r = Py.is_ok (EDSPScraper.shutdown w))
       | _ :: _ =>
           exists school self',
             EDSPScraper.process_batch w batch_config self
             = (Py.Raise TextFile.closed_error, self')
             /\ EDSPScraper.all_schools self'
                = EDSPScraper.all_schools self ++ [school]
             /\ EDSPScraper.storage self' = EDSPScraper.storage self
             /\ (let stats' :=
                   SchoolDataProcessor.stats (EDSPScraper.school_processor self') in
                 ProcessingStats.total_processed stats'
                 = ProcessingStats.total_processed stats0 + 1
                 /\ ProcessingStats.pages_processed stats'
                    = ProcessingStats.pages_processed stats0)
       end.
Proof.
  intros stats0.
  destruct (range_step_one (BatchConfig.start_page batch_config)
              (Z.min (BatchConfig.end_page batch_config)
                 (ProcessingStats.total_pages stats0) + 1))
    as (pages & Hrange & _ & _).
  exists pages. split; [exact Hrange|].
  destruct (process_batch_closed_run w batch_config self pages
              Hclosed Hlaunch Hrange) as (r & self' & Hrun & Hcase).
  destruct (gathered_dicts w pages) as [|d ds].
  - exists r, self'. destruct Hcase as (Ha & Hs & Hr). by repeat split.
  - destruct Hcase as (-> & Hs & (school & Ha) & Ht & Hp).
    exists school, self'. cbv zeta. by repeat split.
Qed.

Lemma process_batch_after_close_witness :
  exists school self',
    EDSPScraper.process_batch (H := ascii_only_database) sample_world
      sample_batch closed_scraper
    = (Py.Raise TextFile.closed_error, self')
    /\ EDSPScraper.all_schools self' = [] ++ [school].
Proof.
  destruct (process_batch_after_close (H := ascii_only_database)
              sample_world sample_batch closed_scraper)
    as (pages & Hrange & Hcase).
  { split; [vm_compute; reflexivity|].
    eexists. split; [vm_compute; reflexivity|reflexivity]. }
  { reflexivity. }
  vm_compute in Hrange. injection Hrange as <-.
  assert (Hlen : length (gathered_dicts sample_world [1]) = 2%nat)
    by (vm_compute; reflexivity).
  destruct (gathered_dicts sample_world [1]) as [|d ds];
    [discriminate Hlen|].
  destruct Hcase as (school & self' & Hrun & Ha & _).
  exists school, self'. split; [exact Hrun|exact Ha].
Defined.

(** * The sample run *)




(** * The interrupt handler *)

(** X26.  [signal_handler] without a scraper instance does nothing.  With
    an instance whose storage is open it saves and closes: the storage
    ends closed, every row written so far is on stable storage, and the
    file was synchronised twice, once by [force_save] and once by
    [close].  With an instance whose storage was never initialised, or
    whose file is already closed, it leaves the instance as it is: on a
    closed file [force_save] raises, [close] is not reached, and the
    handler absorbs the error. *)
Theorem signal_handler_saves_and_closes (self : EDSPScraper.t) :
  Main.signal_handler None = None
  /\ match CSVStorage.csv_file (EDSPScraper.storage self) with
     | None => Main.signal_handler (Some self) = Some self
     | Some f =>
         if TextFile.closed f
         then Main.signal_handler (Some self) = Some self
         else
           exists self',
             Main.signal_handler (Some self) = Some self'
             /\ (exists f',
                   CSVStorage.csv_file (EDSPScraper.storage self') = Some f'
                   /\ TextFile.closed f' = true)
             /\ durable (EDSPScraper.storage self')
                = written (EDSPScraper.storage self)
             /\ pending (EDSPScraper.storage self') = []
             /\ fsync_count (EDSPScraper.storage self')
                = (fsync_count (EDSPScraper.storage self) + 2)%nat
             /\ EDSPScraper.all_schools self' = EDSPScraper.all_schools self
             /\ EDSPScraper.school_processor self'
                = EDSPScraper.school_processor self
             /\ EDSPScraper.batch_processor self'
                = EDSPScraper.batch_processor self
     end.
Proof.
  split; [reflexivity|].
  destruct self as [sp bp st all cr]. destruct st as [dir fname wr file].
  cbn [EDSPScraper.storage CSVStorage.csv_file].
  destruct file as [f|]; [|reflexivity].
  destruct (TextFile.closed f) eqn:Hc.
  - unfold Main.signal_handler, EDSPScraper.bind.
    unfold EDSPScraper.storage_call at 1. cbn [EDSPScraper.storage].
    unfold CSVStorage.force_save. unfold CSVStorage.bind at 1.
    unfold CSVStorage.get at 1. cbn [CSVStorage.csv_file].
    unfold CSVStorage.bind at 1. unfold CSVStorage.file_call at 1.
    unfold CSVStorage.bind at 1. unfold CSVStorage.get at 1.
    cbn [CSVStorage.csv_file]. unfold CSVStorage.bind at 1.
    unfold TextFile.flush. rewrite Hc. reflexivity.
  - unfold Main.signal_handler, EDSPScraper.bind.
    unfold EDSPScraper.storage_call at 1. cbn [EDSPScraper.storage].
    rewrite (force_save_open dir fname wr f Hc).
    unfold EDSPScraper.storage_call.
    cbn [EDSPScraper.storage EDSPScraper.school_processor
         EDSPScraper.batch_processor EDSPScraper.all_schools
         EDSPScraper.clock_reads].
    rewrite (close_open dir fname wr
               (TextFile.make false [] (TextFile.kernel f ++ TextFile.buffer f)
                  (TextFile.kernel f ++ TextFile.buffer f)
                  ((TextFile.events f ++ [TextFile.EvFlush])
                   ++ [TextFile.EvFsync])) eq_refl).
    cbn [snd]. eexists. split; [reflexivity|].
    cbn [EDSPScraper.storage EDSPScraper.school_processor
         EDSPScraper.batch_processor EDSPScraper.all_schools].
    split; [eexists; split; reflexivity|].
    unfold durable, written, pending, fsync_count.
    cbn [CSVStorage.csv_file TextFile.disk TextFile.kernel TextFile.buffer
         TextFile.events].
    split; [by rewrite app_nil_r|]. split; [reflexivity|].
    split; [|by repeat split].
    rewrite !List.filter_app. cbn [List.filter].
    rewrite !length_app. cbn [length]. lia.
Qed.
